(** * Sliger: a shallow embedding of the slide templating pipeline

    The development follows the layout of the Python package:
    - [Py]           the fragment of Python's [str], [dict] and [list]
                     behaviour that the package relies on;
    - [slides_utils] extraction of text records and request builders;
    - [jinja_utils]  the ordinal date helper and the render wrapper;
    - [cli]          the command orchestrators, written in a state and
                     exception monad over the external services.

    Python strings are sequences of Unicode code points, API payloads are
    JSON values, exceptions are values of [exn] carried by [result]. *)

From Stdlib Require Import Ascii String DecimalString.
From Stdlib Require Import List ZArith NArith Lia Bool.
Import ListNotations.

Set Implicit Arguments.
Set Warnings "-register-all".

(* ================================================================== *)
(** * Python values *)
(* ================================================================== *)

Module Py.

(** A Python [str] is a sequence of code points. *)
Definition codepoint := N.
Definition str := list codepoint.

(** Literal of the source text, read as code points. *)
Definition py (s : string) : str := map N_of_ascii (list_ascii_of_string s).

Definition str_eqb (a b : str) : bool :=
  if list_eq_dec N.eq_dec a b then true else false.

(** [str.isspace] for one character: the code points CPython classifies
    as whitespace. *)
Definition isspace (c : codepoint) : bool :=
  ((9 <=? c) && (c <=? 13) || (28 <=? c) && (c <=? 32)
   || (c =? 133) || (c =? 160) || (c =? 5760)
   || (8192 <=? c) && (c <=? 8202)
   || (c =? 8232) || (c =? 8233) || (c =? 8239) || (c =? 8287)
   || (c =? 12288))%N.

Fixpoint lstrip (s : str) : str :=
  match s with
  | [] => []
  | c :: r => if isspace c then lstrip r else s
  end.

Definition rstrip (s : str) : str := rev (lstrip (rev s)).

(** [s.strip()] *)
Definition strip (s : str) : str := rstrip (lstrip s).

(** [s.startswith(p)], returning what follows the prefix. *)
Fixpoint strip_prefix (p s : str) : option str :=
  match p, s with
  | [], _ => Some s
  | _ :: _, [] => None
  | a :: p', b :: s' => if N.eqb a b then strip_prefix p' s' else None
  end.

Definition startswith (p s : str) : bool :=
  match strip_prefix p s with Some _ => true | None => false end.

(** [sub in s] on strings. *)
Fixpoint contains (sub s : str) : bool :=
  startswith sub s ||
  match s with
  | [] => false
  | _ :: r => contains sub r
  end.

(** [s.replace(old, new)]: occurrences are found left to right and do
    not overlap; [skip] counts the characters of an occurrence that are
    still to be dropped. *)
Fixpoint replace_from (old new : str) (skip : nat) (s : str) : str :=
  match s with
  | [] => []
  | c :: r =>
      match skip with
      | S k => replace_from old new k r
      | O => if startswith old s
             then new ++ replace_from old new (length old - 1) r
             else c :: replace_from old new 0 r
      end
  end.

Definition replace (old new s : str) : str :=
  match old with
  | [] => new ++ flat_map (fun c => c :: new) s
  | _ :: _ => replace_from old new 0 s
  end.

(** [f"{n:d}"] *)
Definition format_d (n : Z) : str := py (NilEmpty.string_of_int (Z.to_int n)).

(** Exceptions that the modelled code can raise.  [typer.Exit] is an
    exception too: raising it ends the command with that exit status. *)
Inductive exn : Type :=
| KeyError
| TypeError
| AttributeError
| IndexError
| TemplateError
| HttpError (msg : str)
| Exit (code : Z).

Inductive result (A : Type) : Type :=
| Ok (a : A)
| Raise (e : exn).
Arguments Ok {A} a.
Arguments Raise {A} e.

Definition rbind {A B} (r : result A) (k : A -> result B) : result B :=
  match r with
  | Ok a => k a
  | Raise e => Raise e
  end.

Fixpoint rmap {A B} (f : A -> result B) (l : list A) : result (list B) :=
  match l with
  | [] => Ok []
  | a :: r => rbind (f a) (fun b => rbind (rmap f r) (fun bs => Ok (b :: bs)))
  end.

(** Values exchanged with the services: parsed JSON.  A non-integral
    number is carried as mantissa and decimal exponent and never
    interpreted. *)
Inductive json : Type :=
| JNull
| JBool (b : bool)
| JInt (z : Z)
| JFloat (m e : Z)
| JStr (s : str)
| JList (l : list json)
| JDict (d : list (str * json)).

Definition dict := list (str * json).

(** Truth value of a value, as [if x:] and [not x] see it. *)
Definition truthy (j : json) : bool :=
  match j with
  | JNull => false
  | JBool b => b
  | JInt z => negb (z =? 0)%Z
  | JFloat m _ => negb (m =? 0)%Z
  | JStr s => match s with [] => false | _ => true end
  | JList l => match l with [] => false | _ => true end
  | JDict d => match d with [] => false | _ => true end
  end.

Fixpoint lookup {V : Type} (k : str) (d : list (str * V)) : option V :=
  match d with
  | [] => None
  | (k', v) :: r => if str_eqb k k' then Some v else lookup k r
  end.

(** [x.get(k, default)]: only a [dict] has the method. *)
Definition get_default (x : json) (k : str) (default : json) : result json :=
  match x with
  | JDict d => Ok (match lookup k d with Some v => v | None => default end)
  | _ => Raise AttributeError
  end.

(** [x.get(k)] *)
Definition get (x : json) (k : str) : result json := get_default x k JNull.

(** [x[k]] with a string key. *)
Definition getitem (x : json) (k : str) : result json :=
  match x with
  | JDict d => match lookup k d with Some v => Ok v | None => Raise KeyError end
  | _ => Raise TypeError
  end.

(** [x == s] against a string literal. *)
Definition eq_str (x : json) (s : str) : bool :=
  match x with
  | JStr t => str_eqb t s
  | _ => false
  end.

(** [k in x] with a string on the left. *)
Definition py_in (k : str) (x : json) : result bool :=
  match x with
  | JDict d => Ok (match lookup k d with Some _ => true | None => false end)
  | JList l => Ok (existsb (fun v => eq_str v k) l)
  | JStr s => Ok (contains k s)
  | _ => Raise TypeError
  end.

(** [len(x)] *)
Definition len (x : json) : result Z :=
  match x with
  | JList l => Ok (Z.of_nat (length l))
  | JDict d => Ok (Z.of_nat (length d))
  | JStr s => Ok (Z.of_nat (length s))
  | _ => Raise TypeError
  end.

(** The items [for v in x] runs through. *)
Definition iter (x : json) : result (list json) :=
  match x with
  | JList l => Ok l
  | JDict d => Ok (map (fun kv => JStr (fst kv)) d)
  | JStr s => Ok (map (fun c => JStr [c]) s)
  | _ => Raise TypeError
  end.

(** [x[i]] with an integer index; a negative index counts from the end. *)
Definition getitem_int (x : json) (i : Z) : result json :=
  match x with
  | JList l =>
      let n := Z.of_nat (length l) in
      let j := (if i <? 0 then i + n else i)%Z in
      if ((0 <=? j) && (j <? n))%Z
      then match nth_error l (Z.to_nat j) with
           | Some v => Ok v
           | None => Raise IndexError
           end
      else Raise IndexError
  | JStr s =>
      let n := Z.of_nat (length s) in
      let j := (if i <? 0 then i + n else i)%Z in
      if ((0 <=? j) && (j <? n))%Z
      then match nth_error s (Z.to_nat j) with
           | Some c => Ok (JStr [c])
           | None => Raise IndexError
           end
      else Raise IndexError
  | JDict _ => Raise KeyError
  | _ => Raise TypeError
  end.

(** [sep.join(items)] with the empty separator: every item must be a
    string. *)
Fixpoint join_empty (items : list json) : result str :=
  match items with
  | [] => Ok []
  | JStr s :: r => rbind (join_empty r) (fun t => Ok (s ++ t))
  | _ :: _ => Raise TypeError
  end.

End Py.
Export Py.

(* ================================================================== *)
(** * External collaborators and the command monad *)
(* ================================================================== *)

Module Effects.

(** [time.struct_time] *)
Record struct_time : Type := mk_time {
  tm_year : Z; tm_mon : Z; tm_mday : Z;
  tm_hour : Z; tm_min : Z; tm_sec : Z;
  tm_wday : Z; tm_yday : Z; tm_isdst : Z
}.

(** Values a template can see: API and command-line data, or a time. *)
Inductive ctxval : Type :=
| CJson (j : json)
| CTime (t : struct_time).

(** The keyword arguments of a render call: a [dict] in insertion
    order. *)
Definition context := list (str * ctxval).

(** [d[k] = v] on an insertion-ordered [dict]: an existing key keeps its
    place and takes the new value, a new key goes last. *)
Fixpoint setitem {V : Type} (k : str) (v : V) (d : list (str * V)) : list (str * V) :=
  match d with
  | [] => [(k, v)]
  | (k', v') :: r => if str_eqb k k' then (k', v) :: r else (k', v') :: setitem k v r
  end.

(** The display [{**base, **extra}]: the entries of [extra] are stored
    into [base] in order. *)
Definition unpack_into {V : Type} (base extra : list (str * V)) : list (str * V) :=
  fold_left (fun acc kv => setitem (fst kv) (snd kv) acc) extra base.

(** The C library's [time.strftime]. *)
Class TimeLib : Type := {
  time_strftime : str -> struct_time -> str
}.

(** The template engine: [env.from_string(template)] rendered with the
    context as keyword arguments; it fails on a malformed template. *)
Class Jinja (Env : Type) : Type := {
  from_string_render : Env -> str -> context -> result str
}.

(** [str()] of the values that are not plain scalars, and of a caught
    exception. *)
Class PyRepr : Type := {
  repr : json -> str;
  exn_str : exn -> str
}.

(** The remote services, the file system and the clock, over a world
    state [W].  A call either returns a payload or raises, and may change
    the world. *)
Class Services (W : Type) : Type := {
  build : str -> W -> bool;
  presentations_get : str -> W -> result json * W;
  presentations_batchUpdate : str -> json -> W -> result json * W;
  files_create : json -> str -> W -> result json * W;
  permissions_create : json -> json -> W -> result json * W;
  path_exists : str -> W -> bool;
  localtime : W -> struct_time * W
}.

(** What a command does that can be observed from outside: what it
    writes, and each request it sends with the outcome it got. *)
Inductive event : Type :=
| Stdout (msg : str)
| Stderr (msg : str)
| PPrint (j : json)
| CallGet (presentation_id : str) (outcome : result json)
| CallBatchUpdate (presentation_id : str) (body : json) (outcome : result json)
| CallFilesCreate (body : json) (media : str) (outcome : result json)
| CallPermissionsCreate (file_id : json) (body : json) (outcome : result json).

Record state (W : Type) : Type := mk_state {
  world : W;
  trace : list event
}.

(** A command: it may raise, it may change the world, it logs events in
    the order they happen. *)
Definition M (W A : Type) : Type := state W -> result A * state W.

Definition ret {W A} (a : A) : M W A := fun s => (Ok a, s).

Definition bind {W A B} (m : M W A) (k : A -> M W B) : M W B :=
  fun s => match m s with
           | (Ok a, s') => k a s'
           | (Raise e, s') => (Raise e, s')
           end.

Definition raise {W A} (e : exn) : M W A := fun s => (Raise e, s).

Definition lift {W A} (r : result A) : M W A := fun s => (r, s).

Definition emit {W} (e : event) : M W unit :=
  fun s => (Ok tt, mk_state (world s) (trace s ++ [e])).

(** [try: m  except HttpError as err: h err] *)
Definition try_http {W A} (m : M W A) (h : str -> M W A) : M W A :=
  fun s => match m s with
           | (Raise (HttpError msg), s') => h msg s'
           | other => other
           end.

(** [try: m  except (IndexError, TypeError) as e: h] nested under the
    handler for [HttpError]. *)
Definition try_http_index_type {W A} (m : M W A) (h : str -> M W A) (h' : exn -> M W A)
  : M W A :=
  fun s => match m s with
           | (Raise (HttpError msg), s') => h msg s'
           | (Raise IndexError, s') => h' IndexError s'
           | (Raise TypeError, s') => h' TypeError s'
           | other => other
           end.

(** A call on a service: performed on the world and logged with its
    outcome. *)
Definition call {W} (e : result json -> event) (op : W -> result json * W)
  : M W json :=
  fun s => let (r, w') := op (world s) in
           (r, mk_state w' (trace s ++ [e r])).

Definition when {W} (b : bool) (m : M W unit) : M W unit :=
  if b then m else ret tt.

(** [files().copy(fileId=..., body=...).execute()] of the Drive
    service. *)
Class DriveCopy (W : Type) : Type := {
  files_copy : str -> json -> W -> result json * W
}.

(** A call that is performed on the world and leaves no entry in the
    log. *)
Definition perform {W A} (op : W -> result A * W) : M W A :=
  fun s => let (r, w') := op (world s) in (r, mk_state w' (trace s)).

End Effects.
Export Effects.

Declare Scope cmd_scope.
Delimit Scope cmd_scope with cmd.
Notation "x <- m ;; k" := (bind m (fun x => k))
  (at level 61, m at next level, right associativity) : cmd_scope.
Notation "m ;;; k" := (bind m (fun _ => k))
  (at level 61, right associativity) : cmd_scope.
Open Scope cmd_scope.

(* ================================================================== *)
(** * slides_utils.py *)
(* ================================================================== *)

Module slides_utils.

(** [str(x)], as an f-string field shows a value. *)
Definition py_str `{PyRepr} (j : json) : str :=
  match j with
  | JStr s => s
  | JNull => py "None"
  | JBool true => py "True"
  | JBool false => py "False"
  | JInt z => format_d z
  | other => repr other
  end.

(** [x is None] *)
Definition is_none (j : json) : bool :=
  match j with JNull => true | _ => false end.

Definition get_slide_id_by_index (slides : json) (index : Z) : result json :=
  if (0 <? index)%Z then
    rbind (len slides) (fun n =>
    if (index <=? n)%Z then
      rbind (getitem_int slides (index - 1)) (fun slide =>
      get slide (py "objectId"))
    else Ok JNull)
  else Ok JNull.

(** The predicate handed to [filter]: [el.get("shape") and
    el["shape"].get("shapeType") == "TEXT_BOX"], seen through its truth
    value. *)
Definition is_text_box (el : json) : result bool :=
  rbind (get el (py "shape")) (fun shape =>
  if truthy shape then
    rbind (getitem el (py "shape")) (fun shape' =>
    rbind (get shape' (py "shapeType")) (fun shape_type =>
    Ok (eq_str shape_type (py "TEXT_BOX"))))
  else Ok false).

Fixpoint rfilter {A} (f : A -> result bool) (l : list A) : result (list A) :=
  match l with
  | [] => Ok []
  | a :: r =>
      rbind (f a) (fun keep =>
      rbind (rfilter f r) (fun r' =>
      Ok (if keep then a :: r' else r')))
  end.

Definition get_text_elements_from_slide (slide : json) : result (list json) :=
  rbind (get_default slide (py "pageElements") (JList [])) (fun elements =>
  rbind (iter elements) (fun items =>
  rfilter is_text_box items)).

(** The dictionary [gslides_element_to_text] returns, with its three
    fixed keys. *)
Record TextRecord : Type := mk_text_record {
  object_id : json;
  page_object_id : json;
  text : str
}.

(** The [lambda] mapped over the text elements. *)
Definition text_run_content (text_el : json) : result json :=
  rbind (py_in (py "textRun") text_el) (fun has_run =>
  if has_run then
    rbind (getitem text_el (py "textRun")) (fun run =>
    getitem run (py "content"))
  else Ok (JStr [])).

Definition gslides_element_to_text (el : json) (page_object_id : json)
  : result TextRecord :=
  rbind (get el (py "objectId")) (fun shape_object_id =>
  rbind (getitem el (py "shape")) (fun shape =>
  rbind (py_in (py "text") shape) (fun has_text =>
  if negb has_text then
    Ok (mk_text_record shape_object_id page_object_id [])
  else
    rbind (getitem el (py "shape")) (fun shape' =>
    rbind (getitem shape' (py "text")) (fun text_field =>
    rbind (getitem text_field (py "textElements")) (fun text_elements =>
    rbind (iter text_elements) (fun items =>
    rbind (rmap text_run_content items) (fun text_contents =>
    rbind (join_empty text_contents) (fun text =>
    Ok (mk_text_record shape_object_id page_object_id (strip text))))))))))).

Definition text_update_to_gslides_request (change : dict) : result json :=
  rbind (getitem (JDict change) (py "original_text")) (fun original_text =>
  rbind (getitem (JDict change) (py "rendered_text")) (fun rendered_text =>
  rbind (getitem (JDict change) (py "page_object_id")) (fun page_object_id =>
  Ok (JDict [(py "replaceAllText",
        JDict [(py "containsText",
                  JDict [(py "text", original_text); (py "matchCase", JBool true)]);
               (py "replaceText", rendered_text);
               (py "pageObjectIds", JList [page_object_id])])])))).

Section WithServices.
Context {W : Type} `{Services W} `{PyRepr}.

(** The service object is the [Services] instance; what the callers test
    is whether [build] handed back something true. *)
Definition get_slides_service : M W bool :=
  fun s => (Ok (build (py "slides") (world s)), s).

Definition get_presentation_slides (presentation_id : str) (verbose : bool)
  : M W json :=
  try_http
    (presentation <- call (CallGet presentation_id)
                          (presentations_get presentation_id) ;;
     slides <- lift (get presentation (py "slides")) ;;
     when verbose
       (n <- lift (len slides) ;;
        emit (Stdout (py "The presentation contains " ++ format_d n
                      ++ py " slides:"))) ;;;
     ret slides)
    (fun err => emit (Stderr err) ;;; ret JNull).

Fixpoint print_slide_details (i : Z) (slides : list json) : M W unit :=
  match slides with
  | [] => ret tt
  | slide :: rest =>
      slide_id <- lift (get slide (py "objectId")) ;;
      page_elements <- lift (get_default slide (py "pageElements") (JList [])) ;;
      n <- lift (len page_elements) ;;
      emit (Stdout (py "- Slide #" ++ format_d (i + 1) ++ py " ("
                    ++ py_str slide_id ++ py ") contains " ++ format_d n
                    ++ py " elements.")) ;;;
      print_slide_details (i + 1) rest
  end.

Definition print_slide_details_if_verbose (slides : json) (verbose : bool)
  : M W unit :=
  if verbose then
    items <- lift (iter slides) ;;
    print_slide_details 0 items
  else ret tt.

Definition delete_request (object_id : json) : json :=
  JDict [(py "deleteObject", JDict [(py "objectId", object_id)])].

Definition delete_slide_by_id (presentation_id : str) (slide_id : json)
  : M W json :=
  let requests := JList [delete_request slide_id] in
  let body := JDict [(py "requests", requests)] in
  call (CallBatchUpdate presentation_id body)
       (presentations_batchUpdate presentation_id body).

Definition duplicate_request (object_id : json) : json :=
  JDict [(py "duplicateObject", JDict [(py "objectId", object_id)])].

Definition duplicate_slide_by_id (presentation_id : str) (slide_id : json)
  : M W json :=
  let requests := JList [duplicate_request slide_id] in
  let body := JDict [(py "requests", requests)] in
  call (CallBatchUpdate presentation_id body)
       (presentations_batchUpdate presentation_id body).

Definition delete_element_by_id (presentation_id : str) (object_id : json)
  : M W unit :=
  let body := JDict [(py "requests", JList [delete_request object_id])] in
  call (CallBatchUpdate presentation_id body)
       (presentations_batchUpdate presentation_id body) ;;;
  ret tt.

End WithServices.
End slides_utils.

(* ================================================================== *)
(** * jinja_utils.py *)
(* ================================================================== *)

Module jinja_utils.

Definition b2z (b : bool) : Z := if b then 1%Z else 0%Z.

(** Every [step]-th character, [k] characters from the next pick. *)
Fixpoint every (step k : nat) (s : str) : str :=
  match s with
  | [] => []
  | c :: r =>
      match k with
      | O => c :: every step (step - 1) r
      | S k' => every step k' r
      end
  end.

(** The slice [s[start::step]] for a start that is not negative. *)
Definition slice_from_step (s : str) (start step : nat) : str :=
  every step 0 (skipn start s).

(** The nested [ordinal]: the product of the two comparisons and [n] is
    reduced modulo ten and selects where the slice of ['tsnrhtdd']
    starts. *)
Definition ordinal (n : Z) : str :=
  let start :=
    ((b2z (negb (n / 10 mod 10 =? 1)) * b2z (n mod 10 <? 4) * n) mod 10)%Z in
  format_d n ++ slice_from_step (py "tsnrhtdd") (Z.to_nat start) 4.

Section WithServices.
Context {W : Type} `{Services W} `{TimeLib}.
Context {Env : Type} `{Jinja Env}.

(** [time.localtime()] *)
Definition time_localtime : M W struct_time :=
  fun s => let (t, w') := localtime (world s) in
           (Ok t, mk_state w' (trace s)).

Definition strftime_with_ordinal (fmt : str) (t : option struct_time)
  : M W str :=
  t' <- match t with
        | None => time_localtime
        | Some t0 => ret t0
        end ;;
  ret (time_strftime (replace (py "%O") (ordinal (tm_mday t')) fmt) t').

Definition render_jinja_in_string (jinja_env : Env) (template_string : str)
    (data : option context) : M W str :=
  let data' := match data with None => [] | Some d => d end in
  now <- time_localtime ;;
  let render_data := unpack_into [(py "now", CTime now)] data' in
  lift (from_string_render jinja_env template_string render_data).

End WithServices.
End jinja_utils.

(* ================================================================== *)
(** * drive_utils.py *)
(* ================================================================== *)

Module drive_utils.
Import slides_utils.

Section WithServices.
Context {W : Type} `{Services W} `{PyRepr}.

Definition get_drive_service : M W bool :=
  fun s => (Ok (build (py "drive") (world s)), s).

Definition upload_image_to_drive (image_path : str) (verbose : bool)
  : M W json :=
  try_http
    (let file_metadata :=
       JDict [(py "name", JStr image_path);
              (py "parents", JList [JStr (py "root")])] in
     img_file <- call (CallFilesCreate file_metadata image_path)
                      (files_create file_metadata image_path) ;;
     img_file_id <- lift (get img_file (py "id")) ;;
     when verbose
       (emit (Stdout (py "Uploaded image '" ++ image_path
                      ++ py "' to Drive with ID: " ++ py_str img_file_id))) ;;;
     let permission :=
       JDict [(py "type", JStr (py "anyone")); (py "role", JStr (py "reader"))] in
     call (CallPermissionsCreate img_file_id permission)
          (permissions_create img_file_id permission) ;;;
     when verbose
       (emit (Stdout (py "Made image ID " ++ py_str img_file_id
                      ++ py " publicly readable."))) ;;;
     ret img_file_id)
    (fun error =>
       emit (Stderr (py "An error occurred during image upload/permission setting: "
                     ++ error)) ;;;
       ret JNull).

End WithServices.
Section WithCopy.
Context {W : Type} `{Services W} `{DriveCopy W} `{PyRepr}.

Definition copy_file (file_id copy_title : str) : M W json :=
  try_http
    (let body := JDict [(py "name", JStr copy_title)] in
     drive_response <- perform (files_copy file_id body) ;;
     lift (get drive_response (py "id")))
    (fun err => emit (Stderr err) ;;; ret JNull).

Definition set_file_permissions_anyone_writer (file_id : json) (verbose : bool)
  : M W json :=
  try_http
    (let user_permission :=
       JDict [(py "type", JStr (py "anyone")); (py "role", JStr (py "writer"))] in
     permission_response <- call (CallPermissionsCreate file_id user_permission)
                                 (permissions_create file_id user_permission) ;;
     permission_id <- lift (get permission_response (py "id")) ;;
     when verbose
       (emit (Stdout (py "Permission Id: " ++ py_str permission_id))) ;;;
     ret permission_id)
    (fun err => emit (Stderr err) ;;; ret JNull).

End WithCopy.
End drive_utils.

(* ================================================================== *)
(** * cli.py *)
(* ================================================================== *)

Module cli.
Import slides_utils jinja_utils drive_utils.

(** [re.fullmatch] with the pattern of [imagify]: the literal text
    [![image]], an opening parenthesis, one group of a greedy dot-star,
    a closing parenthesis.  The whole text has to match, so the group is
    what stands between the opening and the last character, and a dot
    takes any character but a line feed.  The result is group 1. *)
Definition fullmatch_image (s : str) : option str :=
  match strip_prefix (py "![image](") s with
  | None => None
  | Some rest =>
      match rev rest with
      | [] => None
      | c :: inner =>
          if ((c =? 41) && forallb (fun x => negb (x =? 10)) inner)%N
          then Some (rev inner)
          else None
      end
  end.

(** The entries of the module-level [state] that the commands read. *)
Record cli_state (Env : Type) : Type := mk_cli_state {
  presentation_id : str;
  verbose : bool;
  jinja_env : Env
}.

Section Commands.
Context {W : Type} `{Services W} `{PyRepr} `{TimeLib}.
Context {Env : Type} `{Jinja Env}.
Variable state : cli_state Env.

(** [Path(p).exists()] *)
Definition pathlib_exists (p : str) : M W bool :=
  fun s => (Ok (path_exists p (world s)), s).

Definition echo (msg : str) : M W unit := emit (Stdout msg).
Definition echo_err (msg : str) : M W unit := emit (Stderr msg).

(** The end of [delete_slide], once the slide number has resolved to an
    identifier. *)
Definition delete_resolved_slide (slide_number : Z) (slide_to_delete_id : json)
  : M W unit :=
  when (verbose state)
    (echo (py "Attempting to delete slide #" ++ format_d slide_number
           ++ py " (ID: " ++ py_str slide_to_delete_id ++ py ")")) ;;;
  try_http
    (response <- delete_slide_by_id (presentation_id state) slide_to_delete_id ;;
     when (verbose state)
       (echo (py "Slide deletion API call successful.") ;;;
        emit (PPrint response)) ;;;
     echo (py "Slide #" ++ format_d slide_number ++ py " deleted successfully."))
    (fun err =>
       echo_err (py "Error deleting slide: " ++ err) ;;;
       raise (Exit 1)).

Definition delete_slide (slide_number : Z) : M W unit :=
  service <- get_slides_service ;;
  (if negb service then
     echo_err (py "Failed to initialize Google Slides service.") ;;;
     raise (Exit 1)
   else ret tt) ;;;
  slides <- get_presentation_slides (presentation_id state) (verbose state) ;;
  (if negb (truthy slides) then raise (Exit 1) else ret tt) ;;;
  print_slide_details_if_verbose slides (verbose state) ;;;
  slide_to_delete_id <- lift (get_slide_id_by_index slides slide_number) ;;
  (if is_none slide_to_delete_id then
     n <- lift (len slides) ;;
     echo_err (py "Slide number " ++ format_d slide_number
               ++ py " doesn't exist. "
               ++ py "Please input an existing slide number (1 to "
               ++ format_d n ++ py ").") ;;;
     raise (Exit 1)
   else ret tt) ;;;
  delete_resolved_slide slide_number slide_to_delete_id.

(** The loop of [jinjify] over the text records of slide number [i]
    (counted from zero), growing [update_requests]. *)
Fixpoint jinjify_texts (data : context) (i : Z) (parsed_texts : list TextRecord)
    (update_requests : list json) : M W (list json) :=
  match parsed_texts with
  | [] => ret update_requests
  | text_info :: rest =>
      let original_text := text text_info in
      rendered_text <- render_jinja_in_string (jinja_env state) original_text
                                              (Some data) ;;
      (if negb (str_eqb rendered_text original_text) then
         when (verbose state)
           (echo (py "  Change on slide " ++ format_d (i + 1) ++ py " (element "
                  ++ py_str (object_id text_info) ++ py "):") ;;;
            echo (py "    Original: '" ++ original_text ++ py "'") ;;;
            echo (py "    Rendered: '" ++ rendered_text ++ py "'")) ;;;
         update_request <- lift (text_update_to_gslides_request
           [(py "original_text", JStr original_text);
            (py "rendered_text", JStr rendered_text);
            (py "page_object_id", page_object_id text_info);
            (py "object_id", object_id text_info)]) ;;
         jinjify_texts data i rest (update_requests ++ [update_request])
       else jinjify_texts data i rest update_requests)
  end.

(** The [try] block of [jinjify]: the changes of slide number [i] go out
    as one batch update; the result is the updated
    [total_changes_made]. *)
Definition submit_text_updates (i : Z) (update_requests : list json)
    (total_changes_made : Z) : M W Z :=
  try_http
    (when (verbose state)
       (echo (py "  Applying "
              ++ format_d (Z.of_nat (length update_requests))
              ++ py " text updates to slide #" ++ format_d (i + 1)
              ++ py "...")) ;;;
     let body := JDict [(py "requests", JList update_requests)] in
     call (CallBatchUpdate (presentation_id state) body)
          (presentations_batchUpdate (presentation_id state) body) ;;;
     let total' :=
       (total_changes_made + Z.of_nat (length update_requests))%Z in
     when (verbose state)
       (echo (py "  Successfully updated text on slide #"
              ++ format_d (i + 1) ++ py ".")) ;;;
     ret total')
    (fun err =>
       echo_err (py "Error updating text on slide #"
                 ++ format_d (i + 1) ++ py ": " ++ err) ;;;
       ret total_changes_made).

(** The body of the loop of [jinjify] over the slides: slide number [i]
    (counted from zero); the result is the updated
    [total_changes_made]. *)
Definition jinjify_slide (data : context) (i : Z) (slide : json)
    (total_changes_made : Z) : M W Z :=
  slide_id <- lift (get slide (py "objectId")) ;;
  when (verbose state)
    (echo (py "Processing Slide #" ++ format_d (i + 1) ++ py " ("
           ++ py_str slide_id ++ py ")")) ;;;
  text_elements <- lift (get_text_elements_from_slide slide) ;;
  match text_elements with
  | [] =>
      when (verbose state)
        (echo (py "  No text elements found on Slide #" ++ format_d (i + 1)
               ++ py ".")) ;;;
      ret total_changes_made
  | _ :: _ =>
      parsed_texts <- lift (rmap (fun el => gslides_element_to_text el slide_id)
                                 text_elements) ;;
      update_requests <- jinjify_texts data i parsed_texts [] ;;
      match update_requests with
      | _ :: _ => submit_text_updates i update_requests total_changes_made
      | [] =>
          when (verbose state)
            (echo (py "  No text changes to apply on Slide #"
                   ++ format_d (i + 1) ++ py ".")) ;;;
          ret total_changes_made
      end
  end.

Fixpoint jinjify_slides (data : context) (i : Z) (slides : list json)
    (total_changes_made : Z) : M W Z :=
  match slides with
  | [] => ret total_changes_made
  | slide :: rest =>
      total' <- jinjify_slide data i slide total_changes_made ;;
      jinjify_slides data (i + 1) rest total'
  end.

Definition jinjify (data : context) : M W unit :=
  service <- get_slides_service ;;
  (if negb service then
     echo_err (py "Failed to initialize Google Slides service.") ;;;
     raise (Exit 1)
   else ret tt) ;;;
  slides <- get_presentation_slides (presentation_id state) (verbose state) ;;
  (if negb (truthy slides) then raise (Exit 1) else ret tt) ;;;
  print_slide_details_if_verbose slides (verbose state) ;;;
  echo (py "Processing slides for Jinja templating...") ;;;
  items <- lift (iter slides) ;;
  total_changes_made <- jinjify_slides data 0 items 0 ;;
  echo (py "Jinjify processing complete. Total text updates made: "
        ++ format_d total_changes_made).

(** [image_match] of [imagify]: the pattern is matched against the
    rendered text without its surrounding whitespace. *)
Definition image_match (rendered_text_content : str) : option str :=
  fullmatch_image (strip rendered_text_content).

(** The path of a matched placeholder: group 1, rendered once more when
    it holds both template markers, and stripped. *)
Definition resolve_image_path (image_path_template : str)
    (jinja_data_for_image_path : context) : M W str :=
  if contains (py "{{") image_path_template
     && contains (py "}}") image_path_template
  then
    p <- render_jinja_in_string (jinja_env state) image_path_template
                                (Some jinja_data_for_image_path) ;;
    ret (strip p)
  else ret (strip image_path_template).

(** What [imagify] does with a matched placeholder once its path is
    known. *)
Definition replace_with_image (i : Z) (slide_id : json)
    (text_element_shape shape_id : json)
    (rendered_text_content image_path : str)
    (total_images_replaced : Z) : M W Z :=
  found <- pathlib_exists image_path ;;
  if negb found then
    echo_err (py "  Image path '" ++ image_path ++ py "' (from '"
              ++ rendered_text_content ++ py "') does not exist. Skipping.") ;;;
    ret total_images_replaced
  else
    when (verbose state)
      (echo (py "  Found image placeholder: '" ++ rendered_text_content
             ++ py "' on slide #" ++ format_d (i + 1) ++ py ". Path: '"
             ++ image_path ++ py "'") ;;;
       echo (py "  Uploading image '" ++ image_path
             ++ py "' to Google Drive...")) ;;;
    drive_image_id <- upload_image_to_drive image_path (verbose state) ;;
    if negb (truthy drive_image_id) then
      echo_err (py "  Failed to upload image '" ++ image_path
                ++ py "' to Drive. Skipping replacement.") ;;;
      ret total_images_replaced
    else
      let image_url_on_drive :=
        py "https://drive.google.com/uc?id=" ++ py_str drive_image_id in
      size <- lift (get text_element_shape (py "size")) ;;
      transform <- lift (get text_element_shape (py "transform")) ;;
      let requests :=
        JList [JDict [(py "createImage",
                 JDict [(py "url", JStr image_url_on_drive);
                        (py "elementProperties",
                           JDict [(py "pageObjectId", slide_id);
                                  (py "size", size);
                                  (py "transform", transform)])])];
               delete_request shape_id] in
      try_http_index_type
        (when (verbose state)
           (echo (py "  Replacing text box '" ++ py_str shape_id
                  ++ py "' with image from '" ++ image_path
                  ++ py "' on slide #" ++ format_d (i + 1) ++ py ".")) ;;;
         let body := JDict [(py "requests", requests)] in
         response <- call (CallBatchUpdate (presentation_id state) body)
                          (presentations_batchUpdate (presentation_id state) body) ;;
         replies <- lift (get response (py "replies")) ;;
         reply <- lift (getitem_int replies 0) ;;
         create_image_response <- lift (get reply (py "createImage")) ;;
         (if verbose state && truthy create_image_response then
            created_id <- lift (get create_image_response (py "objectId")) ;;
            echo (py "  Created image with ID: " ++ py_str created_id)
          else ret tt) ;;;
         ret (total_images_replaced + 1)%Z)
        (fun err =>
           echo_err (py "  Error replacing text box with image on slide #"
                     ++ format_d (i + 1) ++ py ": " ++ err) ;;;
           ret total_images_replaced)
        (fun e =>
           echo_err (py "  Error parsing API response after image creation: "
                     ++ exn_str e) ;;;
           ret total_images_replaced).

(** The context [imagify] renders with, on slide number [i]. *)
Definition image_path_data (i : Z) (slide_id : json) : context :=
  [(py "slide_index", CJson (JInt i)); (py "slide_id", CJson slide_id)].

(** The body of the inner loop of [imagify]: one text box of slide
    number [i] (counted from zero); the result is the updated
    [total_images_replaced]. *)
Definition imagify_element (i : Z) (slide_id : json) (text_element_shape : json)
    (total_images_replaced : Z) : M W Z :=
  shape_id <- lift (get text_element_shape (py "objectId")) ;;
  parsed_text_info <- lift (gslides_element_to_text text_element_shape slide_id) ;;
  let original_text := text parsed_text_info in
  let jinja_data_for_image_path := image_path_data i slide_id in
  rendered_text_content <- render_jinja_in_string (jinja_env state) original_text
                             (Some jinja_data_for_image_path) ;;
  match image_match rendered_text_content with
  | None => ret total_images_replaced
  | Some image_path_template =>
      image_path <- resolve_image_path image_path_template
                                       jinja_data_for_image_path ;;
      replace_with_image i slide_id text_element_shape shape_id
                         rendered_text_content image_path total_images_replaced
  end.

Fixpoint imagify_elements (i : Z) (slide_id : json) (text_elements : list json)
    (total_images_replaced : Z) : M W Z :=
  match text_elements with
  | [] => ret total_images_replaced
  | text_element_shape :: rest =>
      total' <- imagify_element i slide_id text_element_shape total_images_replaced ;;
      imagify_elements i slide_id rest total'
  end.

Fixpoint imagify_slides (i : Z) (slides : list json) (total_images_replaced : Z)
  : M W Z :=
  match slides with
  | [] => ret total_images_replaced
  | slide :: rest =>
      slide_id <- lift (get slide (py "objectId")) ;;
      when (verbose state)
        (echo (py "Processing Slide #" ++ format_d (i + 1) ++ py " ("
               ++ py_str slide_id ++ py ")")) ;;;
      text_elements <- lift (get_text_elements_from_slide slide) ;;
      match text_elements, verbose state with
      | [], true =>
          echo (py "  No text elements found on Slide #" ++ format_d (i + 1)
                ++ py ".") ;;;
          imagify_slides (i + 1) rest total_images_replaced
      | _, _ =>
          total' <- imagify_elements i slide_id text_elements total_images_replaced ;;
          imagify_slides (i + 1) rest total'
      end
  end.

Definition imagify : M W unit :=
  slides_service <- get_slides_service ;;
  (if negb slides_service then
     echo_err (py "Failed to initialize Google Slides service.") ;;;
     raise (Exit 1)
   else ret tt) ;;;
  drive_service <- get_drive_service ;;
  (if negb drive_service then
     echo_err (py "Failed to initialize Google Drive service.") ;;;
     raise (Exit 1)
   else ret tt) ;;;
  slides <- get_presentation_slides (presentation_id state) (verbose state) ;;
  (if negb (truthy slides) then raise (Exit 1) else ret tt) ;;;
  print_slide_details_if_verbose slides (verbose state) ;;;
  echo (py "Processing slides for image replacement...") ;;;
  items <- lift (iter slides) ;;
  total_images_replaced <- imagify_slides 0 items 0 ;;
  echo (py "Imagify processing complete. Total images replaced: "
        ++ format_d total_images_replaced).

End Commands.
Section Duplicates.
Context {W : Type} `{Services W} `{DriveCopy W} `{PyRepr}.
Context {Env : Type}.
Variable state : cli_state Env.

Definition duplicate_presentation (copy_title : str) : M W unit :=
  drive_service <- get_drive_service ;;
  (if negb drive_service then
     echo_err (py "Failed to initialize Google Drive service.") ;;;
     raise (Exit 1)
   else ret tt) ;;;
  when (verbose state)
    (echo (py "Attempting to duplicate presentation ID: "
           ++ presentation_id state ++ py " to '" ++ copy_title ++ py "'")) ;;;
  presentation_copy_id <- copy_file (presentation_id state) copy_title ;;
  if truthy presentation_copy_id then
    when (verbose state)
      (echo (py "Successfully copied presentation. New ID: "
             ++ py_str presentation_copy_id)) ;;;
    permission_id <- set_file_permissions_anyone_writer presentation_copy_id
                                                        (verbose state) ;;
    (if negb (truthy permission_id) then
       echo_err (py "Failed to set permissions on the new presentation.")
     else ret tt) ;;;
    let final_message :=
      py "Created new presentation: https://docs.google.com/presentation/d/"
      ++ py_str presentation_copy_id ++ py "/edit" in
    if verbose state then echo final_message
    else echo (py_str presentation_copy_id)
  else
    echo_err (py "Failed to duplicate presentation '" ++ presentation_id state
              ++ py "'.") ;;;
    raise (Exit 1).

(** The [try] block of [duplicate_slide], once the slide number has
    resolved to an identifier. *)
Definition duplicate_resolved_slide (slide_number : Z)
    (slide_to_duplicate_id : json) : M W unit :=
  when (verbose state)
    (echo (py "Attempting to duplicate slide #" ++ format_d slide_number
           ++ py " (ID: " ++ py_str slide_to_duplicate_id ++ py ")")) ;;;
  try_http
    (response <- duplicate_slide_by_id (presentation_id state)
                                       slide_to_duplicate_id ;;
     when (verbose state)
       (echo (py "Slide duplication API call successful.") ;;;
        emit (PPrint response)) ;;;
     echo (py "Slide #" ++ format_d slide_number ++ py " duplicated successfully.") ;;;
     if verbose state then
       slides_after <- get_presentation_slides (presentation_id state) false ;;
       if truthy slides_after then
         n <- lift (len slides_after) ;;
         echo ([10%N] ++ py "Presentation now contains " ++ format_d n
               ++ py " slides.")
       else ret tt
     else ret tt)
    (fun err =>
       echo_err (py "Error duplicating slide: " ++ err) ;;;
       raise (Exit 1)).

Definition duplicate_slide (slide_number : Z) : M W unit :=
  service <- get_slides_service ;;
  (if negb service then
     echo_err (py "Failed to initialize Google Slides service.") ;;;
     raise (Exit 1)
   else ret tt) ;;;
  slides_before <- get_presentation_slides (presentation_id state)
                                           (verbose state) ;;
  (if negb (truthy slides_before) then raise (Exit 1) else ret tt) ;;;
  print_slide_details_if_verbose slides_before (verbose state) ;;;
  slide_to_duplicate_id <- lift (get_slide_id_by_index slides_before slide_number) ;;
  (if is_none slide_to_duplicate_id then
     n <- lift (len slides_before) ;;
     echo_err (py "Slide number " ++ format_d slide_number
               ++ py " doesn't exist. "
               ++ py "Please input an existing slide number (1 to "
               ++ format_d n ++ py ").") ;;;
     raise (Exit 1)
   else ret tt) ;;;
  duplicate_resolved_slide slide_number slide_to_duplicate_id.

End Duplicates.
End cli.

(* ================================================================== *)
(** * __init__.py *)
(* ================================================================== *)

(** The package file still carries the functions from before the split
    into [slides_utils], [jinja_utils] and [cli].  The helpers the
    properties below speak of are embedded here as they stand in that
    file. *)
Module sliger_init.

Definition _get_slide_id_by_index (slides : json) (index : Z) : result json :=
  if (0 <? index)%Z then
    rbind (len slides) (fun n =>
    if (index <=? n)%Z then
      rbind (getitem_int slides (index - 1)) (fun slide =>
      get slide (py "objectId"))
    else Ok JNull)
  else Ok JNull.

(** The dictionary this [gslides_element_to_text] returns has two keys;
    [object_id] is the identifier handed in, which [jinjify] takes from
    the slide. *)
Record TextInfo : Type := mk_text_info {
  object_id : json;
  text : str
}.

Definition text_run_content (el : json) : result json :=
  rbind (py_in (py "textRun") el) (fun has_run =>
  if has_run then
    rbind (getitem el (py "textRun")) (fun run =>
    getitem run (py "content"))
  else Ok (JStr [])).

Definition gslides_element_to_text (el : json) (object_id : json)
  : result TextInfo :=
  rbind (getitem el (py "shape")) (fun shape =>
  rbind (py_in (py "text") shape) (fun has_text =>
  if negb has_text then Ok (mk_text_info object_id [])
  else
    rbind (getitem el (py "shape")) (fun shape' =>
    rbind (getitem shape' (py "text")) (fun text_field =>
    rbind (getitem text_field (py "textElements")) (fun text_elements =>
    rbind (iter text_elements) (fun items =>
    rbind (rmap text_run_content items) (fun text_contents =>
    rbind (join_empty text_contents) (fun text =>
    Ok (mk_text_info object_id (strip text)))))))))).

Definition ordinal (n : Z) : str :=
  let start :=
    ((jinja_utils.b2z (negb (n / 10 mod 10 =? 1))
      * jinja_utils.b2z (n mod 10 <? 4) * n) mod 10)%Z in
  format_d n ++ jinja_utils.slice_from_step (py "tsnrhtdd") (Z.to_nat start) 4.

Definition strftime_with_ordinal `{TimeLib} (string : str) (t : struct_time) : str :=
  let string' := replace (py "%O") (ordinal (tm_mday t)) string in
  time_strftime string' t.

Definition text_update_to_gslides_request (change : dict) : result json :=
  rbind (getitem (JDict change) (py "text")) (fun original =>
  rbind (getitem (JDict change) (py "rendered_text")) (fun rendered_text =>
  rbind (getitem (JDict change) (py "object_id")) (fun object_id =>
  Ok (JDict [(py "replaceAllText",
        JDict [(py "containsText",
                  JDict [(py "text", original); (py "matchCase", JBool true)]);
               (py "replaceText", rendered_text);
               (py "pageObjectIds", JList [object_id])])])))).

(** The commands of the package file whose work is done through the
    services alone.  They read [presentation_id] and [verbose] from
    [state]; each wraps its body in one [try] whose handler prints the
    [HttpError] on the output. *)
Section WithServices.
Context {W : Type} `{Services W} `{PyRepr}.
Context {Env : Type}.
Variable state : cli.cli_state Env.

Definition _get_slides_service : M W bool :=
  fun s => (Ok (build (py "slides") (world s)), s).

Definition _get_presentation_slides (presentation_id : str) : M W json :=
  try_http
    (presentation <- call (CallGet presentation_id)
                          (presentations_get presentation_id) ;;
     lift (get presentation (py "slides")))
    (fun err => emit (Stderr err) ;;; ret JNull).

Fixpoint _print_slide_details (i : Z) (slides : list json) : M W unit :=
  match slides with
  | [] => ret tt
  | slide :: rest =>
      slide_id <- lift (get slide (py "objectId")) ;;
      page_elements <- lift (get_default slide (py "pageElements") (JList [])) ;;
      n <- lift (len page_elements) ;;
      emit (Stdout (py "- Slide #" ++ format_d (i + 1) ++ py " ("
                    ++ slides_utils.py_str slide_id ++ py ") contains " ++ format_d n
                    ++ py " elements.")) ;;;
      _print_slide_details (i + 1) rest
  end.

Definition _print_slide_details_if_verbose (slides : json) : M W unit :=
  if cli.verbose state then
    n <- lift (len slides) ;;
    emit (Stdout (py "The presentation contains " ++ format_d n
                  ++ py " slides:")) ;;;
    items <- lift (iter slides) ;;
    _print_slide_details 0 items
  else ret tt.

Definition delete_slide_by_id (presentation_id : str) (slide_id : json)
  : M W json :=
  let requests :=
    JList [JDict [(py "deleteObject", JDict [(py "objectId", slide_id)])]] in
  let body := JDict [(py "requests", requests)] in
  call (CallBatchUpdate presentation_id body)
       (presentations_batchUpdate presentation_id body).

Definition delete_slide (id : Z) : M W unit :=
  let slide_to_delete := id in
  let presentation_id := cli.presentation_id state in
  try_http
    (service <- _get_slides_service ;;
     slides <- _get_presentation_slides presentation_id ;;
     if negb (truthy slides) then ret tt
     else
       _print_slide_details_if_verbose slides ;;;
       slide_to_delete_id <- lift (_get_slide_id_by_index slides slide_to_delete) ;;
       if slides_utils.is_none slide_to_delete_id then
         emit (Stderr ([10%N] ++ py "Slide number " ++ format_d id
                       ++ py " doesn't exist. "
                       ++ py "Please input an existing slide from your presentation."))
       else
         res <- delete_slide_by_id presentation_id slide_to_delete_id ;;
         when (cli.verbose state) (emit (PPrint res)))
    (fun err => emit (Stdout err)).

Definition duplicate_slide_by_id (presentation_id : str) (slide_id : json)
  : M W json :=
  let requests :=
    JList [JDict [(py "duplicateObject", JDict [(py "objectId", slide_id)])]] in
  let body := JDict [(py "requests", requests)] in
  call (CallBatchUpdate presentation_id body)
       (presentations_batchUpdate presentation_id body).

Definition duplicate_slide (id : Z) : M W unit :=
  let slide_to_duplicate := id in
  let presentation_id := cli.presentation_id state in
  try_http
    (service <- _get_slides_service ;;
     slides <- _get_presentation_slides presentation_id ;;
     if negb (truthy slides) then ret tt
     else
       _print_slide_details_if_verbose slides ;;;
       slide_to_duplicate_id <-
         lift (_get_slide_id_by_index slides slide_to_duplicate) ;;
       if slides_utils.is_none slide_to_duplicate_id then
         when (cli.verbose state)
           (emit (Stderr ([10%N] ++ py "Slide number " ++ format_d id
                          ++ py " doesn't exist. "
                          ++ py "Please input an existing slide from your presentation.")))
       else
         res <- duplicate_slide_by_id presentation_id slide_to_duplicate_id ;;
         when (cli.verbose state) (emit (PPrint res)) ;;;
         presentation <- call (CallGet presentation_id)
                              (presentations_get presentation_id) ;;
         slides' <- lift (get presentation (py "slides")) ;;
         when (cli.verbose state)
           (n <- lift (len slides') ;;
            emit (Stdout ([10%N] ++ py " Now the presentation contains "
                          ++ format_d n ++ py " slides"))))
    (fun err => emit (Stdout err)).

End WithServices.

End sliger_init.

(* ================================================================== *)
(** * A reference world *)
(* ================================================================== *)

(** Concrete collaborators, used to run the commands on explicit decks. *)
Module Reference.
Import slides_utils.

(** ** The template engine on its interpolation fragment

    Text is copied, [{{ name }}] is replaced by the value of [name] in
    the context, an undefined name renders as the empty text.  Block
    tags, comments, other expressions and an unclosed [{{] are
    rejected. *)

Definition is_name_char (c : codepoint) : bool :=
  ((48 <=? c) && (c <=? 57) || (65 <=? c) && (c <=? 90)
   || (97 <=? c) && (c <=? 122) || (c =? 95))%N.

Definition show_value (v : ctxval) : result str :=
  match v with
  | CJson (JStr s) => Ok s
  | CJson JNull => Ok (py "None")
  | CJson (JInt z) => Ok (format_d z)
  | CJson (JBool true) => Ok (py "True")
  | CJson (JBool false) => Ok (py "False")
  | CTime t =>
      Ok (py "time.struct_time(tm_year=" ++ format_d (tm_year t)
          ++ py ", tm_mon=" ++ format_d (tm_mon t)
          ++ py ", tm_mday=" ++ format_d (tm_mday t)
          ++ py ", tm_hour=" ++ format_d (tm_hour t)
          ++ py ", tm_min=" ++ format_d (tm_min t)
          ++ py ", tm_sec=" ++ format_d (tm_sec t)
          ++ py ", tm_wday=" ++ format_d (tm_wday t)
          ++ py ", tm_yday=" ++ format_d (tm_yday t)
          ++ py ", tm_isdst=" ++ format_d (tm_isdst t) ++ py ")")
  | _ => Raise TemplateError
  end.

Definition value_of (ctx : context) (expr : str) : result str :=
  let name := strip expr in
  match name with
  | [] => Raise TemplateError
  | _ :: _ =>
      if forallb is_name_char name then
        match lookup name ctx with
        | Some v => show_value v
        | None => Ok []
        end
      else Raise TemplateError
  end.

(** [inside] holds, in reverse, the expression read since an open
    [{{]. *)
Fixpoint interpolate (ctx : context) (inside : option str) (s : str)
  : result str :=
  match s with
  | [] => match inside with None => Ok [] | Some _ => Raise TemplateError end
  | c :: r =>
      match inside with
      | None =>
          if startswith (py "{{") s then
            match r with
            | _ :: r' => interpolate ctx (Some []) r'
            | [] => Raise TemplateError
            end
          else if startswith (py "{%") s || startswith (py "{#") s then
            Raise TemplateError
          else rbind (interpolate ctx None r) (fun t => Ok (c :: t))
      | Some acc =>
          if startswith (py "}}") s then
            match r with
            | _ :: r' =>
                rbind (value_of ctx (rev acc)) (fun v =>
                rbind (interpolate ctx None r') (fun t => Ok (v ++ t)))
            | [] => Raise TemplateError
            end
          else interpolate ctx (Some (c :: acc)) r
      end
  end.

#[export] Instance interpolation : Jinja unit := {
  from_string_render := fun _ template ctx => interpolate ctx None template
}.

(** ** Formatting *)

Definition two_digits (n : Z) : str :=
  if (n <? 10)%Z then py "0" ++ format_d n else format_d n.

(** [time.strftime] on formats made of the directives [%Y], [%m],
    [%d] and [%%] and of characters other than [%], which are copied.
    Formats with other directives are outside this stand-in. *)
Fixpoint simple_strftime (fmt : str) (t : struct_time) : str :=
  match fmt with
  | [] => []
  | c :: r =>
      if startswith (py "%Y") fmt then
        match r with
        | _ :: r' => format_d (tm_year t) ++ simple_strftime r' t
        | [] => []
        end
      else if startswith (py "%m") fmt then
        match r with
        | _ :: r' => two_digits (tm_mon t) ++ simple_strftime r' t
        | [] => []
        end
      else if startswith (py "%d") fmt then
        match r with
        | _ :: r' => two_digits (tm_mday t) ++ simple_strftime r' t
        | [] => []
        end
      else if startswith (py "%%") fmt then
        match r with
        | _ :: r' => py "%" ++ simple_strftime r' t
        | [] => []
        end
      else c :: simple_strftime r t
  end.

#[export] Instance simple_time : TimeLib := {
  time_strftime := simple_strftime
}.

#[export] Instance plain_repr : PyRepr := {
  repr := fun _ => py "<object>";
  exn_str := fun _ => py "<exception>"
}.

(** ** The presentation service, the file store and the clock

    Modelled from the spec: the services are collaborators outside the
    repository.  A deck is an ordered sequence of slides, a slide an
    ordered sequence of elements.  A batch is applied request by
    request, in the order given, and as a whole or not at all.  A
    replace-all-text request rewrites every occurrence of the searched
    text, letter case respected, in every text box of the pages it
    names; an empty searched text is refused.  A delete-object request
    removes the slide or the element with the given identifier.  A
    create-image request adds a picture to the named page. *)

Inductive element : Type :=
| TextBox (id : str) (content : str)
| Picture (id : str) (url : str).

Record slide : Type := mk_slide {
  slide_id : str;
  elements : list element
}.

Record ref_world : Type := mk_ref_world {
  deck : list slide;
  local_files : list str;
  drive_files : Z;
  ticks : Z;
  today : Z * Z * Z;
  batch_down : bool
}.

Definition element_id (e : element) : str :=
  match e with TextBox id _ => id | Picture id _ => id end.

Definition box_size : json :=
  JDict [(py "height", JDict [(py "magnitude", JInt 3000000); (py "unit", JStr (py "EMU"))]);
         (py "width", JDict [(py "magnitude", JInt 3000000); (py "unit", JStr (py "EMU"))])].

Definition box_transform : json :=
  JDict [(py "scaleX", JInt 1); (py "scaleY", JInt 1);
         (py "translateX", JInt 0); (py "translateY", JInt 0);
         (py "unit", JStr (py "EMU"))].

(** What the service returns for an element: a text box without text
    has no [text] field, otherwise its text is one paragraph closed by a
    line feed. *)
Definition element_json (e : element) : json :=
  match e with
  | TextBox id content =>
      JDict [(py "objectId", JStr id);
             (py "size", box_size);
             (py "transform", box_transform);
             (py "shape",
                JDict ((py "shapeType", JStr (py "TEXT_BOX")) ::
                  match content with
                  | [] => []
                  | _ :: _ =>
                      [(py "text",
                          JDict [(py "textElements",
                            JList [JDict [(py "paragraphMarker", JDict [])];
                                   JDict [(py "textRun",
                                     JDict [(py "content", JStr (content ++ [10%N]))])]])])]
                  end))]
  | Picture id url =>
      JDict [(py "objectId", JStr id);
             (py "image", JDict [(py "contentUrl", JStr url)])]
  end.

Definition slide_json (sl : slide) : json :=
  JDict ((py "objectId", JStr (slide_id sl)) ::
         match elements sl with
         | [] => []
         | _ :: _ => [(py "pageElements", JList (map element_json (elements sl)))]
         end).

Definition presentation_json (pid : str) (d : list slide) : json :=
  JDict ((py "presentationId", JStr pid) ::
         match d with
         | [] => []
         | _ :: _ => [(py "slides", JList (map slide_json d))]
         end).

Definition field (k : str) (j : json) : option json :=
  match j with
  | JDict d => lookup k d
  | _ => None
  end.

Definition names_page (pages : list json) (sl : slide) : bool :=
  existsb (fun p => eq_str p (slide_id sl)) pages.

Definition replace_in_element (search replacement : str) (e : element) : element :=
  match e with
  | TextBox id content => TextBox id (replace search replacement content)
  | Picture id url => Picture id url
  end.

Definition replace_all_text (search replacement : str) (pages : list json)
    (d : list slide) : list slide :=
  map (fun sl =>
         if names_page pages sl
         then mk_slide (slide_id sl)
                       (map (replace_in_element search replacement) (elements sl))
         else sl) d.

Definition delete_object (id : str) (d : list slide) : option (list slide) :=
  if existsb (fun sl => str_eqb (slide_id sl) id) d then
    Some (filter (fun sl => negb (str_eqb (slide_id sl) id)) d)
  else if existsb (fun sl => existsb (fun e => str_eqb (element_id e) id) (elements sl)) d then
    Some (map (fun sl =>
                 mk_slide (slide_id sl)
                   (filter (fun e => negb (str_eqb (element_id e) id)) (elements sl))) d)
  else None.

Definition create_image (id url page : str) (d : list slide) : option (list slide) :=
  if existsb (fun sl => str_eqb (slide_id sl) page) d then
    Some (map (fun sl =>
                 if str_eqb (slide_id sl) page
                 then mk_slide (slide_id sl) (elements sl ++ [Picture id url])
                 else sl) d)
  else None.

(** One request: the new deck and the reply, or nothing when the
    request is refused. *)
Definition apply_request (req : json) (d : list slide) : option (list slide * json) :=
  match field (py "replaceAllText") req, field (py "deleteObject") req,
        field (py "createImage") req with
  | Some r, _, _ =>
      match field (py "containsText") r, field (py "replaceText") r,
            field (py "pageObjectIds") r with
      | Some ct, Some (JStr replacement), Some (JList pages) =>
          match field (py "text") ct, field (py "matchCase") ct with
          | Some (JStr (c :: search)), Some (JBool true) =>
              Some (replace_all_text (c :: search) replacement pages d,
                    JDict [(py "replaceAllText", JDict [])])
          | _, _ => None
          end
      | _, _, _ => None
      end
  | None, Some r, _ =>
      match field (py "objectId") r with
      | Some (JStr id) =>
          match delete_object id d with
          | Some d' => Some (d', JDict [])
          | None => None
          end
      | _ => None
      end
  | None, None, Some r =>
      match field (py "url") r, field (py "elementProperties") r with
      | Some (JStr url), Some props =>
          match field (py "pageObjectId") props with
          | Some (JStr page) =>
              let id := py "image_" ++ format_d (Z.of_nat (length (flat_map elements d))) in
              match create_image id url page d with
              | Some d' =>
                  Some (d', JDict [(py "createImage", JDict [(py "objectId", JStr id)])])
              | None => None
              end
          | _ => None
          end
      | _, _ => None
      end
  | None, None, None => None
  end.

Fixpoint apply_requests (reqs : list json) (d : list slide)
  : option (list slide * list json) :=
  match reqs with
  | [] => Some (d, [])
  | req :: rest =>
      match apply_request req d with
      | None => None
      | Some (d', reply) =>
          match apply_requests rest d' with
          | None => None
          | Some (d'', replies) => Some (d'', reply :: replies)
          end
      end
  end.

Definition with_deck (w : ref_world) (d : list slide) : ref_world :=
  mk_ref_world d (local_files w) (drive_files w) (ticks w) (today w) (batch_down w).

Definition batch_update (pid : str) (body : json) (w : ref_world) : result json * ref_world :=
  if batch_down w then (Raise (HttpError (py "503 Service Unavailable")), w)
  else
    match field (py "requests") body with
    | Some (JList reqs) =>
        match apply_requests reqs (deck w) with
        | Some (d', replies) =>
            (Ok (JDict [(py "presentationId", JStr pid); (py "replies", JList replies)]),
             with_deck w d')
        | None => (Raise (HttpError (py "400 Bad Request")), w)
        end
    | _ => (Raise (HttpError (py "400 Bad Request")), w)
    end.

Definition read_clock (w : ref_world) : struct_time * ref_world :=
  let '(year, mon, mday) := today w in
  (mk_time year mon mday (ticks w / 3600 mod 24) (ticks w / 60 mod 60)
           (ticks w mod 60) 0 1 0,
   mk_ref_world (deck w) (local_files w) (drive_files w) (ticks w + 1) (today w)
            (batch_down w)).

#[export] Instance services : Services ref_world := {
  build := fun _ _ => true;
  presentations_get := fun pid w => (Ok (presentation_json pid (deck w)), w);
  presentations_batchUpdate := batch_update;
  files_create := fun _ _ w =>
    (Ok (JDict [(py "id", JStr (py "file_" ++ format_d (drive_files w)))]),
     mk_ref_world (deck w) (local_files w) (drive_files w + 1) (ticks w) (today w)
              (batch_down w));
  permissions_create := fun _ _ w => (Ok (JDict [(py "id", JStr (py "anyoneWithLink"))]), w);
  path_exists := fun p w => existsb (str_eqb p) (local_files w);
  localtime := read_clock
}.

Definition start (w : ref_world) : state ref_world := mk_state w [].

Definition config (verbose : bool) : cli.cli_state unit :=
  cli.mk_cli_state (py "deck-1") verbose tt.

(** ** Copies and refusals *)

(** A copy of the presentation gets a fresh identifier; the Drive
    service shares the outage flag of the presentation service. *)
#[export] Instance copying : DriveCopy ref_world := {
  files_copy := fun _ _ w =>
    if batch_down w then (Raise (HttpError (py "503 Service Unavailable")), w)
    else
      (Ok (JDict [(py "id", JStr (py "copy_" ++ format_d (drive_files w)))]),
       mk_ref_world (deck w) (local_files w) (drive_files w + 1) (ticks w)
                    (today w) (batch_down w))
}.

(** The calls that a faulty service refuses. *)
Record faults : Type := mk_faults {
  no_fetch : bool;
  no_upload : bool;
  no_permission : bool
}.

Definition refused : result json := Raise (HttpError (py "403 Forbidden")).

(** The services of the reference world, with some calls refused. *)
Definition faulty (f : faults) : Services ref_world := {|
  build := fun _ _ => true;
  presentations_get := fun pid w =>
    if no_fetch f then (refused, w)
    else (Ok (presentation_json pid (deck w)), w);
  presentations_batchUpdate := batch_update;
  files_create := fun _ _ w =>
    if no_upload f then (refused, w)
    else
      (Ok (JDict [(py "id", JStr (py "file_" ++ format_d (drive_files w)))]),
       mk_ref_world (deck w) (local_files w) (drive_files w + 1) (ticks w)
                    (today w) (batch_down w));
  permissions_create := fun _ _ w =>
    if no_permission f then (refused, w)
    else (Ok (JDict [(py "id", JStr (py "anyoneWithLink"))]), w);
  path_exists := fun p w => existsb (str_eqb p) (local_files w);
  localtime := read_clock
|}.

(** ** Duplicated slides *)

(** A duplicate-object request copies the named slide and puts the copy
    right after it; the copy and its elements get identifiers of their
    own. *)
Definition copy_element (e : element) : element :=
  match e with
  | TextBox id content => TextBox (py "copy_of_" ++ id) content
  | Picture id url => Picture (py "copy_of_" ++ id) url
  end.

Definition copy_slide (sl : slide) : slide :=
  mk_slide (py "copy_of_" ++ slide_id sl) (map copy_element (elements sl)).

Definition duplicate_object (id : str) (d : list slide) : option (list slide) :=
  if existsb (fun sl => str_eqb (slide_id sl) id) d then
    Some (flat_map (fun sl => if str_eqb (slide_id sl) id
                              then [sl; copy_slide sl] else [sl]) d)
  else None.

(** The batch update of a service that also knows the duplicate-object
    request, sent alone in its batch. *)
Definition batch_update_duplicating (pid : str) (body : json) (w : ref_world)
  : result json * ref_world :=
  match field (py "requests") body with
  | Some (JList [req]) =>
      match field (py "duplicateObject") req with
      | Some r =>
          if batch_down w then (Raise (HttpError (py "503 Service Unavailable")), w)
          else
            match field (py "objectId") r with
            | Some (JStr id) =>
                match duplicate_object id (deck w) with
                | Some d' =>
                    (Ok (JDict [(py "presentationId", JStr pid);
                                (py "replies",
                                 JList [JDict [(py "duplicateObject",
                                          JDict [(py "objectId",
                                                  JStr (py "copy_of_" ++ id))])]])]),
                     with_deck w d')
                | None => (Raise (HttpError (py "400 Bad Request")), w)
                end
            | _ => (Raise (HttpError (py "400 Bad Request")), w)
            end
      | None => batch_update pid body w
      end
  | _ => batch_update pid body w
  end.

(** A service with a quota of fetches: a fetch uses one up, and is
    refused when none is left.  Its batch update knows the
    duplicate-object request. *)
Definition lifted {A : Type} (op : ref_world -> A * ref_world) (w : ref_world * nat)
  : A * (ref_world * nat) :=
  let (r, w') := op (fst w) in (r, (w', snd w)).

Definition metered : Services (ref_world * nat) := {|
  build := fun _ _ => true;
  presentations_get := fun pid w =>
    match snd w with
    | O => (Raise (HttpError (py "429 Too Many Requests")), w)
    | S quota => (Ok (presentation_json pid (deck (fst w))), (fst w, quota))
    end;
  presentations_batchUpdate := fun pid body =>
    lifted (batch_update_duplicating pid body);
  files_create := fun metadata media => lifted (files_create metadata media);
  permissions_create := fun id body => lifted (permissions_create id body);
  path_exists := fun p w => path_exists p (fst w);
  localtime := lifted read_clock
|}.

End Reference.

(* ================================================================== *)
(** * Vocabulary of the specification *)
(* ================================================================== *)

Module Spec.
Import slides_utils jinja_utils cli.

(** The suffix rule in the words of the specification: [st], [nd], [rd]
    when the last digit is 1, 2, 3 and the number is not 11, 12, 13;
    [th] otherwise. *)
Definition ordinal_suffix (n : Z) : str :=
  if ((n mod 10 =? 1) && negb (n =? 11))%Z then py "st"
  else if ((n mod 10 =? 2) && negb (n =? 12))%Z then py "nd"
  else if ((n mod 10 =? 3) && negb (n =? 13))%Z then py "rd"
  else py "th".

(** The same rule on the digits, for any integer: the tens digit 1
    forces [th]. *)
Definition suffix_by_digits (n : Z) : str :=
  if (n / 10 mod 10 =? 1)%Z then py "th"
  else if (n mod 10 =? 1)%Z then py "st"
  else if (n mod 10 =? 2)%Z then py "nd"
  else if (n mod 10 =? 3)%Z then py "rd"
  else py "th".

(** Replacing every [%O], found from left to right, by [new]. *)
Fixpoint replace_percent_O (new fmt : str) : str :=
  match fmt with
  | [] => []
  | c :: r =>
      match r with
      | c' :: r' =>
          if ((c =? 37) && (c' =? 79))%N
          then new ++ replace_percent_O new r'
          else c :: replace_percent_O new r
      | [] => [c]
      end
  end.

(** The text a text element contributes: the content of its text run,
    nothing when it has no text run.  Undefined for a text element that
    does not have the shape the service documents. *)
Definition content_of (text_el : json) : option str :=
  match text_el with
  | JDict d =>
      match lookup (py "textRun") d with
      | None => Some []
      | Some (JDict run) =>
          match lookup (py "content") run with
          | Some (JStr s) => Some s
          | _ => None
          end
      | Some _ => None
      end
  | _ => None
  end.

(** A text that does not open with whitespace. *)
Definition starts_clean (s : str) : Prop :=
  match s with [] => True | c :: _ => isspace c = false end.

(** [d.get(k)] on a dictionary. *)
Definition get_or_none (k : str) (d : dict) : json :=
  match lookup k d with Some v => v | None => JNull end.

(** The request the specification describes for a changed text: replace
    all text, on the one page, letter case respected. *)
Definition replace_all_text_request (original rendered : str) (page : json) : json :=
  JDict [(py "replaceAllText",
          JDict [(py "containsText",
                    JDict [(py "text", JStr original); (py "matchCase", JBool true)]);
                 (py "replaceText", JStr rendered);
                 (py "pageObjectIds", JList [page])])].

(** Every text box of the slide [page] has each occurrence of
    [original] replaced by [rendered]; other slides are left alone. *)
Definition replaced_on_slide (original rendered page : str)
    (d : list Reference.slide) : list Reference.slide :=
  map (fun sl =>
         if str_eqb (Reference.slide_id sl) page
         then Reference.mk_slide (Reference.slide_id sl)
                (map (Reference.replace_in_element original rendered)
                     (Reference.elements sl))
         else sl) d.

(** The placeholder pattern: [text] is [![image](], a path, and [)], the
    path free of line feeds (which the dot of the pattern refuses). *)
Definition image_pattern (text path : str) : Prop :=
  text = py "![image](" ++ path ++ py ")" /\ ~ In 10%N path.

(** [w'] is reached from [w] by reading the clock, and by nothing
    else. *)
Inductive clock_reads {W : Type} `{Services W} : W -> W -> Prop :=
| reads_none (w : W) : clock_reads w w
| reads_more (w w' : W) :
    clock_reads (snd (localtime w)) w' -> clock_reads w w'.

(** The warning of [imagify] for a placeholder whose file is missing. *)
Definition missing_image_warning (image_path rendered : str) : event :=
  Stderr (py "  Image path '" ++ image_path ++ py "' (from '" ++ rendered
          ++ py "') does not exist. Skipping.").

(** The batch updates among the events, in the order they were sent:
    presentation, body and outcome. *)
Definition batch_updates (evs : list event) : list (str * json * result json) :=
  flat_map (fun e =>
              match e with
              | CallBatchUpdate pid body outcome => [(pid, body, outcome)]
              | _ => []
              end) evs.

(** A command that sends no batch update, whatever the state it starts
    from. *)
Definition quiet {W A : Type} (m : M W A) : Prop :=
  forall s, batch_updates (trace (snd (m s))) = batch_updates (trace s).

(** The message of [delete_slide] for a slide number that does not
    resolve, in a deck of [k] slides. *)
Definition slide_missing_message (slide_number k : Z) : str :=
  py "Slide number " ++ format_d slide_number ++ py " doesn't exist. "
  ++ py "Please input an existing slide number (1 to " ++ format_d k ++ py ").".

(** The body of the batch that deletes one object. *)
Definition delete_body (id : json) : json :=
  JDict [(py "requests",
          JList [JDict [(py "deleteObject", JDict [(py "objectId", id)])]])].

(** The keyword arguments of a render call made when the clock reads
    [now]. *)
Definition render_context (now : struct_time) (data : context) : context :=
  unpack_into [(py "now", CTime now)] data.

(** [renders env data records w rendered w']: starting in the world
    [w], the texts of [records] are rendered one after the other, each
    against the data and the reading of the clock at its turn; all
    succeed, with the results [rendered], and the world is then [w']. *)
Inductive renders {W : Type} `{Services W} {Env : Type} `{Jinja Env}
    (env : Env) (data : context)
  : list TextRecord -> W -> list str -> W -> Prop :=
| renders_nil (w : W) : renders env data [] w [] w
| renders_cons (record : TextRecord) (rest : list TextRecord) (w w' : W)
    (r : str) (rs : list str) :
    from_string_render env (text record)
      (render_context (fst (localtime w)) data) = Ok r ->
    renders env data rest (snd (localtime w)) rs w' ->
    renders env data (record :: rest) w (r :: rs) w'.

(** A record with its rendered text is changed when the two texts
    differ. *)
Definition changed (pair : TextRecord * str) : bool :=
  negb (str_eqb (snd pair) (text (fst pair))).

Definition change_request (pair : TextRecord * str) : json :=
  replace_all_text_request (text (fst pair)) (snd pair) (page_object_id (fst pair)).

(** One request per changed record, in the order of the records. *)
Definition change_requests (records : list TextRecord) (rendered : list str)
  : list json :=
  map change_request (filter changed (combine records rendered)).

Definition requests_body (requests : list json) : json :=
  JDict [(py "requests", JList requests)].

(** The number of requests a batch body carries. *)
Definition requests_in (body : json) : Z :=
  match body with
  | JDict d =>
      match lookup (py "requests") d with
      | Some (JList l) => Z.of_nat (length l)
      | _ => 0%Z
      end
  | _ => 0%Z
  end.

(** The number of requests carried by the batch updates that
    succeeded. *)
Fixpoint applied (batches : list (str * json * result json)) : Z :=
  match batches with
  | [] => 0%Z
  | (_, body, Ok _) :: rest => (requests_in body + applied rest)%Z
  | (_, _, Raise _) :: rest => applied rest
  end.

(** The identifier and the text records [jinjify] extracts from a
    slide. *)
Definition extracts (slide slide_id : json) (records : list TextRecord) : Prop :=
  exists text_elements,
    get slide (py "objectId") = Ok slide_id /\
    get_text_elements_from_slide slide = Ok text_elements /\
    rmap (fun el => gslides_element_to_text el slide_id) text_elements = Ok records.

(** The closing report of [jinjify]. *)
Definition jinjify_report (total : Z) : event :=
  Stdout (py "Jinjify processing complete. Total text updates made: "
          ++ format_d total).


(** An element the filter of [get_text_elements_from_slide] can
    examine: an object whose [shape], when it is there and true, is an
    object. *)
Definition shape_readable (el : json) : bool :=
  match el with
  | JDict e =>
      match lookup (py "shape") e with
      | None => true
      | Some (JDict _) => true
      | Some other => negb (truthy other)
      end
  | _ => false
  end.

(** A text box: an object with a non-empty [shape] object whose
    [shapeType] is [TEXT_BOX]. *)
Definition is_box (el : json) : bool :=
  match el with
  | JDict e =>
      match lookup (py "shape") e with
      | Some (JDict (field :: fields)) =>
          eq_str (get_or_none (py "shapeType") (field :: fields)) (py "TEXT_BOX")
      | _ => false
      end
  | _ => false
  end.

(** The contents of all text elements, when each has the documented
    shape. *)
Fixpoint all_contents (text_elements : list json) : option (list str) :=
  match text_elements with
  | [] => Some []
  | te :: rest =>
      match content_of te, all_contents rest with
      | Some c, Some cs => Some (c :: cs)
      | _, _ => None
      end
  end.

(** The record a page element stands for, on the page [page]: its
    identifier, the page, and the stripped text of its runs.  Undefined
    when the element has no shape object or a text that is not of the
    documented shape. *)
Definition record_of (page el : json) : option TextRecord :=
  match el with
  | JDict e =>
      match lookup (py "shape") e with
      | Some (JDict sh) =>
          match lookup (py "text") sh with
          | None => Some (mk_text_record (get_or_none (py "objectId") e) page [])
          | Some (JDict text_field) =>
              match lookup (py "textElements") text_field with
              | Some (JList tes) =>
                  match all_contents tes with
                  | Some contents =>
                      Some (mk_text_record (get_or_none (py "objectId") e) page
                                           (strip (concat contents)))
                  | None => None
                  end
              | _ => None
              end
          | Some _ => None
          end
      | _ => None
      end
  | _ => None
  end.

(** The suffix of an integer, read off its last two digits. *)
Definition suffix_by_hundred (n : Z) : str :=
  if ((10 <=? n mod 100) && (n mod 100 <=? 19))%Z then py "th"
  else if (n mod 10 =? 1)%Z then py "st"
  else if (n mod 10 =? 2)%Z then py "nd"
  else if (n mod 10 =? 3)%Z then py "rd"
  else py "th".

(** The text of a placeholder for [path]. *)
Definition placeholder_text (path : str) : str :=
  py "![image](" ++ path ++ py ")".


(** The metadata [upload_image_to_drive] sends with a file. *)
Definition upload_metadata (image_path : str) : json :=
  JDict [(py "name", JStr image_path); (py "parents", JList [JStr (py "root")])].

Definition reader_permission : json :=
  JDict [(py "type", JStr (py "anyone")); (py "role", JStr (py "reader"))].

Definition writer_permission : json :=
  JDict [(py "type", JStr (py "anyone")); (py "role", JStr (py "writer"))].

Definition upload_failure_message (msg : str) : event :=
  Stderr (py "An error occurred during image upload/permission setting: " ++ msg).

(** The batch [imagify] sends for a placeholder: the picture at [url],
    placed like the text box, then the deletion of the text box. *)
Definition image_body (url : str) (slide_id size transform shape_id : json) : json :=
  JDict [(py "requests",
          JList [JDict [(py "createImage",
                   JDict [(py "url", JStr url);
                          (py "elementProperties",
                             JDict [(py "pageObjectId", slide_id);
                                    (py "size", size);
                                    (py "transform", transform)])])];
                 JDict [(py "deleteObject", JDict [(py "objectId", shape_id)])]])].

(** [response.get("replies")[0].get("createImage")] *)
Definition create_image_reply (response : json) : result json :=
  rbind (get response (py "replies")) (fun replies =>
  rbind (getitem_int replies 0) (fun reply =>
  get reply (py "createImage"))).

(** The events of a given kind among the events. *)
Definition permission_calls (evs : list event) : list (json * json * result json) :=
  flat_map (fun e =>
              match e with
              | CallPermissionsCreate id body outcome => [(id, body, outcome)]
              | _ => []
              end) evs.

Definition upload_calls (evs : list event) : list (json * str * result json) :=
  flat_map (fun e =>
              match e with
              | CallFilesCreate body media outcome => [(body, media, outcome)]
              | _ => []
              end) evs.

Definition fetch_calls (evs : list event) : list (str * result json) :=
  flat_map (fun e =>
              match e with
              | CallGet pid outcome => [(pid, outcome)]
              | _ => []
              end) evs.

(** The body of the batch that duplicates one object. *)
Definition duplicate_body (id : json) : json :=
  JDict [(py "requests",
          JList [JDict [(py "duplicateObject", JDict [(py "objectId", id)])]])].


(** Does [imagify] count a placeholder whose batch returned
    [response]?  The reply is read inside the [try] block: a reply that
    cannot be indexed is caught and the placeholder is not counted; what
    else goes wrong is raised. *)
Definition counted_reply (verbose : bool) (response : json) : result bool :=
  match rbind (create_image_reply response) (fun reply =>
          if verbose && truthy reply
          then rbind (get reply (py "objectId")) (fun _ => Ok tt)
          else Ok tt) with
  | Ok _ => Ok true
  | Raise (HttpError _) => Ok false
  | Raise IndexError => Ok false
  | Raise TypeError => Ok false
  | Raise e => Raise e
  end.

(** The count after a placeholder whose batch had the given outcome. *)
Definition image_count (verbose : bool) (total : Z) (outcome : result json)
  : result Z :=
  match outcome with
  | Ok response =>
      match counted_reply verbose response with
      | Ok true => Ok (total + 1)%Z
      | Ok false => Ok total
      | Raise e => Raise e
      end
  | Raise (HttpError _) => Ok total
  | Raise IndexError => Ok total
  | Raise TypeError => Ok total
  | Raise e => Raise e
  end.

Definition upload_skipped_message (image_path : str) : event :=
  Stderr (py "  Failed to upload image '" ++ image_path
          ++ py "' to Drive. Skipping replacement.").

(** What a run has done to the services: the world it leaves and the
    batch updates it has sent. *)
Definition service_effects {W : Type} (s : state W)
  : W * list (str * json * result json) :=
  (world s, batch_updates (trace s)).

(** A result that is not an [HttpError]. *)
Definition no_http_error {A : Type} (r : result A) : Prop :=
  forall msg, r <> Raise (HttpError msg).

(** The message of the older commands for a slide number that does not
    resolve. *)
Definition init_slide_missing_message (slide_number : Z) : str :=
  [10%N] ++ py "Slide number " ++ format_d slide_number ++ py " doesn't exist. "
  ++ py "Please input an existing slide from your presentation.".

(** The lines written on the error stream, in order. *)
Definition error_lines (evs : list event) : list str :=
  flat_map (fun e => match e with Stderr msg => [msg] | _ => [] end) evs.

(** An event that is a line on the output. *)
Definition is_output (e : event) : bool :=
  match e with Stdout _ => true | _ => false end.

(** A batch of the text templating: the number of its slide, counted
    from zero, the text records of the slide, what they were rendered
    to, and the outcome of the call. *)
Record slide_batch : Type := mk_slide_batch {
  batch_slide : Z;
  batch_records : list TextRecord;
  batch_rendered : list str;
  batch_outcome : result json
}.

(** The body of the batch: one request per changed record of the
    slide, in the order of the records. *)
Definition batch_body (b : slide_batch) : json :=
  requests_body (change_requests (batch_records b) (batch_rendered b)).

Definition batches_sent (pid : str) (sent : list slide_batch)
  : list (str * json * result json) :=
  map (fun b => (pid, batch_body b, batch_outcome b)) sent.

(** The changed records of the slides whose batch was accepted. *)
Fixpoint changes_made (sent : list slide_batch) : Z :=
  match sent with
  | [] => 0%Z
  | b :: rest =>
      match batch_outcome b with
      | Ok _ =>
          (Z.of_nat (length (filter changed
                               (combine (batch_records b) (batch_rendered b))))
           + changes_made rest)%Z
      | Raise _ => changes_made rest
      end
  end.

(** What [jinjify] writes on the error stream for a batch that failed. *)
Definition failure_report (i : Z) (err : str) : str :=
  py "Error updating text on slide #" ++ format_d (i + 1) ++ py ": " ++ err.

Definition failure_reports (sent : list slide_batch) : list str :=
  flat_map (fun b =>
              match batch_outcome b with
              | Raise (HttpError err) => [failure_report (batch_slide b) err]
              | _ => []
              end) sent.

(** The service answers a call, or refuses it with [HttpError]. *)
Definition answered (outcome : result json) : Prop :=
  match outcome with
  | Ok _ => True
  | Raise (HttpError _) => True
  | Raise _ => False
  end.

(** [slides_templated env data pid i slides w sent w']: the text
    templating as the specification describes it, over the slides
    [slides], the first of them numbered [i], from the world [w].  The
    slides are taken in order.  The text records of a slide are rendered
    one after the other.  A slide with no changed record, a slide
    without text box included, causes no call.  A slide with changed
    records causes one batch update, whose body holds one request per
    changed record; the call is answered or refused, and the run goes on
    with the next slide either way.  [sent] lists the batches in the
    order of the slides and [w'] is the world at the end. *)
Inductive slides_templated {W : Type} `{Services W} {Env : Type} `{Jinja Env}
    (env : Env) (data : context) (pid : str)
  : Z -> list json -> W -> list slide_batch -> W -> Prop :=
| templated_none (i : Z) (w : W) : slides_templated env data pid i [] w [] w
| templated_idle (i : Z) (slide : json) (rest : list json) (slide_id : json)
    (records : list TextRecord) (rs : list str) (w w1 w' : W)
    (sent : list slide_batch) :
    extracts slide slide_id records ->
    renders env data records w rs w1 ->
    change_requests records rs = [] ->
    slides_templated env data pid (i + 1) rest w1 sent w' ->
    slides_templated env data pid i (slide :: rest) w sent w'
| templated_batch (i : Z) (slide : json) (rest : list json) (slide_id : json)
    (records : list TextRecord) (rs : list str) (w w1 w2 w' : W)
    (outcome : result json) (sent : list slide_batch) :
    extracts slide slide_id records ->
    renders env data records w rs w1 ->
    change_requests records rs <> [] ->
    presentations_batchUpdate pid
      (requests_body (change_requests records rs)) w1 = (outcome, w2) ->
    answered outcome ->
    slides_templated env data pid (i + 1) rest w2 sent w' ->
    slides_templated env data pid i (slide :: rest) w
      (mk_slide_batch i records rs outcome :: sent) w'.














End Spec.
Import Spec.

(* ================================================================== *)
(** * Properties *)
(* ================================================================== *)

Import slides_utils jinja_utils drive_utils cli.

Unset Implicit Arguments.

#[local] Existing Instances Reference.services Reference.simple_time
  Reference.plain_repr Reference.interpolation.

(** ** Strings *)

Lemma str_eqb_eq (a b : str) : str_eqb a b = true <-> a = b.
Proof.
  unfold str_eqb. destruct (list_eq_dec N.eq_dec a b); split; congruence.
Qed.

Lemma str_eqb_refl (a : str) : str_eqb a a = true.
Proof. apply str_eqb_eq. reflexivity. Qed.

Lemma str_eqb_neq (a b : str) : str_eqb a b = false <-> a <> b.
Proof.
  unfold str_eqb. destruct (list_eq_dec N.eq_dec a b); split; congruence.
Qed.

(** ** C3: the index of a slide *)

Lemma getitem_int_in_range (l : list json) (i : Z) :
  (0 <= i < Z.of_nat (length l))%Z ->
  exists v, nth_error l (Z.to_nat i) = Some v /\ getitem_int (JList l) i = Ok v.
Proof.
  intros Hi. unfold getitem_int.
  assert (Hneg : (i <? 0)%Z = false) by (apply Z.ltb_ge; lia).
  rewrite Hneg.
  assert (Hin : ((0 <=? i) && (i <? Z.of_nat (length l)))%Z = true).
  { apply andb_true_intro. split; [apply Z.leb_le | apply Z.ltb_lt]; lia. }
  rewrite Hin.
  destruct (nth_error l (Z.to_nat i)) as [v|] eqn:Hnth.
  - exists v. split; reflexivity.
  - apply nth_error_None in Hnth. lia.
Qed.

(** C3.  [get_slide_id_by_index] counts slides from one.  For an index
    between 1 and the number of slides it returns what [.get("objectId")]
    gives on the slide at that place; for every other index, zero and
    negative ones and those past the end included, it returns [None].
    It never raises on a list of slides whose entries are objects. *)
Theorem get_slide_id_by_index_one_based (slides : list json) (index : Z) :
  ((1 <= index <= Z.of_nat (length slides))%Z ->
   exists slide,
     nth_error slides (Z.to_nat (index - 1)) = Some slide /\
     get_slide_id_by_index (JList slides) index = get slide (py "objectId"))
  /\
  (~ (1 <= index <= Z.of_nat (length slides))%Z ->
   get_slide_id_by_index (JList slides) index = Ok JNull).
Proof.
  unfold get_slide_id_by_index. split.
  - intros [Hlo Hhi].
    assert (H0 : (0 <? index)%Z = true) by (apply Z.ltb_lt; lia).
    rewrite H0. cbn [len rbind].
    assert (H1 : (index <=? Z.of_nat (length slides))%Z = true)
      by (apply Z.leb_le; lia).
    rewrite H1.
    destruct (getitem_int_in_range slides (index - 1)%Z) as (v & Hnth & Hget);
      [lia|].
    exists v. split; [exact Hnth|]. rewrite Hget. reflexivity.
  - intros Hout.
    destruct (0 <? index)%Z eqn:H0; [|reflexivity].
    cbn [len rbind].
    destruct (index <=? Z.of_nat (length slides))%Z eqn:H1; [|reflexivity].
    apply Z.ltb_lt in H0. apply Z.leb_le in H1. exfalso. apply Hout. lia.
Qed.

(** Three slides [s1], [s2], [s3]: index 1 gives the identifier of the
    first, indices 0, 4 and -1 give [None]. *)
Lemma get_slide_id_by_index_one_based_witness :
  let slides := [JDict [(py "objectId", JStr (py "s1"))];
                 JDict [(py "objectId", JStr (py "s2"))];
                 JDict [(py "objectId", JStr (py "s3"))]] in
  get_slide_id_by_index (JList slides) 1 = Ok (JStr (py "s1")) /\
  get_slide_id_by_index (JList slides) 0 = Ok JNull /\
  get_slide_id_by_index (JList slides) 4 = Ok JNull /\
  get_slide_id_by_index (JList slides) (-1) = Ok JNull.
Proof.
  intros slides.
  split; [|split; [|split]].
  - destruct (get_slide_id_by_index_one_based slides 1) as [Hin _].
    destruct Hin as (slide & Hnth & Hres); [simpl; lia|].
    simpl in Hnth. injection Hnth as <-. rewrite Hres. reflexivity.
  - apply (get_slide_id_by_index_one_based slides 0). simpl. lia.
  - apply (get_slide_id_by_index_one_based slides 4). simpl. lia.
  - apply (get_slide_id_by_index_one_based slides (-1)). simpl. lia.
Defined.

(** ** C2: the ordinal day in a time format *)

Lemma slice_tsnrhtdd (m : Z) :
  (0 <= m < 4)%Z ->
  slice_from_step (py "tsnrhtdd") (Z.to_nat m) 4 =
  if (m =? 1)%Z then py "st"
  else if (m =? 2)%Z then py "nd"
  else if (m =? 3)%Z then py "rd"
  else py "th".
Proof.
  intros Hm.
  assert (Hcases : m = 0%Z \/ m = 1%Z \/ m = 2%Z \/ m = 3%Z) by lia.
  destruct Hcases as [-> | [-> | [-> | ->]]]; reflexivity.
Qed.

(** The indexing trick of [ordinal] computes the suffix by digits, for
    every integer. *)
Lemma ordinal_by_digits (n : Z) :
  ordinal n = format_d n ++ suffix_by_digits n.
Proof.
  unfold ordinal, suffix_by_digits. f_equal.
  pose proof (Z.mod_pos_bound n 10 ltac:(lia)) as Hm.
  destruct (n / 10 mod 10 =? 1)%Z; cbn [negb b2z].
  - rewrite !Z.mul_0_l. reflexivity.
  - destruct (n mod 10 <? 4)%Z eqn:Hlt; cbn [b2z].
    + apply Z.ltb_lt in Hlt.
      replace (1 * 1 * n)%Z with n by lia.
      apply slice_tsnrhtdd. lia.
    + apply Z.ltb_ge in Hlt.
      replace (1 * 0 * n)%Z with 0%Z by lia.
      assert (H1 : (n mod 10 =? 1)%Z = false) by (apply Z.eqb_neq; lia).
      assert (H2 : (n mod 10 =? 2)%Z = false) by (apply Z.eqb_neq; lia).
      assert (H3 : (n mod 10 =? 3)%Z = false) by (apply Z.eqb_neq; lia).
      rewrite H1, H2, H3. reflexivity.
Qed.

(** On the days of a month the rule by digits is the rule of the
    specification: the tens digit is 1 and the last digit 1, 2 or 3 only
    for 11, 12 and 13. *)
Lemma suffix_by_digits_in_month (n : Z) :
  (1 <= n <= 31)%Z -> suffix_by_digits n = ordinal_suffix n.
Proof.
  intros Hn.
  assert (Hall : forallb (fun k => str_eqb (suffix_by_digits (Z.of_nat k))
                                           (ordinal_suffix (Z.of_nat k)))
                         (seq 1 31) = true) by (vm_compute; reflexivity).
  rewrite forallb_forall in Hall.
  specialize (Hall (Z.to_nat n)).
  rewrite Z2Nat.id in Hall by lia.
  apply str_eqb_eq. apply Hall. apply in_seq. lia.
Qed.

Lemma replace_percent_O_step (new : str) (c c' : codepoint) (r : str) :
  replace_percent_O new (c :: c' :: r) =
  if ((c =? 37) && (c' =? 79))%N
  then new ++ replace_percent_O new r
  else c :: replace_percent_O new (c' :: r).
Proof. reflexivity. Qed.

Lemma replace_from_percent_O (new : str) (n : nat) :
  forall fmt, length fmt <= n ->
    replace_from (py "%O") new 0 fmt = replace_percent_O new fmt.
Proof.
  induction n as [|n IH]; intros fmt Hlen.
  - destruct fmt; [reflexivity | simpl in Hlen; lia].
  - destruct fmt as [|c r]; [reflexivity|].
    simpl in Hlen.
    destruct r as [|c' r'].
    + change (py "%O") with [37%N; 79%N].
      cbn -[N.eqb]. unfold startswith. cbn -[N.eqb].
      destruct (37 =? c)%N; reflexivity.
    + rewrite replace_percent_O_step.
      rewrite <- (IH (c' :: r')) by (simpl in *; lia).
      rewrite <- (IH r') by (simpl in *; lia).
      change (py "%O") with [37%N; 79%N].
      cbn -[N.eqb]. unfold startswith. cbn -[N.eqb].
      rewrite (N.eqb_sym c 37), (N.eqb_sym c' 79).
      destruct (37 =? c)%N; [destruct (79 =? c')%N|]; reflexivity.
Qed.

(** [str.replace] with the pattern [%O] rewrites every occurrence, from
    left to right. *)
Lemma replace_percent_O_correct (new fmt : str) :
  replace (py "%O") new fmt = replace_percent_O new fmt.
Proof.
  change (replace (py "%O") new fmt) with (replace_from (py "%O") new 0 fmt).
  apply (replace_from_percent_O new (length fmt)). lia.
Qed.

(** C2.  For a day of the month between 1 and 31, [strftime_with_ordinal]
    replaces every [%O] of the format, before handing it to
    [time.strftime], by the day followed by its suffix, and the suffix
    is [st], [nd], [rd] exactly when the last digit is 1, 2, 3 and the
    day is not 11, 12, 13, and [th] otherwise.  The listed days come out
    as 1st, 2nd, 3rd, 4th, 11th, 12th, 13th, 21st, 22nd, 23rd. *)
Theorem strftime_with_ordinal_day
    {W : Type} `{Services W} `{TimeLib}
    (fmt : str) (t : struct_time) (s : state W) :
  (1 <= tm_mday t <= 31)%Z ->
  ordinal (tm_mday t) = format_d (tm_mday t) ++ ordinal_suffix (tm_mday t)
  /\ strftime_with_ordinal fmt (Some t) s =
     (Ok (time_strftime
            (replace_percent_O
               (format_d (tm_mday t) ++ ordinal_suffix (tm_mday t)) fmt) t),
      s)
  /\ map ordinal [1; 2; 3; 4; 11; 12; 13; 21; 22; 23]%Z =
     [py "1st"; py "2nd"; py "3rd"; py "4th"; py "11th"; py "12th";
      py "13th"; py "21st"; py "22nd"; py "23rd"].
Proof.
  intros Hday.
  assert (Hord : ordinal (tm_mday t) =
                 format_d (tm_mday t) ++ ordinal_suffix (tm_mday t)).
  { rewrite ordinal_by_digits, suffix_by_digits_in_month by exact Hday.
    reflexivity. }
  split; [exact Hord|]. split.
  - unfold strftime_with_ordinal, bind, ret.
    rewrite replace_percent_O_correct, Hord. reflexivity.
  - reflexivity.
Qed.

(** On the 21st, the format [%O %m %Y, %O] is handed on as
    [21st %m %Y, 21st]. *)
Lemma strftime_with_ordinal_day_witness :
  let t := mk_time 2026 11 21 9 30 0 5 325 0 in
  strftime_with_ordinal (py "%O %m %Y, %O") (Some t)
    (Reference.start (Reference.mk_ref_world [] [] 0 0 (2026, 11, 21)%Z false))
  = (Ok (py "21st 11 2026, 21st"),
     Reference.start (Reference.mk_ref_world [] [] 0 0 (2026, 11, 21)%Z false)).
Proof.
  intros t.
  destruct (strftime_with_ordinal_day (py "%O %m %Y, %O") t
              (Reference.start
                 (Reference.mk_ref_world [] [] 0 0 (2026, 11, 21)%Z false)))
    as (_ & Hrun & _).
  - simpl. lia.
  - rewrite Hrun. reflexivity.
Defined.

(** ** C7: the text of a text box *)

Lemma lstrip_starts_clean (s : str) : starts_clean (lstrip s).
Proof.
  induction s as [|c r IH]; simpl; [exact I|].
  destruct (isspace c) eqn:Hc; [exact IH | simpl; exact Hc].
Qed.

Lemma lstrip_fixed (s : str) : starts_clean s -> lstrip s = s.
Proof.
  destruct s as [|c r]; simpl; [reflexivity|].
  intros ->. reflexivity.
Qed.

Lemma lstrip_suffix (s : str) : exists w, s = w ++ lstrip s.
Proof.
  induction s as [|c r [w Hw]]; simpl.
  - exists []. reflexivity.
  - destruct (isspace c).
    + exists (c :: w). simpl. f_equal. exact Hw.
    + exists []. reflexivity.
Qed.

Lemma rstrip_prefix (s : str) : exists w, s = rstrip s ++ w.
Proof.
  unfold rstrip. destruct (lstrip_suffix (rev s)) as [w Hw].
  exists (rev w). rewrite <- rev_app_distr, <- Hw, rev_involutive. reflexivity.
Qed.

Lemma rstrip_starts_clean (s : str) : starts_clean s -> starts_clean (rstrip s).
Proof.
  intros Hs. destruct (rstrip_prefix s) as [w Hw].
  destruct (rstrip s) as [|c r]; [exact I|].
  rewrite Hw in Hs. exact Hs.
Qed.

Lemma rstrip_idempotent (s : str) : rstrip (rstrip s) = rstrip s.
Proof.
  unfold rstrip. rewrite rev_involutive.
  rewrite (lstrip_fixed (lstrip (rev s))) by apply lstrip_starts_clean.
  reflexivity.
Qed.

(** Stripping twice is stripping once. *)
Lemma strip_idempotent (s : str) : strip (strip s) = strip s.
Proof.
  unfold strip.
  rewrite (lstrip_fixed (rstrip (lstrip s))).
  - apply rstrip_idempotent.
  - apply rstrip_starts_clean, lstrip_starts_clean.
Qed.

(** Whitespace at either end does not show once stripped. *)
Lemma lstrip_app_spaces (ws s : str) :
  forallb isspace ws = true -> lstrip (ws ++ s) = lstrip s.
Proof.
  induction ws as [|c r IH]; [reflexivity|].
  cbn [forallb app lstrip]. intros Hspaces.
  apply andb_true_iff in Hspaces. destruct Hspaces as [-> Hrest].
  exact (IH Hrest).
Qed.

Lemma forallb_rev {A : Type} (f : A -> bool) (l : list A) :
  forallb f (rev l) = forallb f l.
Proof.
  induction l as [|a r IH]; [reflexivity|].
  cbn [rev forallb]. rewrite forallb_app, IH. cbn [forallb].
  rewrite andb_true_r. apply andb_comm.
Qed.

Lemma rstrip_app_spaces (s ws : str) :
  forallb isspace ws = true -> rstrip (s ++ ws) = rstrip s.
Proof.
  intros Hspaces. unfold rstrip. rewrite rev_app_distr, lstrip_app_spaces.
  - reflexivity.
  - rewrite forallb_rev. exact Hspaces.
Qed.

Lemma is_text_box_inv (el : json) :
  is_text_box el = Ok true ->
  exists d sh, el = JDict d /\ lookup (py "shape") d = Some (JDict sh)
               /\ sh <> []
               /\ get_or_none (py "shapeType") sh = JStr (py "TEXT_BOX").
Proof.
  unfold is_text_box, get, get_default, getitem, get_or_none.
  destruct el as [| | | | | |d]; cbn [rbind]; try discriminate.
  destruct (lookup (py "shape") d) as [shape|] eqn:Hshape;
    [|cbn; discriminate].
  destruct (truthy shape) eqn:Htruthy; [|discriminate].
  destruct shape as [| | | | | |sh]; cbn [rbind]; try discriminate.
  intros Heq. exists d, sh. split; [reflexivity|]. split; [exact Hshape|].
  split.
  - destruct sh; [discriminate | congruence].
  - injection Heq as Heq. unfold eq_str in Heq.
    destruct (lookup (py "shapeType") sh) as [[| | | | t | |]|];
      try discriminate.
    apply str_eqb_eq in Heq. congruence.
Qed.

Lemma rmap_text_run_content (tes : list json) (contents : list str) :
  map content_of tes = map Some contents ->
  rmap text_run_content tes = Ok (map JStr contents).
Proof.
  revert contents. induction tes as [|te tes IH]; intros [|c cs] Hmap;
    try discriminate; [reflexivity|].
  simpl in Hmap. injection Hmap as Hte Hrest.
  cbn [rmap]. rewrite (IH cs Hrest).
  assert (Hrun : text_run_content te = Ok (JStr c)).
  { unfold content_of in Hte. unfold text_run_content, py_in, getitem.
    destruct te as [| | | | | |d]; try discriminate.
    destruct (lookup (py "textRun") d) as [run|]; cbn [rbind].
    - destruct run as [| | | | | |r]; try discriminate.
      destruct (lookup (py "content") r) as [[| | | | s | |]|];
        try discriminate.
      congruence.
    - congruence. }
  rewrite Hrun. reflexivity.
Qed.

Lemma join_empty_strings (contents : list str) :
  join_empty (map JStr contents) = Ok (concat contents).
Proof.
  induction contents as [|c cs IH]; [reflexivity|].
  cbn [map join_empty concat]. rewrite IH. reflexivity.
Qed.

(** C7.  For a text box (an element that [get_text_elements_from_slide]
    keeps), [gslides_element_to_text] returns the text [""], and does
    not raise, when the shape has no [text] field.  When the shape has
    one, the text is the contents of the text runs of its text elements,
    joined in order, a text element without text run adding nothing,
    with surrounding whitespace stripped.  Every record the function
    returns carries a text equal to its own strip. *)
Theorem gslides_element_to_text_stripped (el page : json) :
  is_text_box el = Ok true ->
  exists d sh,
    el = JDict d /\ lookup (py "shape") d = Some (JDict sh) /\
    (lookup (py "text") sh = None ->
     gslides_element_to_text el page =
     Ok (mk_text_record (get_or_none (py "objectId") d) page [])) /\
    (forall text_field tes contents,
       lookup (py "text") sh = Some (JDict text_field) ->
       lookup (py "textElements") text_field = Some (JList tes) ->
       map content_of tes = map Some contents ->
       gslides_element_to_text el page =
       Ok (mk_text_record (get_or_none (py "objectId") d) page
                          (strip (concat contents)))) /\
    (forall record,
       gslides_element_to_text el page = Ok record ->
       text record = strip (text record)).
Proof.
  intros Hbox.
  destruct (is_text_box_inv el Hbox) as (d & sh & -> & Hshape & _ & _).
  exists d, sh. split; [reflexivity|]. split; [exact Hshape|].
  unfold gslides_element_to_text, get, get_default, getitem, py_in, get_or_none.
  cbn [rbind]. rewrite Hshape. cbn [rbind].
  split; [|split].
  - intros ->. reflexivity.
  - intros text_field tes contents Htext Htes Hcontents.
    rewrite Htext. cbn [negb rbind]. rewrite Htes. cbn [rbind iter].
    rewrite (rmap_text_run_content tes contents Hcontents). cbn [rbind].
    rewrite join_empty_strings. reflexivity.
  - intros record.
    destruct (lookup (py "text") sh) as [text_field|]; cbn [negb rbind].
    + destruct text_field as [| | | | | |tf]; try discriminate.
      destruct (lookup (py "textElements") tf) as [text_elements|];
        [|discriminate].
      cbn [rbind].
      destruct (iter text_elements) as [items|]; [|discriminate].
      cbn [rbind].
      destruct (rmap text_run_content items) as [text_contents|];
        [|discriminate].
      cbn [rbind].
      destruct (join_empty text_contents) as [joined|]; [|discriminate].
      cbn [rbind]. intros [= <-]. cbn [text].
      symmetry. apply strip_idempotent.
    + intros [= <-]. reflexivity.
Qed.

(** A text box with two runs around a paragraph marker, and an empty
    text box. *)
Lemma gslides_element_to_text_stripped_witness :
  let box := fun shape_fields =>
    JDict [(py "objectId", JStr (py "box"));
           (py "shape", JDict ((py "shapeType", JStr (py "TEXT_BOX")) :: shape_fields))] in
  let tes := [JDict [(py "paragraphMarker", JDict [])];
              JDict [(py "textRun", JDict [(py "content", JStr (py "  Hello "))])];
              JDict [(py "textRun", JDict [(py "content", JStr ((py "world") ++ [10%N]))])]] in
  gslides_element_to_text (box []) (JStr (py "s1")) =
    Ok (mk_text_record (JStr (py "box")) (JStr (py "s1")) [])
  /\ gslides_element_to_text
       (box [(py "text", JDict [(py "textElements", JList tes)])]) (JStr (py "s1")) =
     Ok (mk_text_record (JStr (py "box")) (JStr (py "s1")) (py "Hello world")).
Proof.
  intros box tes. split.
  - destruct (gslides_element_to_text_stripped (box []) (JStr (py "s1")))
      as (d & sh & Hel & Hshape & Hempty & _); [reflexivity|].
    injection Hel as <-. injection Hshape as <-.
    rewrite Hempty; reflexivity.
  - destruct (gslides_element_to_text_stripped
                (box [(py "text", JDict [(py "textElements", JList tes)])])
                (JStr (py "s1")))
      as (d & sh & Hel & Hshape & _ & Hruns & _); [reflexivity|].
    injection Hel as <-. injection Hshape as <-.
    rewrite (Hruns [(py "textElements", JList tes)] tes
                   [[]; py "  Hello "; py "world" ++ [10%N]]);
      reflexivity.
Defined.

(** ** C8: the request for a changed text *)

Lemma str_eqb_sym (a b : str) : str_eqb a b = str_eqb b a.
Proof.
  destruct (str_eqb b a) eqn:H.
  - apply str_eqb_eq in H. subst. apply str_eqb_refl.
  - apply str_eqb_neq in H. apply str_eqb_neq. congruence.
Qed.

(** C8.  From a change that holds the original text, the rendered text
    and the slide identifier, [text_update_to_gslides_request] builds a
    [replaceAllText] request whose [containsText] is the original text
    with [matchCase] true, whose [replaceText] is the rendered text and
    whose [pageObjectIds] is the list of that one slide identifier.  On
    the presentation service this rewrites every occurrence of the
    original text in every text box of that slide, and nothing on other
    slides. *)
Theorem text_update_request_scope
    (change : dict) (original rendered : str) (page : json) :
  lookup (py "original_text") change = Some (JStr original) ->
  lookup (py "rendered_text") change = Some (JStr rendered) ->
  lookup (py "page_object_id") change = Some page ->
  text_update_to_gslides_request change =
    Ok (replace_all_text_request original rendered page)
  /\ (forall (slide : str) (d : list Reference.slide),
        page = JStr slide -> original <> [] ->
        exists reply,
          Reference.apply_request
            (replace_all_text_request original rendered page) d =
          Some (replaced_on_slide original rendered slide d, reply)).
Proof.
  intros Horiginal Hrendered Hpage. split.
  - unfold text_update_to_gslides_request, getitem.
    rewrite Horiginal, Hrendered, Hpage. reflexivity.
  - intros slide d -> Hnonempty.
    destruct original as [|c search]; [congruence|].
    eexists. cbn -[replace]. f_equal. f_equal.
    unfold Reference.replace_all_text, replaced_on_slide.
    apply map_ext. intros sl.
    unfold Reference.names_page. cbn [existsb eq_str].
    rewrite orb_false_r, (str_eqb_sym slide). reflexivity.
Qed.

(** The change [jinjify] builds for a text box of slide [s1] holding
    [{{x}}], rendered as [1], applied to a deck where the text occurs in
    two boxes of [s1] and in one box of [s2]. *)
Lemma text_update_request_scope_witness :
  let change := [(py "original_text", JStr (py "{{x}}"));
                 (py "rendered_text", JStr (py "1"));
                 (py "page_object_id", JStr (py "s1"));
                 (py "object_id", JStr (py "a"))] in
  let d := [Reference.mk_slide (py "s1")
              [Reference.TextBox (py "a") (py "{{x}}");
               Reference.TextBox (py "b") (py "{{x}} and {{x}}")];
            Reference.mk_slide (py "s2")
              [Reference.TextBox (py "c") (py "{{x}}")]] in
  text_update_to_gslides_request change =
    Ok (replace_all_text_request (py "{{x}}") (py "1") (JStr (py "s1")))
  /\ exists reply,
       Reference.apply_request
         (replace_all_text_request (py "{{x}}") (py "1") (JStr (py "s1"))) d =
       Some ([Reference.mk_slide (py "s1")
                [Reference.TextBox (py "a") (py "1");
                 Reference.TextBox (py "b") (py "1 and 1")];
              Reference.mk_slide (py "s2")
                [Reference.TextBox (py "c") (py "{{x}}")]], reply).
Proof.
  intros change d.
  destruct (text_update_request_scope change (py "{{x}}") (py "1")
              (JStr (py "s1")) eq_refl eq_refl eq_refl) as [Hreq Hscope].
  split; [exact Hreq|].
  destruct (Hscope (py "s1") d eq_refl) as [reply Hreply]; [discriminate|].
  exists reply. rewrite Hreply. reflexivity.
Defined.

(** ** C10: the context of a render call *)

Lemma lookup_setitem_same {V : Type} (k : str) (v : V) (d : list (str * V)) :
  lookup k (setitem k v d) = Some v.
Proof.
  induction d as [|[k' v'] r IH]; cbn [setitem lookup].
  - rewrite str_eqb_refl. reflexivity.
  - destruct (str_eqb k k') eqn:Hk; cbn [lookup]; rewrite Hk;
      [reflexivity | exact IH].
Qed.

Lemma lookup_setitem_other {V : Type} (k k' : str) (v : V) (d : list (str * V)) :
  k <> k' -> lookup k' (setitem k v d) = lookup k' d.
Proof.
  intros Hneq. induction d as [|[k0 v0] r IH]; cbn [setitem lookup].
  - assert (H : str_eqb k' k = false) by (apply str_eqb_neq; congruence).
    rewrite H. reflexivity.
  - destruct (str_eqb k k0) eqn:Hk; cbn [lookup].
    + apply str_eqb_eq in Hk. subst k0.
      assert (H : str_eqb k' k = false) by (apply str_eqb_neq; congruence).
      rewrite H. reflexivity.
    + rewrite IH. reflexivity.
Qed.

Lemma lookup_not_in {V : Type} (k : str) (d : list (str * V)) :
  ~ In k (map fst d) -> lookup k d = None.
Proof.
  induction d as [|[k' v'] r IH]; cbn [map fst In lookup]; [reflexivity|].
  intros Hnot.
  assert (H : str_eqb k k' = false) by (apply str_eqb_neq; intuition congruence).
  rewrite H. apply IH. intuition.
Qed.

(** In [{**base, **extra}] an entry of [extra] wins over the entry of
    [base] with the same key. *)
Lemma lookup_unpack_into {V : Type} (extra base : list (str * V)) (k : str) :
  NoDup (map fst extra) ->
  lookup k (unpack_into base extra) =
  match lookup k extra with
  | Some v => Some v
  | None => lookup k base
  end.
Proof.
  unfold unpack_into. revert base.
  induction extra as [|[k1 v1] r IH]; intros base Hnodup; [reflexivity|].
  cbn [map fst] in Hnodup. inversion Hnodup as [|? ? Hnotin Hrest]; subst.
  cbn [fold_left fst snd lookup]. rewrite (IH _ Hrest).
  destruct (str_eqb k k1) eqn:Hk.
  - apply str_eqb_eq in Hk. subst k1.
    rewrite (lookup_not_in k r Hnotin). apply lookup_setitem_same.
  - apply str_eqb_neq in Hk.
    rewrite lookup_setitem_other by congruence. reflexivity.
Qed.

(** C10.  [render_jinja_in_string] reads the clock at each call: the
    time bound to [now] is the reading taken in the world the call
    starts from, and the call leaves the world the reading leaves.  An
    entry of the caller's data wins over this default: when the data
    holds the key [now], the template sees the caller's value; every
    other key is seen with the caller's value as well.  The data is a
    dictionary, so its keys are distinct. *)
Theorem render_jinja_in_string_now
    {W : Type} `{Services W} {Env : Type} `{Jinja Env}
    (env : Env) (template : str) (data : option context) (s : state W) :
  let data' := match data with Some d => d | None => [] end in
  NoDup (map fst data') ->
  exists render_data,
    render_jinja_in_string env template data s =
      (from_string_render env template render_data,
       mk_state (snd (localtime (world s))) (trace s))
    /\ lookup (py "now") render_data =
       Some (match lookup (py "now") data' with
             | Some v => v
             | None => CTime (fst (localtime (world s)))
             end)
    /\ (forall k, k <> py "now" -> lookup k render_data = lookup k data').
Proof.
  intros data' Hnodup.
  exists (unpack_into [(py "now", CTime (fst (localtime (world s))))] data').
  split; [|split].
  - unfold render_jinja_in_string, bind, time_localtime, lift. fold data'.
    destruct (localtime (world s)) as [now w']. reflexivity.
  - rewrite lookup_unpack_into by exact Hnodup.
    destruct (lookup (py "now") data'); reflexivity.
  - intros k Hk. rewrite lookup_unpack_into by exact Hnodup.
    destruct (lookup k data'); [reflexivity|].
    cbn [lookup].
    assert (Hne : str_eqb k (py "now") = false) by (apply str_eqb_neq; exact Hk).
    rewrite Hne. reflexivity.
Qed.

(** With [now] given by the caller the template sees the caller's
    value.  Without it, two calls in a row see two readings of the
    clock, one second apart. *)
Lemma render_jinja_in_string_now_witness :
  let w := Reference.mk_ref_world [] [] 0 0 (2026, 11, 4)%Z false in
  let given := [(py "now", CJson (JStr (py "noon"))); (py "x", CJson (JInt 1))] in
  (exists render_data,
     render_jinja_in_string tt (py "{{ now }}") (Some given) (Reference.start w) =
       (from_string_render tt (py "{{ now }}") render_data,
        mk_state (snd (localtime w)) [])
     /\ lookup (py "now") render_data = Some (CJson (JStr (py "noon")))
     /\ lookup (py "x") render_data = Some (CJson (JInt 1)))
  /\ fst (render_jinja_in_string tt (py "{{ now }}") (Some given) (Reference.start w))
     = Ok (py "noon")
  /\ fst ((render_jinja_in_string tt (py "{{ now }}") None ;;;
           render_jinja_in_string tt (py "{{ now }}") None) (Reference.start w))
     = Ok (py "time.struct_time(tm_year=2026, tm_mon=11, tm_mday=4, tm_hour=0, tm_min=0, tm_sec=1, tm_wday=0, tm_yday=1, tm_isdst=0)").
Proof.
  intros w given. split; [|split; reflexivity].
  destruct (render_jinja_in_string_now tt (py "{{ now }}") (Some given)
              (Reference.start w))
    as (render_data & Hrun & Hnow & Hother).
  - repeat constructor; simpl; intuition discriminate.
  - exists render_data. split; [exact Hrun|]. split; [exact Hnow|].
    apply Hother. discriminate.
Defined.

(** ** C1: image placeholders *)

Lemma strip_prefix_spec (p s r : str) :
  strip_prefix p s = Some r <-> s = p ++ r.
Proof.
  revert s. induction p as [|a p IH]; intros s; cbn [strip_prefix app].
  - split; congruence.
  - destruct s as [|b s]; [split; discriminate|].
    destruct (N.eqb_spec a b) as [->|Hneq].
    + rewrite IH. split; congruence.
    + split; [discriminate | congruence].
Qed.

Lemma no_line_feed_spec (l : str) :
  forallb (fun x => negb (x =? 10)%N) l = true <-> ~ In 10%N l.
Proof.
  rewrite forallb_forall. split.
  - intros Hall Hin. specialize (Hall _ Hin). discriminate.
  - intros Hnot x Hx. destruct (N.eqb_spec x 10); [subst; contradiction|].
    reflexivity.
Qed.

(** [fullmatch_image] decides the placeholder pattern and returns its
    path. *)
Lemma fullmatch_image_spec (s path : str) :
  fullmatch_image s = Some path <-> image_pattern s path.
Proof.
  unfold fullmatch_image, image_pattern. split.
  - destruct (strip_prefix (py "![image](") s) as [rest|] eqn:Hprefix;
      [|discriminate].
    apply strip_prefix_spec in Hprefix.
    destruct (rev rest) as [|c inner] eqn:Hrev; [discriminate|].
    destruct ((c =? 41)%N && forallb (fun x => negb (x =? 10)%N) inner) eqn:Hok;
      [|discriminate].
    apply andb_true_iff in Hok. destruct Hok as [Hc Hinner].
    apply N.eqb_eq in Hc. subst c.
    intros [= <-].
    assert (Hrest : rest = rev inner ++ [41%N]).
    { rewrite <- (rev_involutive rest), Hrev. reflexivity. }
    split.
    + rewrite Hprefix, Hrest. reflexivity.
    + apply no_line_feed_spec in Hinner. rewrite <- in_rev. exact Hinner.
  - intros [-> Hnl].
    assert (Hprefix : strip_prefix (py "![image](") (py "![image](" ++ path ++ py ")")
                      = Some (path ++ py ")")) by (apply strip_prefix_spec; reflexivity).
    rewrite Hprefix.
    change (py ")") with [41%N]. rewrite rev_app_distr. cbn [rev app].
    assert (Hinner : forallb (fun x => negb (x =? 10)%N) (rev path) = true).
    { apply no_line_feed_spec. rewrite <- in_rev. exact Hnl. }
    rewrite Hinner, N.eqb_refl, rev_involutive. reflexivity.
Qed.

(** The match of [imagify] is the pattern on the stripped text. *)
Lemma image_match_spec (rendered path : str) :
  image_match rendered = Some path <-> image_pattern (strip rendered) path.
Proof. apply fullmatch_image_spec. Qed.

Lemma image_match_none (rendered : str) :
  image_match rendered = None <->
  forall path, ~ image_pattern (strip rendered) path.
Proof.
  split.
  - intros Hnone path Hpattern. apply image_match_spec in Hpattern. congruence.
  - intros Hnot. destruct (image_match rendered) as [path|] eqn:Hmatch;
      [|reflexivity].
    apply image_match_spec in Hmatch. exfalso. exact (Hnot path Hmatch).
Qed.

(** C1, as the code has it.  [imagify] renders the text of a text box
    and strips the result; the box is a placeholder if and only if the
    stripped text is, as a whole, [![image](], a path without line feed,
    and [)].  A box that is not a placeholder is passed over.  For a
    placeholder the path is the group of the match, rendered once more
    when it holds both [{{] and [}}], and stripped; with this path the
    replacement is attempted. *)
Theorem imagify_element_placeholder
    {W : Type} `{Services W} `{PyRepr} {Env : Type} `{Jinja Env}
    (st : cli_state Env) (i : Z) (slide_id el : json) (total : Z)
    (s s1 : state W) (shape_id : json) (record : TextRecord) (rendered : str) :
  get el (py "objectId") = Ok shape_id ->
  gslides_element_to_text el slide_id = Ok record ->
  render_jinja_in_string (jinja_env st) (text record)
    (Some (image_path_data i slide_id)) s = (Ok rendered, s1) ->
  ((forall path, ~ image_pattern (strip rendered) path) ->
   imagify_element st i slide_id el total s = (Ok total, s1))
  /\
  (forall group, image_pattern (strip rendered) group ->
   imagify_element st i slide_id el total s =
   if contains (py "{{") group && contains (py "}}") group then
     match render_jinja_in_string (jinja_env st) group
             (Some (image_path_data i slide_id)) s1 with
     | (Ok p, s2) =>
         replace_with_image st i slide_id el shape_id rendered (strip p) total s2
     | (Raise e, s2) => (Raise e, s2)
     end
   else
     replace_with_image st i slide_id el shape_id rendered (strip group) total s1).
Proof.
  intros Hid Hrecord Hrender.
  assert (Hstart : imagify_element st i slide_id el total s =
                   match image_match rendered with
                   | None => (Ok total, s1)
                   | Some group =>
                       bind (resolve_image_path st group (image_path_data i slide_id))
                            (fun path => replace_with_image st i slide_id el shape_id
                                           rendered path total) s1
                   end).
  { unfold imagify_element. unfold bind at 1. unfold lift at 1. rewrite Hid.
    unfold bind at 1. unfold lift at 1. rewrite Hrecord.
    unfold bind at 1. rewrite Hrender.
    destruct (image_match rendered); reflexivity. }
  split.
  - intros Hnot. apply image_match_none in Hnot.
    rewrite Hstart, Hnot. reflexivity.
  - intros group Hgroup. apply image_match_spec in Hgroup.
    rewrite Hstart, Hgroup. unfold resolve_image_path.
    destruct (contains (py "{{") group && contains (py "}}") group).
    + unfold bind at 1. unfold bind at 1.
      destruct (render_jinja_in_string (jinja_env st) group
                  (Some (image_path_data i slide_id)) s1) as [[p|e] s2];
        reflexivity.
    + reflexivity.
Qed.

(** With [foo.jpg] on disk: the text [see ![image](foo.jpg) here] is
    passed over, the text [![image](foo.jpg)] is replaced with the
    picture at [foo.jpg], and on a slide whose identifier is itself a
    template the group [{{ slide_index }}.jpg] is rendered again. *)
Lemma imagify_element_placeholder_witness :
  let w := Reference.mk_ref_world [] [py "foo.jpg"] 0 0 (2026, 11, 4)%Z false in
  let s1 := mk_state (snd (localtime w)) [] in
  let s2 := mk_state (snd (localtime (snd (localtime w)))) [] in
  let plain := Reference.element_json
                 (Reference.TextBox (py "a") (py "![image](foo.jpg)")) in
  let inline := Reference.element_json
                  (Reference.TextBox (py "b") (py "see ![image](foo.jpg) here")) in
  let nested := Reference.element_json
                  (Reference.TextBox (py "c") (py "![image]({{ slide_id }}.jpg)")) in
  imagify_element (Reference.config false) 0 (JStr (py "s1")) inline 0
    (Reference.start w) = (Ok 0%Z, s1)
  /\ imagify_element (Reference.config false) 0 (JStr (py "s1")) plain 0
       (Reference.start w) =
     replace_with_image (Reference.config false) 0 (JStr (py "s1")) plain
       (JStr (py "a")) (py "![image](foo.jpg)") (py "foo.jpg") 0 s1
  /\ imagify_element (Reference.config false) 0 (JStr (py "{{ slide_index }}")) nested 0
       (Reference.start w) =
     replace_with_image (Reference.config false) 0 (JStr (py "{{ slide_index }}")) nested
       (JStr (py "c")) (py "![image]({{ slide_index }}.jpg)") (py "0.jpg") 0 s2.
Proof.
  intros w s1 s2 plain inline nested.
  assert (Hinline : render_jinja_in_string tt (py "see ![image](foo.jpg) here")
                      (Some (image_path_data 0 (JStr (py "s1")))) (Reference.start w)
                    = (Ok (py "see ![image](foo.jpg) here"), s1))
    by (vm_compute; reflexivity).
  assert (Hplain : render_jinja_in_string tt (py "![image](foo.jpg)")
                     (Some (image_path_data 0 (JStr (py "s1")))) (Reference.start w)
                   = (Ok (py "![image](foo.jpg)"), s1))
    by (vm_compute; reflexivity).
  assert (Hnested : render_jinja_in_string tt (py "![image]({{ slide_id }}.jpg)")
                      (Some (image_path_data 0 (JStr (py "{{ slide_index }}"))))
                      (Reference.start w)
                    = (Ok (py "![image]({{ slide_index }}.jpg)"), s1))
    by (vm_compute; reflexivity).
  split; [|split].
  - destruct (imagify_element_placeholder (Reference.config false) 0
                (JStr (py "s1")) inline 0 (Reference.start w) s1 (JStr (py "b"))
                (mk_text_record (JStr (py "b")) (JStr (py "s1"))
                                (py "see ![image](foo.jpg) here"))
                (py "see ![image](foo.jpg) here") eq_refl eq_refl Hinline)
      as [Hpass _].
    apply Hpass. intros path [Heq _]. vm_compute in Heq. discriminate Heq.
  - destruct (imagify_element_placeholder (Reference.config false) 0
                (JStr (py "s1")) plain 0 (Reference.start w) s1 (JStr (py "a"))
                (mk_text_record (JStr (py "a")) (JStr (py "s1"))
                                (py "![image](foo.jpg)"))
                (py "![image](foo.jpg)") eq_refl eq_refl Hplain)
      as [_ Hmatch].
    rewrite (Hmatch (py "foo.jpg")); [reflexivity|].
    split; [reflexivity | simpl; intuition discriminate].
  - destruct (imagify_element_placeholder (Reference.config false) 0
                (JStr (py "{{ slide_index }}")) nested 0 (Reference.start w) s1
                (JStr (py "c"))
                (mk_text_record (JStr (py "c")) (JStr (py "{{ slide_index }}"))
                                (py "![image]({{ slide_id }}.jpg)"))
                (py "![image]({{ slide_index }}.jpg)") eq_refl eq_refl Hnested)
      as [_ Hmatch].
    rewrite (Hmatch (py "{{ slide_index }}.jpg")); [reflexivity|].
    split; [reflexivity | simpl; intuition discriminate].
Defined.

(** The claim as worded fails on whitespace.  The text box holds
    [{{ x }} ![image](nope.jpg)]; with [x] undefined it renders with a
    leading space, so the rendered text is not the pattern as a whole
    string.  [imagify] strips it first, takes the box for a placeholder
    and goes on to look for [nope.jpg]. *)
Lemma imagify_matches_padded_text :
  let w := Reference.mk_ref_world [] [py "foo.jpg"] 0 0 (2026, 11, 4)%Z false in
  let s1 := mk_state (snd (localtime w)) [] in
  let box := Reference.element_json
               (Reference.TextBox (py "c") (py "{{ x }} ![image](nope.jpg)")) in
  render_jinja_in_string tt (py "{{ x }} ![image](nope.jpg)")
    (Some (image_path_data 0 (JStr (py "s1")))) (Reference.start w)
    = (Ok (py " ![image](nope.jpg)"), s1)
  /\ (forall path, py " ![image](nope.jpg)" <> py "![image](" ++ path ++ py ")")
  /\ image_match (py " ![image](nope.jpg)") = Some (py "nope.jpg")
  /\ imagify_element (Reference.config false) 0 (JStr (py "s1")) box 0
       (Reference.start w)
     = (Ok 0%Z,
        mk_state (snd (localtime w))
          [Stderr (py "  Image path 'nope.jpg' (from ' ![image](nope.jpg)') does not exist. Skipping.")]).
Proof.
  intros w s1 box. split; [reflexivity|]. split; [|split; reflexivity].
  intros path Heq. vm_compute in Heq. discriminate Heq.
Qed.

(** ** C9: a placeholder whose file is missing *)

Section Rendering.
Context {W : Type} `{Services W} `{PyRepr} {Env : Type} `{Jinja Env}.
Variable st : cli_state Env.

(** A render call logs nothing and touches the world by one reading of
    the clock. *)
Lemma render_jinja_in_string_state (template : str) (data : option context)
    (s s' : state W) (r : result str) :
  render_jinja_in_string (jinja_env st) template data s = (r, s') ->
  trace s' = trace s /\ world s' = snd (localtime (world s)).
Proof.
  unfold render_jinja_in_string, bind, time_localtime, lift.
  destruct (localtime (world s)) as [now w']. intros [= _ <-].
  split; reflexivity.
Qed.

Lemma resolve_image_path_state (group : str) (data : context)
    (s s' : state W) (r : result str) :
  resolve_image_path st group data s = (r, s') ->
  trace s' = trace s /\ clock_reads (world s) (world s').
Proof.
  unfold resolve_image_path.
  destruct (contains (py "{{") group && contains (py "}}") group).
  - unfold bind at 1.
    destruct (render_jinja_in_string (jinja_env st) group (Some data) s)
      as [[p|e] s1] eqn:Hrender;
      apply render_jinja_in_string_state in Hrender;
      destruct Hrender as [Htrace Hworld];
      intros [= _ <-]; (split; [exact Htrace|]);
      apply reads_more; rewrite <- Hworld; apply reads_none.
  - intros [= _ <-]. split; [reflexivity | apply reads_none].
Qed.

(** C9.  A text box is matched as a placeholder and the resolved path
    does not exist: [imagify] writes the warning on the error stream and
    returns with the count unchanged, so the loop goes on with the next
    text box.  Up to the warning nothing was logged: no file was
    uploaded, no batch update was sent; and the world was touched by
    readings of the clock only. *)
Theorem imagify_missing_image_skipped
    (i : Z) (slide_id el shape_id : json) (record : TextRecord)
    (rendered group image_path : str) (total : Z) (s s1 s2 : state W) :
  get el (py "objectId") = Ok shape_id ->
  gslides_element_to_text el slide_id = Ok record ->
  render_jinja_in_string (jinja_env st) (text record)
    (Some (image_path_data i slide_id)) s = (Ok rendered, s1) ->
  image_match rendered = Some group ->
  resolve_image_path st group (image_path_data i slide_id) s1 = (Ok image_path, s2) ->
  path_exists image_path (world s2) = false ->
  let s3 := mk_state (world s2)
                     (trace s ++ [missing_image_warning image_path rendered]) in
  imagify_element st i slide_id el total s = (Ok total, s3)
  /\ (forall rest,
        imagify_elements st i slide_id (el :: rest) total s =
        imagify_elements st i slide_id rest total s3)
  /\ clock_reads (world s) (world s3).
Proof.
  intros Hid Hrecord Hrender Hmatch Hresolve Hmissing s3.
  pose proof (render_jinja_in_string_state _ _ _ _ _ Hrender) as [Ht1 Hw1].
  pose proof (resolve_image_path_state _ _ _ _ _ Hresolve) as [Ht2 Hreads].
  assert (Hel : imagify_element st i slide_id el total s = (Ok total, s3)).
  { unfold imagify_element. unfold bind at 1. unfold lift at 1. rewrite Hid.
    unfold bind at 1. unfold lift at 1. rewrite Hrecord.
    unfold bind at 1. rewrite Hrender, Hmatch.
    unfold bind at 1. rewrite Hresolve.
    unfold replace_with_image, bind, pathlib_exists, echo_err, emit, ret.
    rewrite Hmissing. cbn [negb world trace].
    unfold s3, missing_image_warning. rewrite Ht2, Ht1. reflexivity. }
  split; [exact Hel|]. split.
  - intros rest. cbn [imagify_elements]. unfold bind at 1. rewrite Hel.
    reflexivity.
  - cbn [s3 world]. apply reads_more. rewrite <- Hw1. exact Hreads.
Qed.

End Rendering.

(** The deck holds a placeholder for [nope.jpg], only [foo.jpg] is on
    disk: the box is skipped with the warning, the deck is the same, and
    the loop reaches the next box, which is replaced. *)
Lemma imagify_missing_image_skipped_witness :
  let boxes := [Reference.TextBox (py "a") (py "![image](nope.jpg)");
                Reference.TextBox (py "b") (py "![image](foo.jpg)")] in
  let w := Reference.mk_ref_world [Reference.mk_slide (py "s1") boxes]
             [py "foo.jpg"] 0 0 (2026, 11, 4)%Z false in
  let w1 := snd (localtime w) in
  let s3 := mk_state w1 [missing_image_warning (py "nope.jpg") (py "![image](nope.jpg)")] in
  imagify_element (Reference.config false) 0 (JStr (py "s1"))
    (Reference.element_json (Reference.TextBox (py "a") (py "![image](nope.jpg)")))
    0 (Reference.start w) = (Ok 0%Z, s3)
  /\ Reference.deck (world s3) = Reference.deck w
  /\ imagify_elements (Reference.config false) 0 (JStr (py "s1"))
       (map Reference.element_json boxes) 0 (Reference.start w) =
     imagify_elements (Reference.config false) 0 (JStr (py "s1"))
       (map Reference.element_json (tl boxes)) 0 s3
  /\ fst (imagify_elements (Reference.config false) 0 (JStr (py "s1"))
            (map Reference.element_json boxes) 0 (Reference.start w)) = Ok 1%Z.
Proof.
  intros boxes w w1 s3.
  assert (Hrender : render_jinja_in_string tt (py "![image](nope.jpg)")
                      (Some (image_path_data 0 (JStr (py "s1")))) (Reference.start w)
                    = (Ok (py "![image](nope.jpg)"), mk_state w1 []))
    by (vm_compute; reflexivity).
  destruct (imagify_missing_image_skipped (Reference.config false) 0
              (JStr (py "s1"))
              (Reference.element_json (Reference.TextBox (py "a") (py "![image](nope.jpg)")))
              (JStr (py "a"))
              (mk_text_record (JStr (py "a")) (JStr (py "s1")) (py "![image](nope.jpg)"))
              (py "![image](nope.jpg)") (py "nope.jpg") (py "nope.jpg") 0
              (Reference.start w) (mk_state w1 []) (mk_state w1 [])
              eq_refl eq_refl Hrender eq_refl eq_refl eq_refl)
    as (Hel & Hloop & _).
  split; [exact Hel|]. split; [reflexivity|]. split.
  - exact (Hloop (map Reference.element_json (tl boxes))).
  - vm_compute. reflexivity.
Defined.

(** ** Commands that send no batch update *)

Lemma batch_updates_app (l1 l2 : list event) :
  batch_updates (l1 ++ l2) = batch_updates l1 ++ batch_updates l2.
Proof. apply flat_map_app. Qed.

Section Quiet.
Context {W : Type}.

Lemma quiet_ret {A} (a : A) : quiet (@ret W A a).
Proof. intros s. reflexivity. Qed.

Lemma quiet_raise {A} (e : exn) : quiet (@raise W A e).
Proof. intros s. reflexivity. Qed.

Lemma quiet_lift {A} (r : result A) : quiet (@lift W A r).
Proof. intros s. reflexivity. Qed.

Lemma quiet_bind {A B} (m : M W A) (k : A -> M W B) :
  quiet m -> (forall a, quiet (k a)) -> quiet (bind m k).
Proof.
  intros Hm Hk s. unfold bind. specialize (Hm s).
  destruct (m s) as [[a|e] s1]; cbn [snd] in *.
  - rewrite (Hk a s1). exact Hm.
  - exact Hm.
Qed.

Lemma quiet_emit (e : event) : batch_updates [e] = [] -> quiet (@emit W e).
Proof.
  intros He s. unfold emit. cbn [snd trace].
  rewrite batch_updates_app, He. apply app_nil_r.
Qed.

Lemma quiet_call (e : result json -> event) (op : W -> result json * W) :
  (forall r, batch_updates [e r] = []) -> quiet (call e op).
Proof.
  intros He s. unfold call. destruct (op (world s)) as [r w']. cbn [snd trace].
  rewrite batch_updates_app, He. apply app_nil_r.
Qed.

Lemma quiet_try_http {A} (m : M W A) (h : str -> M W A) :
  quiet m -> (forall msg, quiet (h msg)) -> quiet (try_http m h).
Proof.
  intros Hm Hh s. unfold try_http. specialize (Hm s).
  destruct (m s) as [[a|e] s1]; cbn [snd] in *; [exact Hm|].
  destruct e; try exact Hm.
  rewrite (Hh msg s1). exact Hm.
Qed.

Lemma quiet_when (b : bool) (m : M W unit) : quiet m -> quiet (when b m).
Proof. intros Hm. destruct b; [exact Hm | apply quiet_ret]. Qed.

End Quiet.

Ltac quiet_step :=
  first
    [ apply quiet_ret | apply quiet_raise | apply quiet_lift
    | apply quiet_emit; reflexivity
    | apply quiet_call; intros; reflexivity
    | apply quiet_when
    | apply quiet_bind; [|intros]
    | apply quiet_try_http; [|intros]
    | assumption
    | match goal with
      | |- quiet (if ?b then _ else _) => destruct b
      | |- quiet (match ?x with _ => _ end) => destruct x
      end ].

Ltac quiet_tac := repeat quiet_step.

Section QuietCommands.
Context {W : Type} `{Services W} `{PyRepr} {Env : Type} `{Jinja Env}.
Variable st : cli_state Env.

Lemma quiet_get_slides_service : quiet (get_slides_service (W:=W)).
Proof. intros s. reflexivity. Qed.

Lemma quiet_get_presentation_slides (pid : str) (v : bool) :
  quiet (get_presentation_slides pid v).
Proof. unfold get_presentation_slides. quiet_tac. Qed.

Lemma quiet_print_slide_details (slides : list json) :
  forall i, quiet (print_slide_details (W:=W) i slides).
Proof.
  induction slides as [|slide rest IH]; intros i; cbn [print_slide_details];
    quiet_tac. apply IH.
Qed.

Lemma quiet_print_slide_details_if_verbose (slides : json) (v : bool) :
  quiet (print_slide_details_if_verbose (W:=W) slides v).
Proof.
  unfold print_slide_details_if_verbose. quiet_tac.
  apply quiet_print_slide_details.
Qed.

Lemma quiet_render_jinja_in_string (template : str) (data : option context) :
  quiet (render_jinja_in_string (jinja_env st) template data).
Proof.
  intros s. unfold render_jinja_in_string, bind, time_localtime, lift.
  destruct (localtime (world s)). reflexivity.
Qed.

Lemma quiet_jinjify_texts (data : context) (i : Z) (records : list TextRecord) :
  forall requests, quiet (jinjify_texts st data i records requests).
Proof.
  induction records as [|record rest IH]; intros requests;
    cbn [jinjify_texts].
  - apply quiet_ret.
  - apply quiet_bind; [apply quiet_render_jinja_in_string|].
    intros rendered. unfold echo. quiet_tac; apply IH.
Qed.

End QuietCommands.

(** ** C4: deleting a slide that does not exist *)

Section DeleteSlide.
Context {W : Type} `{Services W} `{PyRepr} {Env : Type} `{Jinja Env}.
Variable st : cli_state Env.

(** [delete_slide], step by step. *)
Lemma delete_slide_steps (n : Z) (s : state W) :
  delete_slide st n s =
  if negb (build (py "slides") (world s)) then
    (Raise (Exit 1),
     mk_state (world s)
       (trace s ++ [Stderr (py "Failed to initialize Google Slides service.")]))
  else
    match get_presentation_slides (presentation_id st) (verbose st) s with
    | (Raise e, s1) => (Raise e, s1)
    | (Ok slides, s1) =>
        if negb (truthy slides) then (Raise (Exit 1), s1)
        else
          match print_slide_details_if_verbose slides (verbose st) s1 with
          | (Raise e, s2) => (Raise e, s2)
          | (Ok _, s2) =>
              match get_slide_id_by_index slides n with
              | Raise e => (Raise e, s2)
              | Ok id =>
                  if is_none id then
                    match len slides with
                    | Raise e => (Raise e, s2)
                    | Ok k =>
                        (Raise (Exit 1),
                         mk_state (world s2)
                           (trace s2 ++ [Stderr (slide_missing_message n k)]))
                    end
                  else delete_resolved_slide st n id s2
              end
          end
    end.
Proof.
  unfold delete_slide. unfold bind at 1. unfold get_slides_service at 1.
  destruct (build (py "slides") (world s)); cbn [negb]; [|reflexivity].
  unfold bind at 1. unfold ret at 1.
  unfold bind at 1.
  destruct (get_presentation_slides (presentation_id st) (verbose st) s)
    as [[slides|e] s1]; [|reflexivity].
  unfold bind at 1.
  destruct (truthy slides); cbn [negb]; [|reflexivity].
  unfold ret at 1. unfold bind at 1.
  destruct (print_slide_details_if_verbose slides (verbose st) s1)
    as [[[]|e] s2]; [|reflexivity].
  unfold bind at 1. unfold lift at 1.
  destruct (get_slide_id_by_index slides n) as [id|e]; [|reflexivity].
  unfold bind at 1.
  destruct (is_none id); [|reflexivity].
  unfold bind at 1. unfold lift at 1.
  destruct (len slides) as [k|e]; reflexivity.
Qed.

(** A batch update followed, under a handler for [HttpError], by quiet
    commands: exactly one batch update is sent. *)
Lemma try_http_batch_once {A : Type} (pid : str) (body : json)
    (k : json -> M W A) (h : str -> M W A) (s : state W) :
  (forall a, quiet (k a)) -> (forall msg, quiet (h msg)) ->
  exists outcome,
    batch_updates
      (trace (snd (try_http
                     (bind (call (CallBatchUpdate pid body)
                                 (presentations_batchUpdate pid body)) k)
                     h s))) =
    batch_updates (trace s) ++ [(pid, body, outcome)].
Proof.
  intros Hk Hh. unfold try_http, bind, call.
  destruct (presentations_batchUpdate pid body (world s)) as [outcome w'].
  exists outcome.
  set (s1 := mk_state w' (trace s ++ [CallBatchUpdate pid body outcome])).
  assert (Hsent : batch_updates (trace s1) =
                  batch_updates (trace s) ++ [(pid, body, outcome)]).
  { unfold s1. cbn [trace]. rewrite batch_updates_app. reflexivity. }
  destruct outcome as [response|e].
  - pose proof (Hk response s1) as Hq.
    destruct (k response s1) as [[a|e] s2]; cbn [snd] in *; [congruence|].
    destruct e; cbn [snd]; try rewrite (Hh msg s2); congruence.
  - destruct e; cbn [snd]; try rewrite (Hh msg s1); exact Hsent.
Qed.

(** The end of [delete_slide] sends exactly one batch update, the
    deletion of the resolved slide. *)
Lemma delete_resolved_slide_batch (n : Z) (id : json) (s : state W) :
  exists outcome,
    batch_updates (trace (snd (delete_resolved_slide st n id s))) =
    batch_updates (trace s) ++ [(presentation_id st, delete_body id, outcome)].
Proof.
  unfold delete_resolved_slide, delete_slide_by_id, delete_request.
  fold (delete_body id).
  unfold bind at 1.
  assert (Hwhen : forall msg, exists s',
             when (verbose st) (echo msg) s = (Ok tt, s')
             /\ batch_updates (trace s') = batch_updates (trace s)).
  { intros msg. unfold when, echo, emit, ret. destruct (verbose st).
    - eexists. split; [reflexivity|]. cbn [trace].
      rewrite batch_updates_app. apply app_nil_r.
    - exists s. split; reflexivity. }
  destruct (Hwhen (py "Attempting to delete slide #" ++ format_d n
                   ++ py " (ID: " ++ py_str id ++ py ")"))
    as (s' & -> & Htrace).
  rewrite <- Htrace.
  apply try_http_batch_once.
  - intros response. unfold echo. quiet_tac.
  - intros msg. unfold echo_err. quiet_tac.
Qed.

(** C4, as the code has it.  On a deck fetched with at least one slide,
    a slide number that does not resolve to a slide identifier makes
    [delete_slide] write on the error stream that the slide does not
    exist, end with exit status 1, and send no batch update.  When the
    fetch hands back nothing true, a deck without slides included, the
    command ends with exit status 1 right after the fetch: it writes
    nothing more, the message that the slide does not exist no more
    than anything else, and sends no batch update.  From any state,
    [delete_slide] sends a batch update only when the slide number has
    resolved to an identifier, and then exactly one, the deletion of
    that slide. *)
Theorem delete_slide_unresolved
    (n : Z) (s s1 : state W) (fetched : json) :
  build (py "slides") (world s) = true ->
  get_presentation_slides (presentation_id st) (verbose st) s = (Ok fetched, s1) ->
  (truthy fetched = false ->
   delete_slide st n s = (Raise (Exit 1), s1)
   /\ batch_updates (trace s1) = batch_updates (trace s))
  /\ (forall (slides : list json) (s2 : state W),
        fetched = JList slides ->
        slides <> [] ->
        print_slide_details_if_verbose (JList slides) (verbose st) s1 = (Ok tt, s2) ->
        get_slide_id_by_index (JList slides) n = Ok JNull ->
        delete_slide st n s =
          (Raise (Exit 1),
           mk_state (world s2)
             (trace s2
              ++ [Stderr (slide_missing_message n (Z.of_nat (length slides)))]))
        /\ batch_updates
             (trace s2
              ++ [Stderr (slide_missing_message n (Z.of_nat (length slides)))])
           = batch_updates (trace s))
  /\ (forall s0 : state W,
        batch_updates (trace (snd (delete_slide st n s0))) = batch_updates (trace s0)
        \/ exists fetched0 s' id outcome,
             get_presentation_slides (presentation_id st) (verbose st) s0
               = (Ok fetched0, s')
             /\ get_slide_id_by_index fetched0 n = Ok id
             /\ id <> JNull
             /\ batch_updates (trace (snd (delete_slide st n s0))) =
                batch_updates (trace s0)
                ++ [(presentation_id st, delete_body id, outcome)]).
Proof.
  intros Hbuild Hfetch.
  pose proof (quiet_get_presentation_slides (presentation_id st) (verbose st) s)
    as Hq1.
  rewrite Hfetch in Hq1. cbn [snd] in Hq1.
  split; [|split].
  - intros Hfalsy. split; [|exact Hq1].
    rewrite delete_slide_steps, Hbuild. cbn [negb].
    rewrite Hfetch, Hfalsy. reflexivity.
  - intros slides s2 -> Hnonempty Hprint Hnone. split.
    + rewrite delete_slide_steps, Hbuild. cbn [negb]. rewrite Hfetch.
      destruct slides as [|slide rest]; [congruence|]. cbn [truthy negb].
      rewrite Hprint, Hnone. reflexivity.
    + rewrite batch_updates_app. cbn [batch_updates flat_map app].
      rewrite app_nil_r.
      pose proof (quiet_print_slide_details_if_verbose (JList slides) (verbose st) s1)
        as Hq2.
      rewrite Hprint in Hq2. cbn [snd] in Hq2. congruence.
  - intros s0. rewrite delete_slide_steps.
    destruct (build (py "slides") (world s0)); cbn [negb].
    2:{ left. cbn [snd trace]. rewrite batch_updates_app. apply app_nil_r. }
    pose proof (quiet_get_presentation_slides (presentation_id st) (verbose st) s0)
      as Hq0.
    destruct (get_presentation_slides (presentation_id st) (verbose st) s0)
      as [[fetched0|e] s'] eqn:Hfetch0; cbn [snd] in Hq0; [|left; exact Hq0].
    destruct (truthy fetched0); cbn [negb]; [|left; exact Hq0].
    pose proof (quiet_print_slide_details_if_verbose fetched0 (verbose st) s') as Hq2.
    destruct (print_slide_details_if_verbose fetched0 (verbose st) s')
      as [[[]|e] s''] eqn:Hprint0; cbn [snd] in Hq2;
      [|left; cbn [snd]; congruence].
    destruct (get_slide_id_by_index fetched0 n) as [id|e] eqn:Hid;
      [|left; cbn [snd]; congruence].
    destruct (is_none id) eqn:Hisnone.
    + left. destruct (len fetched0); cbn [snd trace]; [|congruence].
      rewrite batch_updates_app. cbn. rewrite app_nil_r. congruence.
    + right. destruct (delete_resolved_slide_batch n id s'') as [outcome Hbatch].
      exists fetched0, s', id, outcome.
      split; [reflexivity|]. split; [exact Hid|]. split.
      * intros ->. discriminate.
      * rewrite Hbatch. congruence.
Qed.

End DeleteSlide.

(** Slide number 4, then 0, of a deck of three slides; slide number 2,
    whose deletion is the one batch update sent; and slide number 1 of
    a deck without slides. *)
Lemma delete_slide_unresolved_witness :
  let d := [Reference.mk_slide (py "s1") []; Reference.mk_slide (py "s2") [];
            Reference.mk_slide (py "s3") []] in
  let w := Reference.mk_ref_world d [] 0 0 (2026, 11, 4)%Z false in
  let fetched := mk_state w [CallGet (py "deck-1")
                               (Ok (Reference.presentation_json (py "deck-1") d))] in
  let bare := Reference.mk_ref_world [] [] 0 0 (2026, 11, 4)%Z false in
  let nothing := mk_state bare [CallGet (py "deck-1")
                                  (Ok (Reference.presentation_json (py "deck-1") []))] in
  (delete_slide (Reference.config false) 4 (Reference.start w) =
     (Raise (Exit 1),
      mk_state w (trace fetched ++ [Stderr (slide_missing_message 4 3)]))
   /\ batch_updates (trace fetched ++ [Stderr (slide_missing_message 4 3)]) = [])
  /\ (delete_slide (Reference.config false) 1 (Reference.start bare) =
        (Raise (Exit 1), nothing)
      /\ batch_updates (trace nothing) = [])
  /\ fst (delete_slide (Reference.config false) 0 (Reference.start w)) = Raise (Exit 1)
  /\ batch_updates
       (trace (snd (delete_slide (Reference.config false) 2 (Reference.start w)))) =
     [(py "deck-1", delete_body (JStr (py "s2")),
       Ok (JDict [(py "presentationId", JStr (py "deck-1"));
                  (py "replies", JList [JDict []])]))].
Proof.
  intros d w fetched bare nothing.
  assert (Hfetch : get_presentation_slides
                     (presentation_id (Reference.config false))
                     (verbose (Reference.config false)) (Reference.start w)
                   = (Ok (JList (map Reference.slide_json d)), fetched))
    by (vm_compute; reflexivity).
  assert (Hbuild : build (py "slides") (world (Reference.start w)) = true)
    by reflexivity.
  assert (Hprint : print_slide_details_if_verbose
                     (JList (map Reference.slide_json d))
                     (verbose (Reference.config false)) fetched = (Ok tt, fetched))
    by reflexivity.
  assert (Hnone : get_slide_id_by_index (JList (map Reference.slide_json d)) 4
                  = Ok JNull) by reflexivity.
  assert (Hbare : get_presentation_slides
                    (presentation_id (Reference.config false))
                    (verbose (Reference.config false)) (Reference.start bare)
                  = (Ok JNull, nothing))
    by (vm_compute; reflexivity).
  split; [|split].
  - exact (proj1 (proj2 (delete_slide_unresolved (Reference.config false) 4
                           (Reference.start w) fetched
                           (JList (map Reference.slide_json d)) Hbuild Hfetch))
             (map Reference.slide_json d) fetched eq_refl ltac:(discriminate)
             Hprint Hnone).
  - exact (proj1 (delete_slide_unresolved (Reference.config false) 1
                    (Reference.start bare) nothing JNull eq_refl Hbare)
             eq_refl).
  - split; vm_compute; reflexivity.
Defined.

(** The claim as worded fails on a deck without slides.  No slide
    number resolves there, slide number 0 for one is turned down by
    [get_slide_id_by_index] on what was fetched, and the command ends
    with exit status 1; but it ends at the test of the fetched slides,
    before the number is looked at, and nothing is written on the error
    stream: the trace holds the fetch and nothing else. *)
Lemma delete_slide_silent_without_slides :
  let bare := Reference.mk_ref_world [] [] 0 0 (2026, 11, 4)%Z false in
  let fetch := CallGet (py "deck-1")
                 (Ok (JDict [(py "presentationId", JStr (py "deck-1"))])) in
  fst (get_presentation_slides (py "deck-1") false (Reference.start bare))
    = Ok JNull
  /\ get_slide_id_by_index JNull 0 = Ok JNull
  /\ delete_slide (Reference.config false) 0 (Reference.start bare)
     = (Raise (Exit 1), mk_state bare [fetch])
  /\ delete_slide (Reference.config false) 1 (Reference.start bare)
     = (Raise (Exit 1), mk_state bare [fetch])
  /\ delete_slide (Reference.config true) 1 (Reference.start bare)
     = (Raise TypeError, mk_state bare [fetch]).
Proof.
  intros bare fetch. repeat split; vm_compute; reflexivity.
Qed.

(** ** C5: the batches of the text templating *)

Lemma text_update_request_built (record : TextRecord) (rendered : str) :
  text_update_to_gslides_request
    [(py "original_text", JStr (text record));
     (py "rendered_text", JStr rendered);
     (py "page_object_id", page_object_id record);
     (py "object_id", object_id record)]
  = Ok (change_request (record, rendered)).
Proof. reflexivity. Qed.

Lemma change_requests_cons (record : TextRecord) (r : str)
    (rest : list TextRecord) (rs : list str) :
  change_requests (record :: rest) (r :: rs) =
  if changed (record, r)
  then change_request (record, r) :: change_requests rest rs
  else change_requests rest rs.
Proof.
  unfold change_requests. cbn [combine filter].
  destruct (changed (record, r)); reflexivity.
Qed.

Lemma requests_in_body (requests : list json) :
  requests_in (requests_body requests) = Z.of_nat (length requests).
Proof. reflexivity. Qed.

Section Jinjify.
Context {W : Type} `{Services W} `{PyRepr} {Env : Type} `{Jinja Env}.
Variable st : cli_state Env.
Variable data : context.

(** Echoes, under [verbose] or not, succeed, leave the world alone and
    send nothing. *)
Lemma when_echo_state (msgs : list str) (s : state W) :
  exists s',
    when (verbose st)
      (fold_right (fun msg rest => bind (echo msg) (fun _ => rest)) (ret tt) msgs) s
      = (Ok tt, s')
    /\ world s' = world s
    /\ batch_updates (trace s') = batch_updates (trace s).
Proof.
  unfold when. destruct (verbose st).
  - revert s. induction msgs as [|msg rest IH]; intros s; cbn [fold_right].
    + exists s. repeat split.
    + unfold bind, echo, emit.
      destruct (IH (mk_state (world s) (trace s ++ [Stdout msg])))
        as (s' & Hrun & Hworld & Htrace).
      exists s'. split; [exact Hrun|]. split; [exact Hworld|].
      rewrite Htrace. cbn [trace]. rewrite batch_updates_app. apply app_nil_r.
  - exists s. repeat split.
Qed.

Lemma when_echo_one (msg : str) (s : state W) :
  exists s',
    when (verbose st) (echo msg) s = (Ok tt, s')
    /\ world s' = world s
    /\ batch_updates (trace s') = batch_updates (trace s).
Proof.
  unfold when, echo, emit, ret. destruct (verbose st).
  - eexists. split; [reflexivity|]. split; [reflexivity|].
    cbn [trace]. rewrite batch_updates_app. apply app_nil_r.
  - exists s. repeat split.
Qed.

(** The inner loop: when every render succeeds, the requests collected
    are those of the changed records, one each, in order; nothing is
    sent. *)
Lemma jinjify_texts_renders (i : Z) (records : list TextRecord) :
  forall (s : state W) (rs : list str) (w' : W) (acc : list json),
    renders (jinja_env st) data records (world s) rs w' ->
    exists s',
      jinjify_texts st data i records acc s =
        (Ok (acc ++ change_requests records rs), s')
      /\ world s' = w'
      /\ batch_updates (trace s') = batch_updates (trace s).
Proof.
  induction records as [|record rest IH]; intros s rs w' acc Hrenders.
  - inversion Hrenders; subst.
    exists s. cbn [jinjify_texts]. unfold change_requests. cbn.
    rewrite app_nil_r. repeat split.
  - inversion Hrenders as [|? ? ? ? r rs' Hr Hrest]; subst.
    cbn [jinjify_texts]. unfold bind at 1.
    unfold render_jinja_in_string at 1.
    unfold bind at 1. unfold time_localtime at 1.
    destruct (localtime (world s)) as [now w1] eqn:Hclock.
    cbn [fst snd] in *. unfold lift at 1.
    unfold render_context in Hr. rewrite Hr.
    rewrite change_requests_cons. unfold changed. cbn [fst snd].
    set (s1 := mk_state w1 (trace s)).
    destruct (negb (str_eqb r (text record))).
    + unfold bind at 1.
      destruct (when_echo_state
                  [py "  Change on slide " ++ format_d (i + 1) ++ py " (element "
                   ++ py_str (object_id record) ++ py "):";
                   py "    Original: '" ++ text record ++ py "'";
                   py "    Rendered: '" ++ r ++ py "'"] s1)
        as (s2 & Hecho & Hworld & Htrace).
      match goal with
      | |- context [when (verbose st) ?m s1] =>
          change (when (verbose st) m s1)
            with (when (verbose st)
                    (fold_right (fun msg rest => bind (echo msg) (fun _ => rest))
                       (ret tt)
                       [py "  Change on slide " ++ format_d (i + 1)
                        ++ py " (element " ++ py_str (object_id record) ++ py "):";
                        py "    Original: '" ++ text record ++ py "'";
                        py "    Rendered: '" ++ r ++ py "'"]) s1)
      end.
      rewrite Hecho.
      unfold bind at 1. unfold lift at 1.
      rewrite text_update_request_built.
      destruct (IH s2 rs' w' (acc ++ [change_request (record, r)]))
        as (s' & Hrun & Hw & Ht).
      { rewrite Hworld. exact Hrest. }
      exists s'. rewrite Hrun, <- app_assoc. split; [reflexivity|].
      split; [exact Hw|]. rewrite Ht, Htrace. reflexivity.
    + destruct (IH s1 rs' w' acc) as (s' & Hrun & Hw & Ht); [exact Hrest|].
      exists s'. rewrite Hrun. repeat split; assumption.
Qed.

(** The [try] block sends exactly one batch update, whose body holds the
    requests; the count grows by their number when the call returns,
    and stays when it fails with [HttpError]. *)
Lemma submit_text_updates_batch (i : Z) (requests : list json) (total : Z)
    (s : state W) :
  exists outcome,
    batch_updates (trace (snd (submit_text_updates st i requests total s))) =
      batch_updates (trace s)
      ++ [(presentation_id st, requests_body requests, outcome)]
    /\ fst (submit_text_updates st i requests total s) =
       match outcome with
       | Ok _ => Ok (total + Z.of_nat (length requests))%Z
       | Raise (HttpError _) => Ok total
       | Raise e => Raise e
       end.
Proof.
  remember (submit_text_updates st i requests total s) as run eqn:Hrun.
  unfold submit_text_updates, try_http in Hrun.
  fold (requests_body requests) in Hrun.
  unfold bind at 1 in Hrun.
  destruct (when_echo_one
              (py "  Applying " ++ format_d (Z.of_nat (length requests))
               ++ py " text updates to slide #" ++ format_d (i + 1) ++ py "...") s)
    as (s1 & Hecho & Hworld & Htrace).
  rewrite Hecho in Hrun. unfold bind at 1 in Hrun. unfold call at 1 in Hrun.
  destruct (presentations_batchUpdate (presentation_id st)
              (requests_body requests) (world s1)) as [outcome w'].
  exists outcome.
  set (s2 := mk_state w'
               (trace s1 ++ [CallBatchUpdate (presentation_id st)
                               (requests_body requests) outcome])).
  assert (Hsent : batch_updates (trace s2) =
                  batch_updates (trace s)
                  ++ [(presentation_id st, requests_body requests, outcome)]).
  { unfold s2. cbn [trace]. rewrite batch_updates_app, Htrace. reflexivity. }
  fold s2 in Hrun.
  destruct outcome as [response|e].
  - unfold bind at 1 in Hrun.
    destruct (when_echo_one
                (py "  Successfully updated text on slide #" ++ format_d (i + 1)
                 ++ py ".") s2) as (s3 & Hecho3 & _ & Htrace3).
    rewrite Hecho3 in Hrun. unfold ret in Hrun. subst run. cbn [fst snd].
    split; [|reflexivity]. rewrite Htrace3. exact Hsent.
  - destruct e; subst run; cbn [fst snd];
      try (split; [exact Hsent | reflexivity]).
    unfold bind, echo_err, emit, ret. cbn [fst snd trace]. split; [|reflexivity].
    rewrite batch_updates_app, Hsent. apply app_nil_r.
Qed.

(** One slide.  The slide gives the text records [records],
    rendered as [rs].  When no record is changed, none at all included,
    nothing is sent.  Otherwise one batch update is sent, holding one
    request per changed record, in order; the count grows by their
    number when the call returns and stays when it fails with
    [HttpError]. *)
Lemma jinjify_slide_batch (i : Z) (slide slide_id : json)
    (records : list TextRecord) (rs : list str) (w' : W) (total : Z)
    (s : state W) :
  extracts slide slide_id records ->
  renders (jinja_env st) data records (world s) rs w' ->
  (change_requests records rs = [] ->
   fst (jinjify_slide st data i slide total s) = Ok total
   /\ batch_updates (trace (snd (jinjify_slide st data i slide total s))) =
      batch_updates (trace s))
  /\
  (change_requests records rs <> [] ->
   exists outcome,
     batch_updates (trace (snd (jinjify_slide st data i slide total s))) =
       batch_updates (trace s)
       ++ [(presentation_id st, requests_body (change_requests records rs), outcome)]
     /\ fst (jinjify_slide st data i slide total s) =
        match outcome with
        | Ok _ =>
            Ok (total + Z.of_nat (length (filter changed (combine records rs))))%Z
        | Raise (HttpError _) => Ok total
        | Raise e => Raise e
        end).
Proof.
  intros (text_elements & Hid & Hels & Hrecords) Hrenders.
  remember (jinjify_slide st data i slide total s) as run eqn:Hslide.
  unfold jinjify_slide in Hslide.
  unfold bind at 1 in Hslide. unfold lift at 1 in Hslide. rewrite Hid in Hslide.
  unfold bind at 1 in Hslide.
  destruct (when_echo_one
              (py "Processing Slide #" ++ format_d (i + 1) ++ py " ("
               ++ py_str slide_id ++ py ")") s)
    as (s1 & Hecho & Hworld & Htrace).
  rewrite Hecho in Hslide.
  unfold bind at 1 in Hslide. unfold lift at 1 in Hslide. rewrite Hels in Hslide.
  destruct text_elements as [|el els].
  - cbn [rmap] in Hrecords. injection Hrecords as <-.
    inversion Hrenders; subst rs w'.
    unfold bind at 1 in Hslide.
    destruct (when_echo_one
                (py "  No text elements found on Slide #" ++ format_d (i + 1)
                 ++ py ".") s1) as (s2 & Hecho2 & _ & Htrace2).
    rewrite Hecho2 in Hslide. unfold ret in Hslide. subst run.
    cbn [fst snd]. split.
    + intros _. split; [reflexivity | congruence].
    + intros Hne. exfalso. apply Hne. reflexivity.
  - unfold bind at 1 in Hslide. unfold lift at 1 in Hslide.
    rewrite Hrecords in Hslide.
    unfold bind at 1 in Hslide.
    destruct (jinjify_texts_renders i records s1 rs w' [])
      as (s2 & Hrun & _ & Htrace2).
    { rewrite Hworld. exact Hrenders. }
    rewrite Hrun in Hslide. cbn [app] in Hslide.
    destruct (change_requests records rs) as [|request requests] eqn:Hreqs.
    + unfold bind at 1 in Hslide.
      destruct (when_echo_one
                  (py "  No text changes to apply on Slide #" ++ format_d (i + 1)
                   ++ py ".") s2) as (s3 & Hecho3 & _ & Htrace3).
      rewrite Hecho3 in Hslide. unfold ret in Hslide. subst run.
      cbn [fst snd]. split.
      * intros _. split; [reflexivity | congruence].
      * intros Hne. exfalso. apply Hne. reflexivity.
    + split; [discriminate|]. intros _. subst run.
      destruct (submit_text_updates_batch i (request :: requests) total s2)
        as (outcome & Hbatch & Hresult).
      exists outcome. split.
      * rewrite Hbatch. congruence.
      * rewrite Hresult.
        assert (Hlen : length (request :: requests) =
                       length (filter changed (combine records rs))).
        { rewrite <- Hreqs. unfold change_requests. apply length_map. }
        rewrite Hlen. reflexivity.
Qed.

(** Whatever the slide, the body of the loop adds to the count the
    number of requests of the batch updates that succeeded. *)
Lemma jinjify_slide_total (i : Z) (slide : json) (total : Z) (s : state W) :
  exists new,
    batch_updates (trace (snd (jinjify_slide st data i slide total s))) =
      batch_updates (trace s) ++ new
    /\ (forall total',
          fst (jinjify_slide st data i slide total s) = Ok total' ->
          total' = (total + applied new)%Z).
Proof.
  assert (Hnone : forall (e : exn) (s' : state W) (run : result Z * state W),
            run = (Raise e, s') ->
            batch_updates (trace s') = batch_updates (trace s) ->
            exists new,
              batch_updates (trace (snd run)) = batch_updates (trace s) ++ new
              /\ (forall total', fst run = Ok total' ->
                                 total' = (total + applied new)%Z)).
  { intros e s' run -> Hsame. exists []. cbn [fst snd]. rewrite app_nil_r.
    split; [exact Hsame | discriminate]. }
  assert (Hkeep : forall (s' : state W) (run : result Z * state W),
            run = (Ok total, s') ->
            batch_updates (trace s') = batch_updates (trace s) ->
            exists new,
              batch_updates (trace (snd run)) = batch_updates (trace s) ++ new
              /\ (forall total', fst run = Ok total' ->
                                 total' = (total + applied new)%Z)).
  { intros s' run -> Hsame. exists []. cbn [fst snd]. rewrite app_nil_r.
    split; [exact Hsame|]. intros total' [= <-]. cbn [applied]. lia. }
  remember (jinjify_slide st data i slide total s) as run eqn:Hslide.
  unfold jinjify_slide in Hslide.
  unfold bind at 1 in Hslide. unfold lift at 1 in Hslide.
  destruct (get slide (py "objectId")) as [slide_id|e];
    [|exact (Hnone _ _ _ Hslide eq_refl)].
  unfold bind at 1 in Hslide.
  destruct (when_echo_one
              (py "Processing Slide #" ++ format_d (i + 1) ++ py " ("
               ++ py_str slide_id ++ py ")") s)
    as (s1 & Hecho & Hworld & Htrace).
  rewrite Hecho in Hslide.
  unfold bind at 1 in Hslide. unfold lift at 1 in Hslide.
  destruct (get_text_elements_from_slide slide) as [text_elements|e];
    [|exact (Hnone _ _ _ Hslide Htrace)].
  destruct text_elements as [|el els].
  - unfold bind at 1 in Hslide.
    destruct (when_echo_one
                (py "  No text elements found on Slide #" ++ format_d (i + 1)
                 ++ py ".") s1) as (s2 & Hecho2 & _ & Htrace2).
    rewrite Hecho2 in Hslide. unfold ret in Hslide.
    apply (Hkeep _ _ Hslide). congruence.
  - unfold bind at 1 in Hslide. unfold lift at 1 in Hslide.
    destruct (rmap (fun el0 => gslides_element_to_text el0 slide_id) (el :: els))
      as [records|e]; [|exact (Hnone _ _ _ Hslide Htrace)].
    unfold bind at 1 in Hslide.
    pose proof (quiet_jinjify_texts st data i records [] s1) as Hquiet.
    destruct (jinjify_texts st data i records [] s1) as [[requests|e] s2];
      cbn [snd] in Hquiet;
      [|apply (Hnone _ _ _ Hslide); congruence].
    destruct requests as [|request requests].
    + unfold bind at 1 in Hslide.
      destruct (when_echo_one
                  (py "  No text changes to apply on Slide #" ++ format_d (i + 1)
                   ++ py ".") s2) as (s3 & Hecho3 & _ & Htrace3).
      rewrite Hecho3 in Hslide. unfold ret in Hslide.
      apply (Hkeep _ _ Hslide). congruence.
    + subst run.
      destruct (submit_text_updates_batch i (request :: requests) total s2)
        as (outcome & Hbatch & Hresult).
      exists [(presentation_id st, requests_body (request :: requests), outcome)].
      split; [rewrite Hbatch; congruence|].
      intros total'. rewrite Hresult.
      destruct outcome as [response|e].
      * intros Heq. cbn [applied]. rewrite requests_in_body.
        assert (Ht : (total + Z.of_nat (length (request :: requests)))%Z = total')
          by congruence.
        lia.
      * destruct e; try discriminate. intros [= <-]. cbn [applied]. lia.
Qed.

Lemma applied_app (l1 l2 : list (str * json * result json)) :
  applied (l1 ++ l2) = (applied l1 + applied l2)%Z.
Proof.
  induction l1 as [|[[pid body] [response|e]] rest IH]; cbn [app applied];
    [reflexivity | rewrite IH; lia | exact IH].
Qed.

(** The loop over the slides keeps the count in step with the batch
    updates that succeeded. *)
Lemma jinjify_slides_total (slides : list json) :
  forall (i total : Z) (s : state W),
  exists new,
    batch_updates (trace (snd (jinjify_slides st data i slides total s))) =
      batch_updates (trace s) ++ new
    /\ (forall total',
          fst (jinjify_slides st data i slides total s) = Ok total' ->
          total' = (total + applied new)%Z).
Proof.
  induction slides as [|slide rest IH]; intros i total s; cbn [jinjify_slides].
  - exists []. unfold ret. cbn [fst snd]. rewrite app_nil_r.
    split; [reflexivity|]. intros total' [= <-]. cbn [applied]. lia.
  - unfold bind.
    destruct (jinjify_slide_total i slide total s) as (new1 & Hbatch1 & Htotal1).
    destruct (jinjify_slide st data i slide total s) as [[total1|e] s1];
      cbn [fst snd] in *.
    + destruct (IH (i + 1)%Z total1 s1) as (new2 & Hbatch2 & Htotal2).
      exists (new1 ++ new2). split.
      * rewrite Hbatch2, Hbatch1, app_assoc. reflexivity.
      * intros total' Hrun. rewrite (Htotal2 total' Hrun), (Htotal1 total1 eq_refl).
        rewrite applied_app. lia.
    + exists new1. split; [exact Hbatch1 | discriminate].
Qed.

(** The whole command: when it ends normally, the last thing it writes
    is the report, and the total it reports is the number of requests in
    the batch updates that succeeded. *)
Lemma jinjify_reports_applied (s : state W) :
  exists new,
    batch_updates (trace (snd (jinjify st data s))) = batch_updates (trace s) ++ new
    /\ (fst (jinjify st data s) = Ok tt ->
        exists before,
          trace (snd (jinjify st data s)) =
          before ++ [jinjify_report (applied new)]).
Proof.
  assert (Hnone : forall (e : exn) (s' : state W) (run : result unit * state W),
            run = (Raise e, s') ->
            batch_updates (trace s') = batch_updates (trace s) ->
            exists new,
              batch_updates (trace (snd run)) = batch_updates (trace s) ++ new
              /\ (fst run = Ok tt ->
                  exists before,
                    trace (snd run) = before ++ [jinjify_report (applied new)])).
  { intros e s' run -> Hsame. exists []. cbn [fst snd]. rewrite app_nil_r.
    split; [exact Hsame | discriminate]. }
  remember (jinjify st data s) as run eqn:Hrun.
  unfold jinjify in Hrun.
  unfold bind at 1 in Hrun. unfold get_slides_service at 1 in Hrun.
  destruct (build (py "slides") (world s)); cbn [negb] in Hrun.
  2:{ unfold bind, echo_err, emit, raise in Hrun. apply (Hnone _ _ _ Hrun).
      cbn [trace]. rewrite batch_updates_app. apply app_nil_r. }
  unfold bind at 1 in Hrun. unfold ret at 1 in Hrun. unfold bind at 1 in Hrun.
  pose proof (quiet_get_presentation_slides (presentation_id st) (verbose st) s) as Hq1.
  destruct (get_presentation_slides (presentation_id st) (verbose st) s)
    as [[slides|e] s1]; cbn [snd] in Hq1;
    [|exact (Hnone _ _ _ Hrun Hq1)].
  unfold bind at 1 in Hrun.
  destruct (truthy slides); cbn [negb] in Hrun;
    [|unfold raise in Hrun; exact (Hnone _ _ _ Hrun Hq1)].
  unfold ret at 1 in Hrun. unfold bind at 1 in Hrun.
  pose proof (quiet_print_slide_details_if_verbose slides (verbose st) s1) as Hq2.
  destruct (print_slide_details_if_verbose slides (verbose st) s1)
    as [[[]|e] s2]; cbn [snd] in Hq2;
    [|apply (Hnone _ _ _ Hrun); congruence].
  unfold bind at 1 in Hrun. unfold echo at 1, emit at 1 in Hrun.
  set (s3 := mk_state (world s2)
               (trace s2 ++ [Stdout (py "Processing slides for Jinja templating...")]))
    in Hrun.
  assert (Hq3 : batch_updates (trace s3) = batch_updates (trace s)).
  { unfold s3. cbn [trace]. rewrite batch_updates_app, app_nil_r. congruence. }
  unfold bind at 1 in Hrun. unfold lift at 1 in Hrun.
  destruct (iter slides) as [items|e]; [|exact (Hnone _ _ _ Hrun Hq3)].
  unfold bind at 1 in Hrun.
  destruct (jinjify_slides_total items 0%Z 0%Z s3) as (new & Hbatch & Htotal).
  destruct (jinjify_slides st data 0 items 0 s3) as [[total|e] s4];
    cbn [fst snd] in *.
  - exists new. rewrite (Htotal total eq_refl), Z.add_0_l in Hrun.
    unfold echo, emit in Hrun. subst run. cbn [fst snd trace]. split.
    + rewrite batch_updates_app, app_nil_r, Hbatch, Hq3. reflexivity.
    + intros _. exists (trace s4). reflexivity.
  - exists new. subst run. cbn [fst snd].
    split; [rewrite Hbatch, Hq3; reflexivity | discriminate].
Qed.

(** *** The run over the slides *)

Lemma output_quiet (evs : list event) :
  forallb is_output evs = true ->
  batch_updates evs = [] /\ error_lines evs = [].
Proof.
  induction evs as [|e rest IH]; [split; reflexivity|].
  cbn [forallb]. intros Hall. apply andb_true_iff in Hall.
  destruct Hall as [He Hrest]. destruct (IH Hrest) as [Hb Hl].
  destruct e; try discriminate He. split; assumption.
Qed.

Lemma error_lines_app (evs evs' : list event) :
  error_lines (evs ++ evs') = error_lines evs ++ error_lines evs'.
Proof. unfold error_lines. apply flat_map_app. Qed.

Lemma echoes_output (msgs : list str) (s : state W) :
  exists evs,
    when (verbose st)
      (fold_right (fun msg rest => bind (echo msg) (fun _ => rest)) (ret tt) msgs) s
      = (Ok tt, mk_state (world s) (trace s ++ evs))
    /\ forallb is_output evs = true.
Proof.
  unfold when. destruct (verbose st).
  - revert s. induction msgs as [|msg rest IH]; intros s; cbn [fold_right].
    + exists []. rewrite app_nil_r. destruct s. split; reflexivity.
    + unfold bind at 1. unfold echo at 1, emit at 1.
      destruct (IH (mk_state (world s) (trace s ++ [Stdout msg])))
        as (evs & Hrun & Hout).
      exists (Stdout msg :: evs). rewrite Hrun. cbn [world trace].
      rewrite <- app_assoc. split; [reflexivity | exact Hout].
  - exists []. rewrite app_nil_r. destruct s. split; reflexivity.
Qed.

Lemma echo_output (msg : str) (s : state W) :
  exists evs,
    when (verbose st) (echo msg) s = (Ok tt, mk_state (world s) (trace s ++ evs))
    /\ forallb is_output evs = true.
Proof.
  unfold when, echo, emit, ret. destruct (verbose st).
  - exists [Stdout msg]. split; reflexivity.
  - exists []. rewrite app_nil_r. destruct s. split; reflexivity.
Qed.

(** The inner loop, with what it writes. *)
Lemma jinjify_texts_run (i : Z) (records : list TextRecord) :
  forall (s : state W) (rs : list str) (w' : W) (acc : list json),
    renders (jinja_env st) data records (world s) rs w' ->
    exists evs,
      jinjify_texts st data i records acc s =
        (Ok (acc ++ change_requests records rs), mk_state w' (trace s ++ evs))
      /\ forallb is_output evs = true.
Proof.
  induction records as [|record rest IH]; intros s rs w' acc Hrenders.
  - inversion Hrenders; subst.
    exists []. cbn [jinjify_texts]. unfold change_requests, ret. cbn.
    rewrite !app_nil_r. destruct s. split; reflexivity.
  - inversion Hrenders as [|? ? ? ? r rs' Hr Hrest]; subst.
    cbn [jinjify_texts]. unfold bind at 1.
    unfold render_jinja_in_string at 1.
    unfold bind at 1. unfold time_localtime at 1.
    destruct (localtime (world s)) as [now w1] eqn:Hclock.
    cbn [fst snd] in *. unfold lift at 1.
    unfold render_context in Hr. rewrite Hr.
    rewrite change_requests_cons. unfold changed. cbn [fst snd].
    set (s1 := mk_state w1 (trace s)).
    destruct (negb (str_eqb r (text record))).
    + unfold bind at 1.
      destruct (echoes_output
                  [py "  Change on slide " ++ format_d (i + 1) ++ py " (element "
                   ++ py_str (object_id record) ++ py "):";
                   py "    Original: '" ++ text record ++ py "'";
                   py "    Rendered: '" ++ r ++ py "'"] s1)
        as (evs1 & Hecho & Hout1).
      match goal with
      | |- context [when (verbose st) ?m s1] =>
          change (when (verbose st) m s1)
            with (when (verbose st)
                    (fold_right (fun msg rest => bind (echo msg) (fun _ => rest))
                       (ret tt)
                       [py "  Change on slide " ++ format_d (i + 1)
                        ++ py " (element " ++ py_str (object_id record) ++ py "):";
                        py "    Original: '" ++ text record ++ py "'";
                        py "    Rendered: '" ++ r ++ py "'"]) s1)
      end.
      rewrite Hecho.
      unfold bind at 1. unfold lift at 1.
      rewrite text_update_request_built.
      destruct (IH (mk_state (world s1) (trace s1 ++ evs1)) rs' w'
                  (acc ++ [change_request (record, r)]) Hrest)
        as (evs2 & Hrun & Hout2).
      exists (evs1 ++ evs2). rewrite Hrun. cbn [world trace].
      rewrite <- !app_assoc. split; [reflexivity|].
      rewrite forallb_app, Hout1, Hout2. reflexivity.
    + destruct (IH s1 rs' w' acc Hrest) as (evs & Hrun & Hout).
      exists evs. rewrite Hrun. split; [reflexivity | exact Hout].
Qed.

(** One slide, with what it does to the world and what it writes. *)
Lemma jinjify_slide_run (i : Z) (slide slide_id : json)
    (records : list TextRecord) (rs : list str) (w1 : W) (total : Z)
    (s : state W) :
  extracts slide slide_id records ->
  renders (jinja_env st) data records (world s) rs w1 ->
  (change_requests records rs = [] ->
   exists evs,
     jinjify_slide st data i slide total s =
       (Ok total, mk_state w1 (trace s ++ evs))
     /\ forallb is_output evs = true)
  /\
  (change_requests records rs <> [] ->
   forall (outcome : result json) (w2 : W),
     presentations_batchUpdate (presentation_id st)
       (requests_body (change_requests records rs)) w1 = (outcome, w2) ->
     answered outcome ->
     exists evs,
       jinjify_slide st data i slide total s =
         (Ok (match outcome with
              | Ok _ =>
                  total + Z.of_nat (length (filter changed (combine records rs)))
              | Raise _ => total
              end)%Z,
          mk_state w2 (trace s ++ evs))
       /\ batch_updates evs =
          [(presentation_id st, requests_body (change_requests records rs),
            outcome)]
       /\ error_lines evs =
          match outcome with
          | Raise (HttpError err) => [failure_report i err]
          | _ => []
          end).
Proof.
  intros (text_elements & Hid & Hels & Hrecords) Hrenders.
  remember (jinjify_slide st data i slide total s) as run eqn:Hslide.
  unfold jinjify_slide in Hslide.
  unfold bind at 1 in Hslide. unfold lift at 1 in Hslide. rewrite Hid in Hslide.
  unfold bind at 1 in Hslide.
  destruct (echo_output
              (py "Processing Slide #" ++ format_d (i + 1) ++ py " ("
               ++ py_str slide_id ++ py ")") s)
    as (evs0 & Hecho & Hout0).
  rewrite Hecho in Hslide.
  set (s1 := mk_state (world s) (trace s ++ evs0)) in Hslide.
  unfold bind at 1 in Hslide. unfold lift at 1 in Hslide. rewrite Hels in Hslide.
  destruct text_elements as [|el els].
  - cbn [rmap] in Hrecords. injection Hrecords as <-.
    inversion Hrenders; subst rs w1.
    unfold bind at 1 in Hslide.
    destruct (echo_output
                (py "  No text elements found on Slide #" ++ format_d (i + 1)
                 ++ py ".") s1) as (evs1 & Hecho1 & Hout1).
    rewrite Hecho1 in Hslide. unfold ret in Hslide. subst run. split.
    + intros _. exists (evs0 ++ evs1). unfold s1. cbn [world trace].
      rewrite <- app_assoc. split; [reflexivity|].
      rewrite forallb_app, Hout0, Hout1. reflexivity.
    + intros Hne. exfalso. apply Hne. reflexivity.
  - unfold bind at 1 in Hslide. unfold lift at 1 in Hslide.
    rewrite Hrecords in Hslide.
    unfold bind at 1 in Hslide.
    destruct (jinjify_texts_run i records s1 rs w1 [] Hrenders)
      as (evs1 & Hrun & Hout1).
    rewrite Hrun in Hslide. cbn [app] in Hslide.
    set (s2 := mk_state w1 (trace s1 ++ evs1)) in Hslide.
    destruct (change_requests records rs) as [|request requests] eqn:Hreqs.
    + unfold bind at 1 in Hslide.
      destruct (echo_output
                  (py "  No text changes to apply on Slide #" ++ format_d (i + 1)
                   ++ py ".") s2) as (evs2 & Hecho2 & Hout2).
      rewrite Hecho2 in Hslide. unfold ret in Hslide. subst run. split.
      * intros _. exists (evs0 ++ evs1 ++ evs2). unfold s2, s1. cbn [world trace].
        rewrite <- !app_assoc. split; [reflexivity|].
        rewrite !forallb_app, Hout0, Hout1, Hout2. reflexivity.
      * intros Hne. exfalso. apply Hne. reflexivity.
    + split; [discriminate|]. intros _ outcome w2 Hbatch Hanswered.
      assert (Hlen : length (request :: requests) =
                     length (filter changed (combine records rs))).
      { rewrite <- Hreqs. unfold change_requests. apply length_map. }
      unfold submit_text_updates, try_http in Hslide.
      fold (requests_body (request :: requests)) in Hslide.
      unfold bind at 1 in Hslide.
      destruct (echo_output
                  (py "  Applying "
                   ++ format_d (Z.of_nat (length (request :: requests)))
                   ++ py " text updates to slide #" ++ format_d (i + 1)
                   ++ py "...") s2)
        as (evs2 & Hecho2 & Hout2).
      rewrite Hecho2 in Hslide.
      unfold bind at 1 in Hslide. unfold call at 1 in Hslide.
      unfold s2 in Hslide. cbn [world trace] in Hslide. rewrite Hbatch in Hslide.
      set (sent := CallBatchUpdate (presentation_id st)
                     (requests_body (request :: requests)) outcome) in Hslide.
      destruct (output_quiet _ Hout0) as [Hb0 Hl0].
      destruct (output_quiet _ Hout1) as [Hb1 Hl1].
      destruct (output_quiet _ Hout2) as [Hb2 Hl2].
      destruct outcome as [response|e].
      * unfold bind at 1 in Hslide.
        destruct (echo_output
                    (py "  Successfully updated text on slide #"
                     ++ format_d (i + 1) ++ py ".")
                    (mk_state w2 (((trace s1 ++ evs1) ++ evs2) ++ [sent])))
          as (evs3 & Hecho3 & Hout3).
        rewrite Hecho3 in Hslide. unfold ret in Hslide. subst run.
        destruct (output_quiet _ Hout3) as [Hb3 Hl3].
        exists (evs0 ++ evs1 ++ evs2 ++ [sent] ++ evs3).
        unfold s1. cbn [world trace]. rewrite Hlen, <- !app_assoc.
        split; [reflexivity|]. split.
        -- rewrite !batch_updates_app, Hb0, Hb1, Hb2, Hb3. reflexivity.
        -- rewrite !error_lines_app, Hl0, Hl1, Hl2, Hl3. reflexivity.
      * destruct e; try (exfalso; exact Hanswered).
        unfold bind, echo_err, emit, ret in Hslide. subst run.
        exists (evs0 ++ evs1 ++ evs2 ++ [sent]
                ++ [Stderr (failure_report i msg)]).
        unfold s1, failure_report. cbn [world trace]. rewrite <- !app_assoc.
        split; [reflexivity|]. split.
        -- rewrite !batch_updates_app, Hb0, Hb1, Hb2. reflexivity.
        -- rewrite !error_lines_app, Hl0, Hl1, Hl2. reflexivity.
Qed.

(** The loop over the slides does what the specification describes. *)
Lemma jinjify_slides_run (i : Z) (slides : list json) (w w' : W)
    (sent : list slide_batch) :
  slides_templated (jinja_env st) data (presentation_id st) i slides w sent w' ->
  forall (total : Z) (s : state W),
    world s = w ->
    exists evs,
      jinjify_slides st data i slides total s =
        (Ok (total + changes_made sent)%Z, mk_state w' (trace s ++ evs))
      /\ batch_updates evs = batches_sent (presentation_id st) sent
      /\ error_lines evs = failure_reports sent.
Proof.
  intros Hrun.
  induction Hrun as
    [i w
    |i slide rest slide_id records rs w w1 w' sent Hextracts Hrenders Hsame _ IH
    |i slide rest slide_id records rs w w1 w2 w' outcome sent
       Hextracts Hrenders Hdiffer Hbatch Hanswered _ IH];
    intros total s Hworld; cbn [jinjify_slides].
  - exists []. unfold ret. cbn [changes_made]. rewrite Z.add_0_r, app_nil_r.
    subst w. destruct s. repeat split.
  - subst w.
    destruct (jinjify_slide_run i slide slide_id records rs w1 total s
                Hextracts Hrenders) as [Hidle _].
    destruct (Hidle Hsame) as (evs1 & Hslide & Hout1).
    destruct (output_quiet _ Hout1) as [Hb1 Hl1].
    unfold bind. rewrite Hslide.
    destruct (IH total (mk_state w1 (trace s ++ evs1)) eq_refl)
      as (evs2 & Hrest & Hb2 & Hl2).
    exists (evs1 ++ evs2). rewrite Hrest. cbn [trace]. rewrite <- app_assoc.
    split; [reflexivity|]. split.
    + rewrite batch_updates_app, Hb1, Hb2. reflexivity.
    + rewrite error_lines_app, Hl1, Hl2. reflexivity.
  - subst w.
    destruct (jinjify_slide_run i slide slide_id records rs w1 total s
                Hextracts Hrenders) as [_ Hsend].
    destruct (Hsend Hdiffer outcome w2 Hbatch Hanswered)
      as (evs1 & Hslide & Hb1 & Hl1).
    unfold bind. rewrite Hslide.
    match type of Hslide with
    | _ = (Ok ?t1, _) =>
        destruct (IH t1 (mk_state w2 (trace s ++ evs1)) eq_refl)
          as (evs2 & Hrest & Hb2 & Hl2)
    end.
    exists (evs1 ++ evs2). rewrite Hrest. cbn [trace]. rewrite <- app_assoc.
    split; [|split].
    + f_equal. f_equal. cbn [changes_made batch_outcome batch_records batch_rendered].
      destruct outcome; lia.
    + rewrite batch_updates_app, Hb1, Hb2. reflexivity.
    + rewrite error_lines_app, Hl1, Hl2.
      cbn [failure_reports flat_map batch_outcome batch_slide]. reflexivity.
Qed.

(** The command on a deck fetched with at least one slide, when the
    loop does what the specification describes. *)
Lemma jinjify_whole_run
    (slides : list json) (sent : list slide_batch) (w' : W)
    (s s1 s2 : state W) :
  build (py "slides") (world s) = true ->
  get_presentation_slides (presentation_id st) (verbose st) s
    = (Ok (JList slides), s1) ->
  slides <> [] ->
  print_slide_details_if_verbose (JList slides) (verbose st) s1 = (Ok tt, s2) ->
  slides_templated (jinja_env st) data (presentation_id st) 0 slides (world s2)
    sent w' ->
  exists s',
    jinjify st data s = (Ok tt, s')
    /\ world s' = w'
    /\ batch_updates (trace s') =
       batch_updates (trace s) ++ batches_sent (presentation_id st) sent
    /\ error_lines (trace s') = error_lines (trace s2) ++ failure_reports sent
    /\ exists before,
         trace s' = before ++ [jinjify_report (changes_made sent)].
Proof.
  intros Hbuild Hfetch Hnonempty Hprint Hrun.
  pose proof (quiet_get_presentation_slides (presentation_id st) (verbose st) s)
    as Hq1.
  rewrite Hfetch in Hq1. cbn [snd] in Hq1.
  pose proof (quiet_print_slide_details_if_verbose (JList slides) (verbose st) s1)
    as Hq2.
  rewrite Hprint in Hq2. cbn [snd] in Hq2.
  set (s3 := mk_state (world s2)
               (trace s2 ++ [Stdout (py "Processing slides for Jinja templating...")])).
  destruct (jinjify_slides_run 0 slides (world s2) w' sent Hrun 0%Z s3 eq_refl)
    as (evs & Hloop & Hsent & Hlines).
  rewrite Z.add_0_l in Hloop.
  exists (mk_state w' ((trace s3 ++ evs) ++ [jinjify_report (changes_made sent)])).
  split; [|split; [|split; [|split]]].
  - unfold jinjify. unfold bind at 1. unfold get_slides_service at 1.
    rewrite Hbuild. cbn [negb]. unfold bind at 1. unfold ret at 1.
    unfold bind at 1. rewrite Hfetch. unfold bind at 1.
    destruct slides as [|slide rest]; [congruence|]. cbn [truthy negb].
    unfold ret at 1. unfold bind at 1. rewrite Hprint.
    unfold bind at 1. unfold echo at 1, emit at 1. fold s3.
    unfold bind at 1. unfold lift at 1. cbn [iter].
    unfold bind at 1. rewrite Hloop.
    reflexivity.
  - reflexivity.
  - cbn [trace]. unfold s3. cbn [trace].
    rewrite !batch_updates_app, Hsent. cbn [batch_updates flat_map app].
    rewrite !app_nil_r. congruence.
  - cbn [trace]. unfold s3. cbn [trace].
    rewrite !error_lines_app, Hlines. cbn [error_lines flat_map app].
    rewrite !app_nil_r. reflexivity.
  - exists (trace s3 ++ evs). reflexivity.
Qed.

(** C5, as the code has it.  The deck was fetched with at least one
    slide.  [jinjify] then does to the slides, every one of them and in
    their order, what the specification describes: the records of a
    slide whose rendered text differs from their text produce one
    replace request each, the requests of a slide go out in one batch
    update, and a slide without text box or without changed record
    causes no call.  The batch updates of the run are these batches and
    no others.  A batch that the service refuses is reported on the
    error stream, and the run goes on.  The command ends normally, and
    the total in its last line is the number of changed records on the
    slides whose batch was accepted.  From any state, moreover, a
    command that ends normally reports the number of requests in the
    batch updates that succeeded. *)
Theorem jinjify_batches
    (slides : list json) (sent : list slide_batch) (w' : W)
    (s s1 s2 : state W) :
  build (py "slides") (world s) = true ->
  get_presentation_slides (presentation_id st) (verbose st) s
    = (Ok (JList slides), s1) ->
  slides <> [] ->
  print_slide_details_if_verbose (JList slides) (verbose st) s1 = (Ok tt, s2) ->
  slides_templated (jinja_env st) data (presentation_id st) 0 slides (world s2)
    sent w' ->
  (exists s',
     jinjify st data s = (Ok tt, s')
     /\ world s' = w'
     /\ batch_updates (trace s') =
        batch_updates (trace s) ++ batches_sent (presentation_id st) sent
     /\ error_lines (trace s') = error_lines (trace s2) ++ failure_reports sent
     /\ exists before,
          trace s' = before ++ [jinjify_report (changes_made sent)])
  /\
  (forall s0 : state W,
   exists new,
     batch_updates (trace (snd (jinjify st data s0))) =
       batch_updates (trace s0) ++ new
     /\ (fst (jinjify st data s0) = Ok tt ->
         exists before,
           trace (snd (jinjify st data s0)) =
           before ++ [jinjify_report (applied new)])).
Proof.
  intros Hbuild Hfetch Hnonempty Hprint Hrun.
  split; [|exact jinjify_reports_applied].
  exact (jinjify_whole_run slides sent w' s s1 s2
           Hbuild Hfetch Hnonempty Hprint Hrun).
Qed.

End Jinjify.

(** A deck of three slides: a templated box and a plain one, no box at
    all, and another templated box.  On a service that answers, the
    first and the third slide get a batch of one request each and the
    total is 2.  On a service that is down, the same two batches are
    sent and refused, each refusal is reported, and the total is 0. *)
Lemma jinjify_batches_witness :
  let first := Reference.mk_slide (py "s1")
                 [Reference.TextBox (py "a") (py "{{x}}");
                  Reference.TextBox (py "b") (py "plain")] in
  let second := Reference.mk_slide (py "s2") [] in
  let third := Reference.mk_slide (py "s3")
                 [Reference.TextBox (py "c") (py "Hi {{x}}")] in
  let d := [first; second; third] in
  let data := [(py "x", CJson (JStr (py "1")))] in
  let bodies :=
    [(py "deck-1",
      requests_body [replace_all_text_request (py "{{x}}") (py "1")
                       (JStr (py "s1"))]);
     (py "deck-1",
      requests_body [replace_all_text_request (py "Hi {{x}}") (py "Hi 1")
                       (JStr (py "s3"))])] in
  let up := Reference.mk_ref_world d [] 0 0 (2026, 11, 4)%Z false in
  let down := Reference.mk_ref_world d [] 0 0 (2026, 11, 4)%Z true in
  (exists s',
     jinjify (Reference.config false) data (Reference.start up) = (Ok tt, s')
     /\ Reference.deck (world s') =
        [Reference.mk_slide (py "s1")
           [Reference.TextBox (py "a") (py "1");
            Reference.TextBox (py "b") (py "plain")];
         second;
         Reference.mk_slide (py "s3") [Reference.TextBox (py "c") (py "Hi 1")]]
     /\ map fst (batch_updates (trace s')) = bodies
     /\ error_lines (trace s') = []
     /\ exists before, trace s' = before ++ [jinjify_report 2])
  /\
  (exists s',
     jinjify (Reference.config false) data (Reference.start down) = (Ok tt, s')
     /\ Reference.deck (world s') = d
     /\ map fst (batch_updates (trace s')) = bodies
     /\ error_lines (trace s') =
        [failure_report 0 (py "503 Service Unavailable");
         failure_report 2 (py "503 Service Unavailable")]
     /\ exists before, trace s' = before ++ [jinjify_report 0]).
Proof.
  intros first second third d data bodies up down.
  set (slides := map Reference.slide_json d).
  set (records1 := [mk_text_record (JStr (py "a")) (JStr (py "s1")) (py "{{x}}");
                    mk_text_record (JStr (py "b")) (JStr (py "s1")) (py "plain")]).
  set (records3 := [mk_text_record (JStr (py "c")) (JStr (py "s3"))
                      (py "Hi {{x}}")]).
  set (body1 := requests_body (change_requests records1 [py "1"; py "plain"])).
  set (body3 := requests_body (change_requests records3 [py "Hi 1"])).
  assert (Hextracts1 : extracts (Reference.slide_json first) (JStr (py "s1"))
                         records1).
  { exists (map Reference.element_json (Reference.elements first)).
    split; [reflexivity|]. split; vm_compute; reflexivity. }
  assert (Hextracts2 : extracts (Reference.slide_json second) (JStr (py "s2")) []).
  { exists []. split; [reflexivity|]. split; vm_compute; reflexivity. }
  assert (Hextracts3 : extracts (Reference.slide_json third) (JStr (py "s3"))
                         records3).
  { exists (map Reference.element_json (Reference.elements third)).
    split; [reflexivity|]. split; vm_compute; reflexivity. }
  assert (Hrun : forall w0 : Reference.ref_world,
            let w1 := snd (localtime (snd (localtime w0))) in
            let sent1 := presentations_batchUpdate (py "deck-1") body1 w1 in
            let w3 := snd (localtime (snd sent1)) in
            let sent3 := presentations_batchUpdate (py "deck-1") body3 w3 in
            answered (fst sent1) -> answered (fst sent3) ->
            slides_templated (jinja_env (Reference.config false)) data
              (presentation_id (Reference.config false)) 0 slides w0
              [mk_slide_batch 0 records1 [py "1"; py "plain"] (fst sent1);
               mk_slide_batch 2 records3 [py "Hi 1"] (fst sent3)]
              (snd sent3)).
  { intros w0 w1 sent1 w3 sent3 Hanswered1 Hanswered3.
    eapply templated_batch
      with (slide_id := JStr (py "s1")) (records := records1)
           (rs := [py "1"; py "plain"]) (w1 := w1) (w2 := snd sent1).
    - exact Hextracts1.
    - apply renders_cons; [vm_compute; reflexivity|].
      apply renders_cons; [vm_compute; reflexivity|]. apply renders_nil.
    - vm_compute. discriminate.
    - apply surjective_pairing.
    - exact Hanswered1.
    - eapply templated_idle
        with (slide_id := JStr (py "s2")) (records := []) (rs := [])
             (w1 := snd sent1).
      + exact Hextracts2.
      + apply renders_nil.
      + reflexivity.
      + eapply templated_batch
          with (slide_id := JStr (py "s3")) (records := records3)
               (rs := [py "Hi 1"]) (w1 := w3) (w2 := snd sent3).
        * exact Hextracts3.
        * apply renders_cons; [vm_compute; reflexivity|]. apply renders_nil.
        * vm_compute. discriminate.
        * apply surjective_pairing.
        * exact Hanswered3.
        * apply templated_none. }
  split.
  - pose proof (Hrun up) as Htemplated. cbv zeta in Htemplated.
    specialize (Htemplated ltac:(vm_compute; exact I) ltac:(vm_compute; exact I)).
    set (fetched := mk_state up
                      [CallGet (py "deck-1")
                         (Ok (Reference.presentation_json (py "deck-1") d))]).
    assert (Hbuild : build (py "slides") (world (Reference.start up)) = true)
      by reflexivity.
    assert (Hfetch : get_presentation_slides
                       (presentation_id (Reference.config false))
                       (verbose (Reference.config false)) (Reference.start up)
                     = (Ok (JList slides), fetched)) by reflexivity.
    assert (Hprint : print_slide_details_if_verbose (JList slides)
                       (verbose (Reference.config false)) fetched
                     = (Ok tt, fetched)) by reflexivity.
    destruct (jinjify_batches (Reference.config false) data slides _ _
                (Reference.start up) fetched fetched
                Hbuild Hfetch ltac:(discriminate) Hprint Htemplated)
      as [(s' & Hcommand & Hworld & Hbatches & Hlines & before & Hreport) _].
    exists s'. split; [exact Hcommand|].
    split; [rewrite Hworld; vm_compute; reflexivity|].
    split; [rewrite Hbatches; vm_compute; reflexivity|].
    split; [rewrite Hlines; vm_compute; reflexivity|].
    exists before. rewrite Hreport. reflexivity.
  - pose proof (Hrun down) as Htemplated. cbv zeta in Htemplated.
    specialize (Htemplated ltac:(vm_compute; exact I) ltac:(vm_compute; exact I)).
    set (fetched := mk_state down
                      [CallGet (py "deck-1")
                         (Ok (Reference.presentation_json (py "deck-1") d))]).
    assert (Hbuild : build (py "slides") (world (Reference.start down)) = true)
      by reflexivity.
    assert (Hfetch : get_presentation_slides
                       (presentation_id (Reference.config false))
                       (verbose (Reference.config false)) (Reference.start down)
                     = (Ok (JList slides), fetched)) by reflexivity.
    assert (Hprint : print_slide_details_if_verbose (JList slides)
                       (verbose (Reference.config false)) fetched
                     = (Ok tt, fetched)) by reflexivity.
    destruct (jinjify_batches (Reference.config false) data slides _ _
                (Reference.start down) fetched fetched
                Hbuild Hfetch ltac:(discriminate) Hprint Htemplated)
      as [(s' & Hcommand & Hworld & Hbatches & Hlines & before & Hreport) _].
    exists s'. split; [exact Hcommand|].
    split; [rewrite Hworld; vm_compute; reflexivity|].
    split; [rewrite Hbatches; vm_compute; reflexivity|].
    split; [rewrite Hlines; vm_compute; reflexivity|].
    exists before. rewrite Hreport. reflexivity.
Defined.

(** The claim as worded fails when a batch update fails.  The service
    is down: the one changed record of the deck goes out in a batch
    update that raises [HttpError]; the error is reported, the command
    ends normally, and the total it reports is 0, not 1. *)
Lemma jinjify_total_misses_failed_batch :
  let sl := Reference.mk_slide (py "s1") [Reference.TextBox (py "a") (py "{{x}}")] in
  let w := Reference.mk_ref_world [sl] [] 0 0 (2026, 11, 4)%Z true in
  let data := [(py "x", CJson (JStr (py "1")))] in
  let record := mk_text_record (JStr (py "a")) (JStr (py "s1")) (py "{{x}}") in
  let run := jinjify (Reference.config false) data (Reference.start w) in
  extracts (Reference.slide_json sl) (JStr (py "s1")) [record]
  /\ renders (jinja_env (Reference.config false)) data [record] w
       [py "1"] (snd (localtime w))
  /\ length (filter changed (combine [record] [py "1"])) = 1
  /\ fst run = Ok tt
  /\ trace (snd run) =
     [CallGet (py "deck-1") (Ok (Reference.presentation_json (py "deck-1") [sl]));
      Stdout (py "Processing slides for Jinja templating...");
      CallBatchUpdate (py "deck-1")
        (requests_body [replace_all_text_request (py "{{x}}") (py "1") (JStr (py "s1"))])
        (Raise (HttpError (py "503 Service Unavailable")));
      Stderr (py "Error updating text on slide #1: 503 Service Unavailable");
      jinjify_report 0].
Proof.
  intros sl w data record run.
  split.
  { exists [Reference.element_json (Reference.TextBox (py "a") (py "{{x}}"))].
    split; [reflexivity|]. split; vm_compute; reflexivity. }
  split.
  { apply renders_cons; [vm_compute; reflexivity | apply renders_nil]. }
  split; [reflexivity|].
  split; vm_compute; reflexivity.
Qed.

(** ** C6: running the text templating twice

    What a second run finds depends on what the service made of the
    batches of the first one.  The two runs are followed on the
    reference service, which applies the requests of a batch in order,
    each replacement to every text box of the slide it names, and with
    the reference engine. *)

Section SecondRun.
Context {W : Type} `{Services W} `{PyRepr} {Env : Type} `{Jinja Env}.
Variable st : cli_state Env.
Variable data : context.



End SecondRun.

(** *** Replacement in a padded text *)

















(** *** The template engine and whitespace *)







(** *** What is extracted from the reference deck *)






(** *** A batch of replacements on the reference deck *)









(** *** What a batch leaves in a text box *)










(** *** A run either does what the specification describes or raises *)

Section RunOrRaise.
Context {W : Type} `{Services W} `{PyRepr} {Env : Type} `{Jinja Env}.
Variable st : cli_state Env.
Variable data : context.



End RunOrRaise.

(** *** The first run on the reference deck *)







(** *** Fetching and listing the reference deck *)





(** *** The loop over the slides of the reference deck *)

Section ReferenceRun.
Variable v : bool.
Variable data : context.



End ReferenceRun.

(** *** The deck a first run leaves, and the second run *)

Section TwoRuns.
Variable data : context.




End TwoRuns.






(** ** The helpers kept in the package file

    The copies in [__init__.py] compute what the split modules
    compute. *)

Lemma init_get_slide_id_by_index_same (slides : json) (index : Z) :
  sliger_init._get_slide_id_by_index slides index =
  get_slide_id_by_index slides index.
Proof. reflexivity. Qed.

Lemma init_ordinal_same (n : Z) : sliger_init.ordinal n = ordinal n.
Proof. reflexivity. Qed.

Lemma init_strftime_with_ordinal_same
    {W : Type} `{Services W} `{TimeLib}
    (fmt : str) (t : struct_time) (s : state W) :
  strftime_with_ordinal fmt (Some t) s =
  (Ok (sliger_init.strftime_with_ordinal fmt t), s).
Proof. reflexivity. Qed.

(** On a page element that is an object, the two extractions give the
    same text, or raise the same exception. *)
Lemma init_gslides_element_to_text_same (d : dict) (page : json) :
  match gslides_element_to_text (JDict d) page,
        sliger_init.gslides_element_to_text (JDict d) page with
  | Ok record, Ok info =>
      text record = sliger_init.text info /\ sliger_init.object_id info = page
  | Raise e, Raise e' => e = e'
  | _, _ => False
  end.
Proof.
  unfold gslides_element_to_text, sliger_init.gslides_element_to_text.
  cbn [get get_default rbind].
  destruct (getitem (JDict d) (py "shape")) as [shape|e]; cbn [rbind];
    [|reflexivity].
  destruct (py_in (py "text") shape) as [[|]|e]; cbn [rbind negb];
    [|split; reflexivity|reflexivity].
  destruct (getitem shape (py "text")) as [text_field|e]; cbn [rbind];
    [|reflexivity].
  destruct (getitem text_field (py "textElements")) as [text_elements|e];
    cbn [rbind]; [|reflexivity].
  destruct (iter text_elements) as [items|e]; cbn [rbind]; [|reflexivity].
  change sliger_init.text_run_content with text_run_content.
  destruct (rmap text_run_content items) as [contents|e]; cbn [rbind];
    [|reflexivity].
  destruct (join_empty contents) as [joined|e]; cbn [rbind];
    [split; reflexivity | reflexivity].
Qed.

(** The request built from the older change dictionary, with its keys
    [text] and [object_id], is the same request. *)
Lemma init_text_update_request_same (original rendered : str) (page : json) :
  sliger_init.text_update_to_gslides_request
    [(py "object_id", page); (py "text", JStr original);
     (py "rendered_text", JStr rendered)]
  = Ok (replace_all_text_request original rendered page).
Proof. reflexivity. Qed.

(* ================================================================== *)
(** * More of the package *)
(* ================================================================== *)

(** ** The filter of text boxes *)

Lemma is_text_box_readable (el : json) :
  shape_readable el = true -> is_text_box el = Ok (is_box el).
Proof.
  unfold shape_readable, is_text_box, is_box, get, get_default, getitem,
    get_or_none.
  destruct el as [| | | | | |e]; try discriminate. cbn [rbind].
  destruct (lookup (py "shape") e) as [shape|]; cbn [rbind truthy];
    [|reflexivity].
  destruct shape as [|b|z|m x|t|l|sh]; cbn [truthy negb rbind];
    try reflexivity.
  - destruct b; [discriminate | reflexivity].
  - destruct (z =? 0)%Z; [reflexivity | discriminate].
  - destruct (m =? 0)%Z; [reflexivity | discriminate].
  - destruct t; [reflexivity | discriminate].
  - destruct l; [reflexivity | discriminate].
  - destruct sh; reflexivity.
Qed.

Lemma is_text_box_unreadable (el : json) :
  shape_readable el = false -> is_text_box el = Raise AttributeError.
Proof.
  unfold shape_readable, is_text_box, get, get_default, getitem.
  destruct el as [| | | | | |e]; try reflexivity. cbn [rbind].
  destruct (lookup (py "shape") e) as [shape|]; [|discriminate].
  cbn [rbind].
  destruct shape as [|b|z|m x|t|l|sh]; cbn [truthy negb rbind];
    try discriminate.
  - destruct b; [reflexivity | discriminate].
  - destruct (z =? 0)%Z; [discriminate | reflexivity].
  - destruct (m =? 0)%Z; [discriminate | reflexivity].
  - destruct t; [discriminate | reflexivity].
  - destruct l; [discriminate | reflexivity].
Qed.

Lemma rfilter_text_boxes (els : list json) :
  rfilter is_text_box els =
  if forallb shape_readable els then Ok (filter is_box els)
  else Raise AttributeError.
Proof.
  induction els as [|el rest IH]; [reflexivity|].
  cbn [rfilter forallb filter].
  destruct (shape_readable el) eqn:Hel; cbn [andb].
  - rewrite (is_text_box_readable el Hel). cbn [rbind]. rewrite IH.
    destruct (forallb shape_readable rest); reflexivity.
  - rewrite (is_text_box_unreadable el Hel). reflexivity.
Qed.

(** X1.  On a slide whose [pageElements] is a list, or is missing (read
    as the empty list), [get_text_elements_from_slide] returns the text
    boxes among the elements, in the order of the deck, when every
    element can be examined; an element that is not an object, or whose
    shape is a true value other than an object, makes it raise
    [AttributeError]. *)
Theorem get_text_elements_keeps_text_boxes (d : dict) (els : list json) :
  get_default (JDict d) (py "pageElements") (JList []) = Ok (JList els) ->
  get_text_elements_from_slide (JDict d) =
  if forallb shape_readable els then Ok (filter is_box els)
  else Raise AttributeError.
Proof.
  intros Hels. unfold get_text_elements_from_slide. rewrite Hels.
  cbn [rbind iter]. apply rfilter_text_boxes.
Qed.

(** A slide with an element without shape, a text box, a picture shape
    and an empty shape: the text box is kept.  A slide without
    [pageElements]: nothing. *)
Lemma get_text_elements_keeps_text_boxes_witness :
  let box := JDict [(py "objectId", JStr (py "b"));
                    (py "shape", JDict [(py "shapeType", JStr (py "TEXT_BOX"))])] in
  let els := [JDict [(py "shape", JNull)]; box;
              JDict [(py "shape", JDict [(py "shapeType", JStr (py "IMAGE"))])];
              JDict [(py "shape", JDict [])]] in
  get_text_elements_from_slide
    (JDict [(py "objectId", JStr (py "s1")); (py "pageElements", JList els)])
  = Ok [box]
  /\ get_text_elements_from_slide (JDict [(py "objectId", JStr (py "s1"))]) = Ok [].
Proof.
  intros box els. split.
  - rewrite (get_text_elements_keeps_text_boxes
               [(py "objectId", JStr (py "s1")); (py "pageElements", JList els)] els);
      reflexivity.
  - rewrite (get_text_elements_keeps_text_boxes
               [(py "objectId", JStr (py "s1"))] []); reflexivity.
Defined.

(** ** The records of a slide *)

Lemma rmap_text_run_content_all (tes : list json) (contents : list str) :
  all_contents tes = Some contents ->
  rmap text_run_content tes = Ok (map JStr contents).
Proof.
  intros Hall. apply rmap_text_run_content.
  revert contents Hall. induction tes as [|te rest IH]; intros contents Hall.
  - injection Hall as <-. reflexivity.
  - cbn [all_contents] in Hall.
    destruct (content_of te) as [c|] eqn:Hc; [|discriminate].
    destruct (all_contents rest) as [cs|]; [|discriminate].
    injection Hall as <-. cbn [map]. rewrite Hc, (IH cs eq_refl). reflexivity.
Qed.

Lemma gslides_element_to_text_record_of (page el : json) (record : TextRecord) :
  record_of page el = Some record ->
  gslides_element_to_text el page = Ok record.
Proof.
  unfold record_of, gslides_element_to_text, get, get_default, getitem, py_in,
    get_or_none.
  destruct el as [| | | | | |e]; try discriminate. cbn [rbind].
  destruct (lookup (py "shape") e) as [[| | | | | |sh]|]; try discriminate.
  cbn [rbind].
  destruct (lookup (py "text") sh) as [text_field|]; cbn [rbind negb].
  - destruct text_field as [| | | | | |tf]; try discriminate.
    destruct (lookup (py "textElements") tf) as [[| | | | |tes|]|];
      try discriminate.
    destruct (all_contents tes) as [contents|] eqn:Hall; [|discriminate].
    intros [= <-]. cbn [rbind iter].
    rewrite (rmap_text_run_content_all tes contents Hall). cbn [rbind].
    rewrite join_empty_strings. reflexivity.
  - intros [= <-]. reflexivity.
Qed.

Lemma rmap_record_of (page : json) (els : list json) (records : list TextRecord) :
  map (record_of page) els = map Some records ->
  rmap (fun el => gslides_element_to_text el page) els = Ok records.
Proof.
  revert records. induction els as [|el rest IH]; intros [|record records] Hmap;
    try discriminate; [reflexivity|].
  cbn [map] in Hmap. injection Hmap as Hel Hrest.
  cbn [rmap]. rewrite (gslides_element_to_text_record_of page el record Hel).
  cbn [rbind]. rewrite (IH records Hrest). reflexivity.
Qed.

(** X2.  What the commands extract from a slide.  On a slide object
    whose elements can be examined and whose text boxes carry text of
    the documented shape, the filter followed by the conversion gives
    one record per text box, in the order of the deck, each with the
    identifier of its box, the identifier of the slide, and the stripped
    text of its runs. *)
Theorem slide_text_records (d : dict) (els : list json) (page : json)
    (records : list TextRecord) :
  get_default (JDict d) (py "pageElements") (JList []) = Ok (JList els) ->
  forallb shape_readable els = true ->
  map (record_of page) (filter is_box els) = map Some records ->
  rbind (get_text_elements_from_slide (JDict d))
        (rmap (fun el => gslides_element_to_text el page)) = Ok records
  /\ length records = length (filter is_box els)
  /\ Forall (fun record => page_object_id record = page
                           /\ text record = strip (text record)) records.
Proof.
  intros Hels Hreadable Hrecords.
  assert (Hrun : rbind (get_text_elements_from_slide (JDict d))
                       (rmap (fun el => gslides_element_to_text el page))
                 = Ok records).
  { unfold get_text_elements_from_slide. rewrite Hels. cbn [rbind iter].
    rewrite rfilter_text_boxes, Hreadable. cbn [rbind].
    apply rmap_record_of. exact Hrecords. }
  split; [exact Hrun|]. split.
  - rewrite <- (length_map Some records), <- Hrecords, length_map. reflexivity.
  - clear Hrun. revert records Hrecords.
    induction (filter is_box els) as [|el rest IH]; intros [|record records] Hmap;
      try discriminate; constructor.
    + cbn [map] in Hmap. injection Hmap as Hel _.
      unfold record_of in Hel.
      destruct el as [| | | | | |e]; try discriminate.
      destruct (lookup (py "shape") e) as [[| | | | | |sh]|]; try discriminate.
      destruct (lookup (py "text") sh) as [[| | | | | |tf]|]; try discriminate.
      * destruct (lookup (py "textElements") tf) as [[| | | | |tes|]|];
          try discriminate.
        destruct (all_contents tes); [|discriminate].
        injection Hel as <-. cbn [page_object_id text]. split; [reflexivity|].
        symmetry. apply strip_idempotent.
      * injection Hel as <-. split; reflexivity.
    + cbn [map] in Hmap. injection Hmap as _ Hrest. exact (IH records Hrest).
Qed.

(** A slide with a picture between two text boxes, one of them
    empty. *)
Lemma slide_text_records_witness :
  let d := [Reference.TextBox (py "a") (py "  Hello ");
            Reference.Picture (py "p") (py "u");
            Reference.TextBox (py "b") []] in
  let sl := Reference.slide_json (Reference.mk_slide (py "s1") d) in
  rbind (get_text_elements_from_slide sl)
        (rmap (fun el => gslides_element_to_text el (JStr (py "s1"))))
  = Ok [mk_text_record (JStr (py "a")) (JStr (py "s1")) (py "Hello");
        mk_text_record (JStr (py "b")) (JStr (py "s1")) []].
Proof.
  intros d sl.
  destruct (slide_text_records
              [(py "objectId", JStr (py "s1"));
               (py "pageElements", JList (map Reference.element_json d))]
              (map Reference.element_json d) (JStr (py "s1"))
              [mk_text_record (JStr (py "a")) (JStr (py "s1")) (py "Hello");
               mk_text_record (JStr (py "b")) (JStr (py "s1")) []]
              eq_refl eq_refl eq_refl) as [Hrun _].
  exact Hrun.
Defined.

(** ** The ordinal of any integer *)

Lemma tens_digit_one (n : Z) :
  (n / 10 mod 10 =? 1)%Z = ((10 <=? n mod 100) && (n mod 100 <=? 19))%Z.
Proof.
  pose proof (Z.mod_pos_bound n 10 ltac:(lia)) as Hunits.
  pose proof (Z.mod_pos_bound (n / 10) 10 ltac:(lia)) as Htens.
  assert (Hsplit : (n mod 100 = n mod 10 + 10 * (n / 10 mod 10))%Z).
  { change 100%Z with (10 * 10)%Z. apply Z.rem_mul_r; lia. }
  destruct (n / 10 mod 10 =? 1)%Z eqn:Hone.
  - apply Z.eqb_eq in Hone. symmetry. apply andb_true_intro.
    split; [apply Z.leb_le | apply Z.leb_le]; lia.
  - apply Z.eqb_neq in Hone. symmetry. apply andb_false_iff.
    destruct (Z_lt_le_dec (n / 10 mod 10) 1).
    + left. apply Z.leb_gt. lia.
    + right. apply Z.leb_gt. lia.
Qed.

(** X3.  For every integer, [ordinal] writes the number in decimal
    followed by [th] when its last two digits lie between 10 and 19, and
    otherwise by [st], [nd], [rd] for a last digit 1, 2, 3 and [th] for
    the others: 101st, 111th, 112th, 122nd.  The digits are those of the
    floored remainder, so below zero -1 reads [-1th] and -9 reads
    [-9st]. *)
Theorem ordinal_every_integer (n : Z) :
  ordinal n = format_d n ++ suffix_by_hundred n.
Proof.
  rewrite ordinal_by_digits. unfold suffix_by_digits, suffix_by_hundred.
  rewrite tens_digit_one. reflexivity.
Qed.

(** ** A format without ordinal *)

Lemma replace_percent_O_absent (new fmt : str) :
  contains (py "%O") fmt = false -> replace_percent_O new fmt = fmt.
Proof.
  induction fmt as [|c r IH]; [reflexivity|].
  cbn [contains]. intros Habsent.
  apply orb_false_iff in Habsent. destruct Habsent as [Hhere Hrest].
  destruct r as [|c' r']; [reflexivity|].
  rewrite replace_percent_O_step, (IH Hrest).
  destruct ((c =? 37)%N && (c' =? 79)%N) eqn:Hmatch; [|reflexivity].
  apply andb_true_iff in Hmatch. destruct Hmatch as [Hc Hc'].
  apply N.eqb_eq in Hc. apply N.eqb_eq in Hc'. subst.
  discriminate Hhere.
Qed.

(** X4.  A format that holds no [%O] goes to [time.strftime] as it is.
    With a time given, nothing else happens; without one, the helper
    takes one reading of the clock and formats that. *)
Theorem strftime_without_ordinal
    {W : Type} `{Services W} `{TimeLib}
    (fmt : str) (t : struct_time) (s : state W) :
  contains (py "%O") fmt = false ->
  strftime_with_ordinal fmt (Some t) s = (Ok (time_strftime fmt t), s)
  /\ strftime_with_ordinal fmt None s =
     (Ok (time_strftime fmt (fst (localtime (world s)))),
      mk_state (snd (localtime (world s))) (trace s)).
Proof.
  intros Habsent. unfold strftime_with_ordinal, bind, ret, time_localtime.
  split.
  - rewrite replace_percent_O_correct, replace_percent_O_absent by exact Habsent.
    reflexivity.
  - destruct (localtime (world s)) as [now w']. cbn [fst snd].
    rewrite replace_percent_O_correct, replace_percent_O_absent by exact Habsent.
    reflexivity.
Qed.

(** The format [%d.%m.%Y], with a time given and with the clock of the
    reference world. *)
Lemma strftime_without_ordinal_witness :
  let w := Reference.mk_ref_world [] [] 0 7 (2026, 11, 4)%Z false in
  let t := mk_time 2025 1 2 3 4 5 6 7 0 in
  strftime_with_ordinal (py "%d.%m.%Y") (Some t) (Reference.start w)
    = (Ok (py "02.01.2025"), Reference.start w)
  /\ strftime_with_ordinal (py "%d.%m.%Y") None (Reference.start w)
    = (Ok (py "04.11.2026"), mk_state (snd (localtime w)) []).
Proof.
  intros w t.
  destruct (strftime_without_ordinal (py "%d.%m.%Y") t (Reference.start w) eq_refl)
    as [Hgiven Hclock].
  split; [rewrite Hgiven | rewrite Hclock]; reflexivity.
Defined.

(** ** Placeholder texts *)

(** Stripping takes away the padding around a text that neither starts
    nor ends with whitespace. *)
Lemma strip_padding (ws1 core ws2 : str) :
  forallb isspace ws1 = true -> forallb isspace ws2 = true ->
  starts_clean core -> starts_clean (rev core) ->
  strip (ws1 ++ core ++ ws2) = core.
Proof.
  intros Hws1 Hws2 Hfirst Hlast. unfold strip.
  rewrite lstrip_app_spaces by exact Hws1.
  destruct core as [|c r].
  - cbn [app]. replace ws2 with (ws2 ++ []) by apply app_nil_r.
    rewrite lstrip_app_spaces by exact Hws2. reflexivity.
  - rewrite (lstrip_fixed ((c :: r) ++ ws2)) by exact Hfirst.
    rewrite rstrip_app_spaces by exact Hws2.
    unfold rstrip. rewrite (lstrip_fixed _ Hlast). apply rev_involutive.
Qed.

Lemma fullmatch_placeholder_text (path : str) :
  fullmatch_image (placeholder_text path) =
  if existsb (N.eqb 10) path then None else Some path.
Proof.
  destruct (existsb (N.eqb 10) path) eqn:Hlf.
  - destruct (fullmatch_image (placeholder_text path)) as [group|] eqn:Hmatch;
      [|reflexivity].
    apply fullmatch_image_spec in Hmatch. destruct Hmatch as [Heq Hfree].
    unfold placeholder_text in Heq.
    apply app_inv_head in Heq. apply app_inv_tail in Heq. subst group.
    exfalso. apply Hfree.
    apply existsb_exists in Hlf. destruct Hlf as (x & Hin & Hx).
    apply N.eqb_eq in Hx. subst x. exact Hin.
  - apply fullmatch_image_spec. split; [reflexivity|].
    intros Hin.
    assert (Hex : existsb (N.eqb 10) path = true).
    { apply existsb_exists. exists 10%N. split; [exact Hin | reflexivity]. }
    congruence.
Qed.

(** X5.  Writing a placeholder and reading it back.  For every path,
    the text [![image](path)], with any whitespace before and after it,
    is matched by [imagify] with the path as its group when the path has
    no line feed, and is not matched when it has one. *)
Theorem image_match_round_trip (ws1 ws2 path : str) :
  forallb isspace ws1 = true -> forallb isspace ws2 = true ->
  image_match (ws1 ++ placeholder_text path ++ ws2) =
  if existsb (N.eqb 10) path then None else Some path.
Proof.
  intros Hws1 Hws2. unfold image_match.
  rewrite strip_padding; try assumption.
  - apply fullmatch_placeholder_text.
  - reflexivity.
  - unfold placeholder_text. rewrite !rev_app_distr. reflexivity.
Qed.

(** A path with parentheses and spaces inside, padded with a tab and a
    line feed; and a path broken by a line feed. *)
Lemma image_match_round_trip_witness :
  image_match ([9%N] ++ placeholder_text (py "my pics/(1) a.png") ++ [32%N; 10%N])
    = Some (py "my pics/(1) a.png")
  /\ image_match ([] ++ placeholder_text (py "a" ++ [10%N] ++ py "b") ++ []) = None.
Proof.
  split.
  - exact (image_match_round_trip [9%N] [32%N; 10%N] (py "my pics/(1) a.png")
             eq_refl eq_refl).
  - exact (image_match_round_trip [] [] (py "a" ++ [10%N] ++ py "b")
             eq_refl eq_refl).
Defined.

(** ** Fetching the deck *)

Section Fetching.
Context {W : Type} `{Services W} `{PyRepr}.

(** X6.  [get_presentation_slides] never lets an [HttpError] out.  When
    the service raises one, the function writes it on the error stream
    and returns [None]; nothing else is done. *)
Theorem get_presentation_slides_no_http_error
    (pid : str) (verbose : bool) (s : state W) :
  (forall msg, fst (get_presentation_slides pid verbose s) <> Raise (HttpError msg))
  /\ (forall msg w',
        presentations_get pid (world s) = (Raise (HttpError msg), w') ->
        get_presentation_slides pid verbose s =
        (Ok JNull,
         mk_state w' (trace s ++ [CallGet pid (Raise (HttpError msg))]
                      ++ [Stderr msg]))).
Proof.
  unfold get_presentation_slides, try_http, bind, call, lift, when, emit, ret.
  destruct (presentations_get pid (world s)) as [[presentation|e] w'] eqn:Hget.
  - split; [|intros msg w0 [=]].
    intros msg.
    destruct (get presentation (py "slides")) as [slides|e] eqn:Hslides;
      cbn [fst].
    + destruct verbose; [|discriminate].
      destruct (len slides) as [n|e] eqn:Hlen; cbn [fst]; [discriminate|].
      unfold len in Hlen.
      destruct slides; try discriminate; injection Hlen as <-; cbn; discriminate.
    + unfold get, get_default in Hslides.
      destruct presentation; try discriminate; injection Hslides as <-;
        cbn; discriminate.
  - split.
    + intros msg. destruct e; cbn [fst]; discriminate.
    + intros msg w0 [= -> <-]. cbn [world trace].
      rewrite <- app_assoc. reflexivity.
Qed.

(** X7.  What [get_presentation_slides] makes of a presentation without
    [slides] entry depends on [verbose]: without it the function returns
    [None]; with it, the count for the message is taken of [None] and
    the function raises [TypeError]. *)
Theorem get_presentation_slides_without_slides
    (pid : str) (presentation : dict) (w' : W) (s : state W) :
  presentations_get pid (world s) = (Ok (JDict presentation), w') ->
  lookup (py "slides") presentation = None ->
  let s' := mk_state w' (trace s ++ [CallGet pid (Ok (JDict presentation))]) in
  get_presentation_slides pid false s = (Ok JNull, s')
  /\ get_presentation_slides pid true s = (Raise TypeError, s').
Proof.
  intros Hget Hslides s'.
  unfold get_presentation_slides, try_http, bind, call, lift, when, emit, ret,
    get, get_default.
  rewrite Hget, Hslides. split; reflexivity.
Qed.

End Fetching.

(** A deck without slides, fetched without and with [verbose]; and a
    service that refuses the fetch. *)
Lemma get_presentation_slides_without_slides_witness :
  let w := Reference.mk_ref_world [] [] 0 0 (2026, 11, 4)%Z false in
  let s' := mk_state w [CallGet (py "deck-1")
                          (Ok (JDict [(py "presentationId", JStr (py "deck-1"))]))] in
  get_presentation_slides (py "deck-1") false (Reference.start w) = (Ok JNull, s')
  /\ get_presentation_slides (py "deck-1") true (Reference.start w)
     = (Raise TypeError, s').
Proof.
  intros w s'.
  exact (get_presentation_slides_without_slides (py "deck-1")
           [(py "presentationId", JStr (py "deck-1"))] w (Reference.start w)
           eq_refl eq_refl).
Defined.

Lemma get_presentation_slides_no_http_error_witness :
  let w := Reference.mk_ref_world [] [] 0 0 (2026, 11, 4)%Z false in
  @get_presentation_slides _ (Reference.faulty (Reference.mk_faults true false false))
    (py "deck-1") true (Reference.start w) =
  (Ok JNull,
   mk_state w ([CallGet (py "deck-1") Reference.refused]
               ++ [Stderr (py "403 Forbidden")])).
Proof.
  intros w.
  destruct (@get_presentation_slides_no_http_error _
              (Reference.faulty (Reference.mk_faults true false false))
              (py "deck-1") true (Reference.start w)) as [_ Hfail].
  exact (Hfail (py "403 Forbidden") w eq_refl).
Defined.

(** ** Uploading a picture *)

Section Uploading.
Context {W : Type} `{Services W} `{PyRepr}.

(** X8.  [upload_image_to_drive] never lets an [HttpError] out.  When
    the creation of the file is refused it reports the error, returns
    [None] and asks for no permission.  When the file is created and the
    permission is refused it returns [None] as well, the file staying
    where it was put.  Only when both calls return does it give back the
    identifier of the file. *)
Theorem upload_image_to_drive_outcome
    (image_path : str) (verbose : bool) (s : state W) :
  (forall msg,
     fst (upload_image_to_drive image_path verbose s) <> Raise (HttpError msg))
  /\ (forall msg w1,
        files_create (upload_metadata image_path) image_path (world s)
          = (Raise (HttpError msg), w1) ->
        upload_image_to_drive image_path verbose s =
        (Ok JNull,
         mk_state w1
           (trace s
            ++ [CallFilesCreate (upload_metadata image_path) image_path
                  (Raise (HttpError msg))]
            ++ [upload_failure_message msg])))
  /\ (forall file w1 outcome w2,
        files_create (upload_metadata image_path) image_path (world s)
          = (Ok (JDict file), w1) ->
        permissions_create (get_or_none (py "id") file) reader_permission w1
          = (outcome, w2) ->
        world (snd (upload_image_to_drive image_path verbose s)) = w2
        /\ permission_calls (trace (snd (upload_image_to_drive image_path verbose s)))
           = permission_calls (trace s)
             ++ [(get_or_none (py "id") file, reader_permission, outcome)]
        /\ fst (upload_image_to_drive image_path verbose s) =
           match outcome with
           | Ok _ => Ok (get_or_none (py "id") file)
           | Raise (HttpError _) => Ok JNull
           | Raise e => Raise e
           end).
Proof.
  unfold upload_image_to_drive.
  fold (upload_metadata image_path). fold reader_permission.
  unfold try_http, bind, call, lift, when, emit, ret, get, get_default.
  split; [|split].
  - intros msg.
    destruct (files_create (upload_metadata image_path) image_path (world s))
      as [[img_file|e] w1]; [|destruct e; cbn [fst]; discriminate].
    destruct img_file as [| | | | | |file]; cbn [fst]; try discriminate.
    destruct verbose;
      cbn [world trace];
      match goal with
      | |- context [permissions_create ?id ?body ?w] =>
          destruct (permissions_create id body w) as [[response|e] w2]
      end; cbn [fst]; try discriminate;
      destruct e; cbn [fst]; discriminate.
  - intros msg w1 Hcreate. rewrite Hcreate. cbn [world trace].
    unfold upload_failure_message. rewrite <- app_assoc. reflexivity.
  - intros file w1 outcome w2 Hcreate Hgrant. rewrite Hcreate.
    unfold get_or_none in *.
    destruct verbose; cbn [world trace]; rewrite Hgrant;
      destruct outcome as [response|e]; try destruct e;
      cbn [fst snd world trace];
      (split; [reflexivity|]); (split; [|reflexivity]);
      unfold permission_calls;
      repeat rewrite flat_map_app; cbn [flat_map app];
      repeat rewrite app_nil_r; reflexivity.
Qed.

End Uploading.

(** An upload on a Drive that refuses the creation, and one on a Drive
    that refuses the permission. *)
Lemma upload_image_to_drive_outcome_witness :
  let w := Reference.mk_ref_world [] [py "foo.jpg"] 0 0 (2026, 11, 4)%Z false in
  let no_upload := Reference.faulty (Reference.mk_faults false true false) in
  let no_grant := Reference.faulty (Reference.mk_faults false false true) in
  @upload_image_to_drive _ no_upload _ (py "foo.jpg") false (Reference.start w) =
    (Ok JNull,
     mk_state w ([CallFilesCreate (upload_metadata (py "foo.jpg")) (py "foo.jpg")
                    Reference.refused]
                 ++ [upload_failure_message (py "403 Forbidden")]))
  /\ fst (@upload_image_to_drive _ no_grant _ (py "foo.jpg") false (Reference.start w))
     = Ok JNull
  /\ Reference.drive_files
       (world (snd (@upload_image_to_drive _ no_grant _ (py "foo.jpg") false
                      (Reference.start w)))) = 1%Z.
Proof.
  intros w no_upload no_grant. split; [|split].
  - destruct (@upload_image_to_drive_outcome _ no_upload _ (py "foo.jpg") false
                (Reference.start w)) as (_ & Hcreate & _).
    exact (Hcreate (py "403 Forbidden") w eq_refl).
  - destruct (@upload_image_to_drive_outcome _ no_grant _ (py "foo.jpg") false
                (Reference.start w)) as (_ & _ & Hgrant).
    destruct (Hgrant [(py "id", JStr (py "file_0"))]
                (Reference.mk_ref_world [] [py "foo.jpg"] 1 0 (2026, 11, 4)%Z false)
                Reference.refused
                (Reference.mk_ref_world [] [py "foo.jpg"] 1 0 (2026, 11, 4)%Z false)
                eq_refl eq_refl) as (_ & _ & Hresult).
    exact Hresult.
  - reflexivity.
Defined.

(** ** Replacing a placeholder *)

Section Replacing.
Context {W : Type} `{Services W} `{PyRepr} {Env : Type}.
Variable st : cli_state Env.

Lemma upload_create_refused (image_path : str) (verbose : bool) (s : state W)
    (msg : str) (w1 : W) :
  files_create (upload_metadata image_path) image_path (world s)
    = (Raise (HttpError msg), w1) ->
  upload_image_to_drive image_path verbose s =
  (Ok JNull,
   mk_state w1
     ((trace s ++ [CallFilesCreate (upload_metadata image_path) image_path
                     (Raise (HttpError msg))])
      ++ [upload_failure_message msg])).
Proof.
  intros Hcreate. unfold upload_image_to_drive.
  fold (upload_metadata image_path).
  unfold try_http. unfold bind at 1. unfold call at 1. rewrite Hcreate.
  reflexivity.
Qed.

Lemma echoes_state (v : bool) (msgs : list str) (s : state W) :
  exists evs,
    when v (fold_right (fun msg rest => bind (echo msg) (fun _ => rest))
              (ret tt) msgs) s
      = (Ok tt, mk_state (world s) (trace s ++ evs))
    /\ batch_updates evs = [].
Proof.
  unfold when. destruct v.
  - revert s. induction msgs as [|msg rest IH]; intros s; cbn [fold_right].
    + exists []. rewrite app_nil_r. destruct s. split; reflexivity.
    + unfold bind at 1. unfold echo at 1, emit at 1.
      destruct (IH (mk_state (world s) (trace s ++ [Stdout msg])))
        as (evs & Hrun & Hquiet).
      exists (Stdout msg :: evs). rewrite Hrun. cbn [world trace].
      rewrite <- app_assoc. split; [reflexivity | exact Hquiet].
  - exists []. rewrite app_nil_r. destruct s. split; reflexivity.
Qed.

(** X9.  The file of a placeholder exists and the Drive refuses its
    creation: [imagify] reports the failure twice on the error stream,
    once from the upload and once for the skipped replacement, leaves the
    count alone, sends no batch update, and goes on. *)
Theorem imagify_upload_refused
    (i : Z) (slide_id el shape_id : json) (rendered image_path : str)
    (total : Z) (s : state W) (msg : str) (w1 : W) :
  path_exists image_path (world s) = true ->
  files_create (upload_metadata image_path) image_path (world s)
    = (Raise (HttpError msg), w1) ->
  let run := replace_with_image st i slide_id el shape_id rendered image_path
               total s in
  fst run = Ok total
  /\ world (snd run) = w1
  /\ batch_updates (trace (snd run)) = batch_updates (trace s)
  /\ exists before,
       trace (snd run) =
       before ++ [upload_failure_message msg; upload_skipped_message image_path].
Proof.
  intros Hexists Hcreate run.
  assert (Hrun : exists evs,
             run = (Ok total,
                    mk_state w1
                      ((((trace s ++ evs)
                         ++ [CallFilesCreate (upload_metadata image_path) image_path
                               (Raise (HttpError msg))])
                        ++ [upload_failure_message msg])
                       ++ [upload_skipped_message image_path]))
             /\ batch_updates evs = []).
  { subst run. unfold replace_with_image.
    unfold bind at 1. unfold pathlib_exists at 1. rewrite Hexists. cbn [negb].
    unfold bind at 1.
    destruct (echoes_state (verbose st)
                [py "  Found image placeholder: '" ++ rendered
                 ++ py "' on slide #" ++ format_d (i + 1) ++ py ". Path: '"
                 ++ image_path ++ py "'";
                 py "  Uploading image '" ++ image_path
                 ++ py "' to Google Drive..."] s) as (evs & Hecho & Hquiet).
    exists evs. split; [|exact Hquiet].
    match goal with
    | |- context [when (verbose st) ?m s] =>
        replace (when (verbose st) m s)
          with (@Ok unit tt, mk_state (world s) (trace s ++ evs))
          by (rewrite <- Hecho; unfold when; destruct (verbose st); reflexivity)
    end.
    unfold bind at 1.
    rewrite (upload_create_refused image_path (verbose st)
               (mk_state (world s) (trace s ++ evs)) msg w1 Hcreate).
    cbn [truthy negb]. unfold bind, echo_err, emit, ret. reflexivity. }
  destruct Hrun as (evs & -> & Hquiet). cbn [fst snd world trace].
  split; [reflexivity|]. split; [reflexivity|]. split.
  - repeat rewrite batch_updates_app. rewrite Hquiet. cbn [batch_updates flat_map app].
    unfold upload_failure_message, upload_skipped_message.
    cbn [batch_updates flat_map app]. repeat rewrite app_nil_r. reflexivity.
  - exists ((trace s ++ evs)
            ++ [CallFilesCreate (upload_metadata image_path) image_path
                  (Raise (HttpError msg))]).
    rewrite <- (app_assoc _ [upload_failure_message msg]). reflexivity.
Qed.

Lemma upload_granted (image_path : str) (verbose : bool) (s : state W)
    (file : dict) (w1 : W) (granted : json) (w2 : W) :
  files_create (upload_metadata image_path) image_path (world s)
    = (Ok (JDict file), w1) ->
  permissions_create (get_or_none (py "id") file) reader_permission w1
    = (Ok granted, w2) ->
  exists evs,
    upload_image_to_drive image_path verbose s =
      (Ok (get_or_none (py "id") file), mk_state w2 (trace s ++ evs))
    /\ batch_updates evs = [].
Proof.
  intros Hcreate Hgrant.
  exists (if verbose
          then [CallFilesCreate (upload_metadata image_path) image_path
                  (Ok (JDict file));
                Stdout (py "Uploaded image '" ++ image_path
                        ++ py "' to Drive with ID: "
                        ++ py_str (get_or_none (py "id") file));
                CallPermissionsCreate (get_or_none (py "id") file)
                  reader_permission (Ok granted);
                Stdout (py "Made image ID "
                        ++ py_str (get_or_none (py "id") file)
                        ++ py " publicly readable.")]
          else [CallFilesCreate (upload_metadata image_path) image_path
                  (Ok (JDict file));
                CallPermissionsCreate (get_or_none (py "id") file)
                  reader_permission (Ok granted)]).
  split; [|destruct verbose; reflexivity].
  unfold upload_image_to_drive.
  fold (upload_metadata image_path). fold reader_permission.
  unfold try_http. unfold bind at 1. unfold call at 1. rewrite Hcreate.
  unfold bind at 1. unfold lift at 1. unfold get, get_default.
  fold (get_or_none (py "id") file).
  unfold bind at 1.
  destruct verbose; unfold when, emit, bind, call, ret; cbn [world trace];
    rewrite Hgrant; cbn [world trace]; repeat rewrite <- app_assoc; reflexivity.
Qed.

(** X10.  The file of a placeholder exists and is uploaded: [imagify]
    sends one batch update, made of the creation of the picture at the
    Drive address of the file, on the slide and with the size and the
    transform of the text box, followed by the deletion of the text box.
    The placeholder is counted when the batch returns a reply that can
    be read; a refused batch, or a reply without [replies], is reported
    and leaves the count as it was. *)
Theorem imagify_replacement_batch
    (i : Z) (slide_id shape_id : json) (e : dict) (rendered image_path : str)
    (total : Z) (s : state W) (file : dict) (w1 w2 w3 : W)
    (granted : json) (outcome : result json) :
  let id := get_or_none (py "id") file in
  let body := image_body (py "https://drive.google.com/uc?id=" ++ py_str id)
                slide_id (get_or_none (py "size") e)
                (get_or_none (py "transform") e) shape_id in
  path_exists image_path (world s) = true ->
  files_create (upload_metadata image_path) image_path (world s)
    = (Ok (JDict file), w1) ->
  permissions_create id reader_permission w1 = (Ok granted, w2) ->
  truthy id = true ->
  presentations_batchUpdate (presentation_id st) body w2 = (outcome, w3) ->
  let run := replace_with_image st i slide_id (JDict e) shape_id rendered
               image_path total s in
  fst run = image_count (verbose st) total outcome
  /\ world (snd run) = w3
  /\ batch_updates (trace (snd run)) =
     batch_updates (trace s) ++ [(presentation_id st, body, outcome)].
Proof.
  intros id body Hexists Hcreate Hgrant Htruthy Hbatch run.
  destruct (echoes_state (verbose st)
              [py "  Found image placeholder: '" ++ rendered
               ++ py "' on slide #" ++ format_d (i + 1) ++ py ". Path: '"
               ++ image_path ++ py "'";
               py "  Uploading image '" ++ image_path
               ++ py "' to Google Drive..."] s) as (evs1 & Hecho1 & Hquiet1).
  set (s1 := mk_state (world s) (trace s ++ evs1)) in *.
  destruct (upload_granted image_path (verbose st) s1 file w1 granted w2
              Hcreate Hgrant) as (evs2 & Hupload & Hquiet2).
  set (s2 := mk_state w2 (trace s1 ++ evs2)) in *.
  destruct (echoes_state (verbose st)
              [py "  Replacing text box '" ++ py_str shape_id
               ++ py "' with image from '" ++ image_path
               ++ py "' on slide #" ++ format_d (i + 1) ++ py "."] s2)
    as (evs3 & Hecho3 & Hquiet3).
  set (s3 := mk_state (world s2) (trace s2 ++ evs3)) in *.
  set (s4 := mk_state w3 (trace s3 ++ [CallBatchUpdate (presentation_id st) body
                                         outcome])).
  assert (Hsent : batch_updates (trace s4) =
                  batch_updates (trace s) ++ [(presentation_id st, body, outcome)]).
  { unfold s4, s3, s2, s1. cbn [trace].
    repeat rewrite batch_updates_app. rewrite Hquiet1, Hquiet2, Hquiet3.
    repeat rewrite app_nil_r. reflexivity. }
  assert (Hquiet_err : forall (msg : str) (s' : state W),
            batch_updates (trace s' ++ [Stderr msg]) = batch_updates (trace s')).
  { intros msg s'. rewrite batch_updates_app. apply app_nil_r. }
  unfold image_body in body.
  remember (replace_with_image st i slide_id (JDict e) shape_id rendered
              image_path total s) as result eqn:Hrun.
  subst run.
  unfold replace_with_image in Hrun.
  unfold bind at 1 in Hrun. unfold pathlib_exists at 1 in Hrun.
  rewrite Hexists in Hrun. cbn [negb] in Hrun.
  unfold bind at 1 in Hrun.
  match type of Hrun with
  | context [when (verbose st) ?m s] =>
      replace (when (verbose st) m s) with (@Ok unit tt, s1) in Hrun
        by (rewrite <- Hecho1; unfold when; destruct (verbose st); reflexivity)
  end.
  unfold bind at 1 in Hrun. rewrite Hupload in Hrun. fold id in Hrun.
  rewrite Htruthy in Hrun. cbn [negb] in Hrun.
  unfold bind at 1 in Hrun. unfold lift at 1 in Hrun.
  unfold get at 1, get_default at 1 in Hrun.
  fold (get_or_none (py "size") e) in Hrun.
  unfold bind at 1 in Hrun. unfold lift at 1 in Hrun.
  unfold get at 1, get_default at 1 in Hrun.
  fold (get_or_none (py "transform") e) in Hrun.
  unfold delete_request in Hrun. fold body in Hrun.
  unfold try_http_index_type in Hrun. unfold bind at 1 in Hrun.
  match type of Hrun with
  | context [when (verbose st) ?m s2] =>
      replace (when (verbose st) m s2) with (@Ok unit tt, s3) in Hrun
        by (rewrite <- Hecho3; unfold when; destruct (verbose st); reflexivity)
  end.
  unfold bind at 1 in Hrun. unfold call at 1 in Hrun.
  change (world s3) with w2 in Hrun. rewrite Hbatch in Hrun. fold s4 in Hrun.
  unfold image_count, counted_reply, create_image_reply.
  destruct outcome as [response|err].
  - unfold bind at 1 in Hrun. unfold lift at 1 in Hrun.
    destruct (get response (py "replies")) as [replies|e1]; cbn [rbind].
    2:{ subst result.
        destruct e1; cbn [fst snd world trace];
          unfold bind, echo_err, emit, ret; cbn [fst snd world trace];
          try rewrite Hquiet_err; repeat split; try exact Hsent. }
    unfold bind at 1 in Hrun. unfold lift at 1 in Hrun.
    destruct (getitem_int replies 0) as [reply|e1]; cbn [rbind].
    2:{ subst result.
        destruct e1; cbn [fst snd world trace];
          unfold bind, echo_err, emit, ret; cbn [fst snd world trace];
          try rewrite Hquiet_err; repeat split; try exact Hsent. }
    unfold bind at 1 in Hrun. unfold lift at 1 in Hrun.
    destruct (get reply (py "createImage")) as [created|e1]; cbn [rbind].
    2:{ subst result.
        destruct e1; cbn [fst snd world trace];
          unfold bind, echo_err, emit, ret; cbn [fst snd world trace];
          try rewrite Hquiet_err; repeat split; try exact Hsent. }
    unfold bind at 1 in Hrun.
    destruct (verbose st && truthy created).
    + unfold bind at 1 in Hrun. unfold lift at 1 in Hrun.
      destruct (get created (py "objectId")) as [created_id|e1]; cbn [rbind].
      * subst result. unfold echo, emit, ret. cbn [fst snd world trace].
        repeat split. rewrite batch_updates_app, app_nil_r. exact Hsent.
      * subst result.
        destruct e1; cbn [fst snd world trace];
          unfold bind, echo_err, emit, ret; cbn [fst snd world trace];
          try rewrite Hquiet_err; repeat split; try exact Hsent.
    + subst result. unfold ret. cbn [fst snd world trace]. repeat split.
      exact Hsent.
  - subst result.
    destruct err; cbn [fst snd world trace];
      unfold bind, echo_err, emit, ret; cbn [fst snd world trace];
      try rewrite Hquiet_err; repeat split; try exact Hsent.
Qed.

End Replacing.

(** A placeholder on a Drive that refuses the upload: nothing is counted
    and the deck is left alone. *)
Lemma imagify_upload_refused_witness :
  let w := Reference.mk_ref_world [] [py "foo.jpg"] 0 0 (2026, 11, 4)%Z false in
  let no_upload := Reference.faulty (Reference.mk_faults false true false) in
  let run := @replace_with_image _ no_upload _ _ (Reference.config true) 0
               (JStr (py "p1")) (JDict []) (JStr (py "box"))
               (py "{{ image: foo.jpg }}") (py "foo.jpg") 0
               (Reference.start w) in
  fst run = Ok 0%Z
  /\ world (snd run) = w
  /\ batch_updates (trace (snd run)) = []
  /\ exists before,
       trace (snd run) =
       before ++ [upload_failure_message (py "403 Forbidden");
                  upload_skipped_message (py "foo.jpg")].
Proof.
  intros w no_upload.
  assert (Hexists : @path_exists _ no_upload (py "foo.jpg")
                      (world (Reference.start w)) = true) by reflexivity.
  assert (Hcreate : @files_create _ no_upload (upload_metadata (py "foo.jpg"))
                      (py "foo.jpg") (world (Reference.start w))
                    = (Raise (HttpError (py "403 Forbidden")), w)) by reflexivity.
  exact (@imagify_upload_refused _ no_upload _ _ (Reference.config true) 0
           (JStr (py "p1")) (JDict []) (JStr (py "box"))
           (py "{{ image: foo.jpg }}") (py "foo.jpg") 0 (Reference.start w)
           (py "403 Forbidden") w Hexists Hcreate).
Defined.

(** A placeholder on the first slide of a deck, its file at hand: the
    batch creates the picture and deletes the box, and the placeholder
    is counted. *)
Lemma imagify_replacement_batch_witness :
  let box := Reference.TextBox (py "box") (py "{{ image: foo.jpg }}") in
  let d := [Reference.mk_slide (py "p1") [box]] in
  let w := Reference.mk_ref_world d [py "foo.jpg"] 0 0 (2026, 11, 4)%Z false in
  let run := replace_with_image (Reference.config false) 0 (JStr (py "p1"))
               (Reference.element_json box) (JStr (py "box"))
               (py "{{ image: foo.jpg }}") (py "foo.jpg") 0
               (Reference.start w) in
  fst run = Ok 1%Z
  /\ Reference.deck (world (snd run)) =
     [Reference.mk_slide (py "p1")
        [Reference.Picture (py "image_1")
           (py "https://drive.google.com/uc?id=file_0")]]
  /\ length (batch_updates (trace (snd run))) = 1%nat.
Proof.
  intros box d w.
  set (e := [(py "objectId", JStr (py "box"));
             (py "size", Reference.box_size);
             (py "transform", Reference.box_transform);
             (py "shape",
                JDict [(py "shapeType", JStr (py "TEXT_BOX"));
                       (py "text",
                          JDict [(py "textElements",
                            JList [JDict [(py "paragraphMarker", JDict [])];
                                   JDict [(py "textRun",
                                     JDict [(py "content",
                                       JStr (py "{{ image: foo.jpg }}" ++ [10%N]))])]])])])]).
  set (file := [(py "id", JStr (py "file_0"))]).
  set (w1 := Reference.mk_ref_world d [py "foo.jpg"] 1 0 (2026, 11, 4)%Z false).
  set (granted := JDict [(py "id", JStr (py "anyoneWithLink"))]).
  set (d' := [Reference.mk_slide (py "p1")
                [Reference.Picture (py "image_1")
                   (py "https://drive.google.com/uc?id=file_0")]]).
  set (outcome := Ok (JDict [(py "presentationId", JStr (py "deck-1"));
                             (py "replies",
                              JList [JDict [(py "createImage",
                                       JDict [(py "objectId", JStr (py "image_1"))])];
                                     JDict []])])).
  assert (Hexists : path_exists (py "foo.jpg") (world (Reference.start w)) = true)
    by reflexivity.
  assert (Hcreate : files_create (upload_metadata (py "foo.jpg")) (py "foo.jpg")
                      (world (Reference.start w)) = (Ok (JDict file), w1))
    by reflexivity.
  assert (Hgrant : permissions_create (get_or_none (py "id") file)
                     reader_permission w1 = (Ok granted, w1)) by reflexivity.
  assert (Htruthy : truthy (get_or_none (py "id") file) = true) by reflexivity.
  assert (Hbatch : presentations_batchUpdate
                     (presentation_id (Reference.config false))
                     (image_body (py "https://drive.google.com/uc?id="
                                  ++ py_str (get_or_none (py "id") file))
                        (JStr (py "p1")) (get_or_none (py "size") e)
                        (get_or_none (py "transform") e) (JStr (py "box")))
                     w1 = (outcome, Reference.with_deck w1 d'))
    by (vm_compute; reflexivity).
  destruct (imagify_replacement_batch (Reference.config false) 0
              (JStr (py "p1")) (JStr (py "box")) e
              (py "{{ image: foo.jpg }}") (py "foo.jpg") 0 (Reference.start w)
              file w1 w1 (Reference.with_deck w1 d') granted outcome
              Hexists Hcreate Hgrant Htruthy Hbatch)
    as (Hcount & Hworld & Hsent).
  split; [|split].
  - exact Hcount.
  - exact (f_equal Reference.deck Hworld).
  - exact (f_equal (@length _) Hsent).
Defined.

(** ** Commands on a deck that cannot be had *)

Section StoppingEarly.
Context {W : Type} `{Services W} `{PyRepr} {Env : Type} `{Jinja Env}.
Variable st : cli_state Env.

(** [duplicate_slide], step by step. *)
Lemma duplicate_slide_steps (n : Z) (s : state W) :
  duplicate_slide st n s =
  if negb (build (py "slides") (world s)) then
    (Raise (Exit 1),
     mk_state (world s)
       (trace s ++ [Stderr (py "Failed to initialize Google Slides service.")]))
  else
    match get_presentation_slides (presentation_id st) (verbose st) s with
    | (Raise e, s1) => (Raise e, s1)
    | (Ok slides, s1) =>
        if negb (truthy slides) then (Raise (Exit 1), s1)
        else
          match print_slide_details_if_verbose slides (verbose st) s1 with
          | (Raise e, s2) => (Raise e, s2)
          | (Ok _, s2) =>
              match get_slide_id_by_index slides n with
              | Raise e => (Raise e, s2)
              | Ok id =>
                  if is_none id then
                    match len slides with
                    | Raise e => (Raise e, s2)
                    | Ok k =>
                        (Raise (Exit 1),
                         mk_state (world s2)
                           (trace s2 ++ [Stderr (slide_missing_message n k)]))
                    end
                  else duplicate_resolved_slide st n id s2
              end
          end
    end.
Proof.
  unfold duplicate_slide. unfold bind at 1. unfold get_slides_service at 1.
  destruct (build (py "slides") (world s)); cbn [negb]; [|reflexivity].
  unfold bind at 1. unfold ret at 1.
  unfold bind at 1.
  destruct (get_presentation_slides (presentation_id st) (verbose st) s)
    as [[slides|e] s1]; [|reflexivity].
  unfold bind at 1.
  destruct (truthy slides); cbn [negb]; [|reflexivity].
  unfold ret at 1. unfold bind at 1.
  destruct (print_slide_details_if_verbose slides (verbose st) s1)
    as [[[]|e] s2]; [|reflexivity].
  unfold bind at 1. unfold lift at 1.
  destruct (get_slide_id_by_index slides n) as [id|e]; [|reflexivity].
  unfold bind at 1.
  destruct (is_none id); [|reflexivity].
  unfold bind at 1. unfold lift at 1.
  destruct (len slides) as [k|e]; reflexivity.
Qed.

(** X11.  The four commands that work on the slides stop alike when
    [get_presentation_slides] hands back nothing true, be it [None]
    after a refused fetch, [None] of a presentation without [slides], or
    an empty list: they end with exit status 1 right after the fetch,
    write nothing more, and have sent no batch update. *)
Theorem commands_stop_without_deck
    (n : Z) (data : context) (s s1 : state W) (slides : json) :
  build (py "slides") (world s) = true ->
  build (py "drive") (world s) = true ->
  get_presentation_slides (presentation_id st) (verbose st) s = (Ok slides, s1) ->
  truthy slides = false ->
  delete_slide st n s = (Raise (Exit 1), s1)
  /\ duplicate_slide st n s = (Raise (Exit 1), s1)
  /\ jinjify st data s = (Raise (Exit 1), s1)
  /\ imagify st s = (Raise (Exit 1), s1)
  /\ batch_updates (trace s1) = batch_updates (trace s).
Proof.
  intros Hslides Hdrive Hfetch Hfalsy.
  split; [|split; [|split; [|split]]].
  - rewrite delete_slide_steps, Hslides. cbn [negb].
    rewrite Hfetch, Hfalsy. reflexivity.
  - rewrite duplicate_slide_steps, Hslides. cbn [negb].
    rewrite Hfetch, Hfalsy. reflexivity.
  - unfold jinjify. unfold bind at 1. unfold get_slides_service at 1.
    rewrite Hslides. cbn [negb]. unfold bind at 1. unfold ret at 1.
    unfold bind at 1. rewrite Hfetch. unfold bind at 1. rewrite Hfalsy.
    reflexivity.
  - unfold imagify. unfold bind at 1. unfold get_slides_service at 1.
    rewrite Hslides. cbn [negb]. unfold bind at 1. unfold ret at 1.
    unfold bind at 1. unfold get_drive_service at 1.
    rewrite Hdrive. cbn [negb]. unfold bind at 1. unfold ret at 1.
    unfold bind at 1. rewrite Hfetch. unfold bind at 1. rewrite Hfalsy.
    reflexivity.
  - pose proof (quiet_get_presentation_slides (presentation_id st) (verbose st) s)
      as Hquiet.
    rewrite Hfetch in Hquiet. exact Hquiet.
Qed.

End StoppingEarly.

(** The commands on a deck without slides. *)
Lemma commands_stop_without_deck_witness :
  let w := Reference.mk_ref_world [] [] 0 0 (2026, 11, 4)%Z false in
  let s1 := mk_state w [CallGet (py "deck-1")
                          (Ok (JDict [(py "presentationId", JStr (py "deck-1"))]))] in
  delete_slide (Reference.config false) 1 (Reference.start w) = (Raise (Exit 1), s1)
  /\ duplicate_slide (Reference.config false) 1 (Reference.start w)
     = (Raise (Exit 1), s1)
  /\ jinjify (Reference.config false) [] (Reference.start w) = (Raise (Exit 1), s1)
  /\ imagify (Reference.config false) (Reference.start w) = (Raise (Exit 1), s1)
  /\ batch_updates (trace s1) = batch_updates (trace (Reference.start w)).
Proof.
  intros w s1.
  assert (Hfetch : get_presentation_slides
                     (presentation_id (Reference.config false))
                     (verbose (Reference.config false)) (Reference.start w)
                   = (Ok JNull, s1)) by reflexivity.
  exact (commands_stop_without_deck (Reference.config false) 1 []
           (Reference.start w) s1 JNull eq_refl eq_refl Hfetch eq_refl).
Defined.

(** ** Duplicating a slide *)

Section DuplicateSlide.
Context {W : Type} `{Services W} `{PyRepr} {Env : Type}.
Variable st : cli_state Env.

(** X12.  The deck was fetched as a list with at least one slide and the
    slide number does not resolve to a slide identifier:
    [duplicate_slide] writes on the error stream that the slide does not
    exist, giving the range of the slide numbers, ends with exit status
    1, and has sent no batch update. *)
Theorem duplicate_slide_unresolved
    (n : Z) (s s1 s2 : state W) (slides : list json) :
  build (py "slides") (world s) = true ->
  get_presentation_slides (presentation_id st) (verbose st) s
    = (Ok (JList slides), s1) ->
  slides <> [] ->
  print_slide_details_if_verbose (JList slides) (verbose st) s1 = (Ok tt, s2) ->
  get_slide_id_by_index (JList slides) n = Ok JNull ->
  duplicate_slide st n s =
    (Raise (Exit 1),
     mk_state (world s2)
       (trace s2 ++ [Stderr (slide_missing_message n (Z.of_nat (length slides)))]))
  /\ batch_updates
       (trace s2 ++ [Stderr (slide_missing_message n (Z.of_nat (length slides)))])
     = batch_updates (trace s).
Proof.
  intros Hbuild Hfetch Hnonempty Hprint Hnone. split.
  - rewrite duplicate_slide_steps, Hbuild. cbn [negb]. rewrite Hfetch.
    destruct slides as [|slide rest]; [congruence|]. cbn [truthy negb].
    rewrite Hprint, Hnone. reflexivity.
  - rewrite batch_updates_app. cbn [batch_updates flat_map app].
    rewrite app_nil_r.
    pose proof (quiet_get_presentation_slides (presentation_id st) (verbose st) s)
      as Hq1.
    rewrite Hfetch in Hq1. cbn [snd] in Hq1.
    pose proof (quiet_print_slide_details_if_verbose (JList slides) (verbose st) s1)
      as Hq2.
    rewrite Hprint in Hq2. cbn [snd] in Hq2. congruence.
Qed.

(** The command up to its [try] block, on a slide number that
    resolves. *)
Lemma duplicate_slide_resolved
    (n : Z) (s s1 s2 : state W) (slides id : json) :
  build (py "slides") (world s) = true ->
  get_presentation_slides (presentation_id st) (verbose st) s = (Ok slides, s1) ->
  truthy slides = true ->
  print_slide_details_if_verbose slides (verbose st) s1 = (Ok tt, s2) ->
  get_slide_id_by_index slides n = Ok id ->
  is_none id = false ->
  duplicate_slide st n s = duplicate_resolved_slide st n id s2
  /\ batch_updates (trace s2) = batch_updates (trace s).
Proof.
  intros Hbuild Hfetch Htruthy Hprint Hid Hsome. split.
  - rewrite duplicate_slide_steps, Hbuild. cbn [negb].
    rewrite Hfetch, Htruthy. cbn [negb]. rewrite Hprint, Hid, Hsome.
    reflexivity.
  - pose proof (quiet_get_presentation_slides (presentation_id st) (verbose st) s)
      as Hq1.
    rewrite Hfetch in Hq1. cbn [snd] in Hq1.
    pose proof (quiet_print_slide_details_if_verbose slides (verbose st) s1)
      as Hq2.
    rewrite Hprint in Hq2. cbn [snd] in Hq2. congruence.
Qed.

(** X13.  The slide number resolves and the service refuses the
    duplication: [duplicate_slide] has sent this one batch update, the
    duplication of the resolved slide, writes the error after
    [Error duplicating slide: ] on the error stream and ends with exit
    status 1. *)
Theorem duplicate_slide_refused
    (n : Z) (s s1 s2 : state W) (slides id : json) (msg : str) (w3 : W) :
  build (py "slides") (world s) = true ->
  get_presentation_slides (presentation_id st) (verbose st) s = (Ok slides, s1) ->
  truthy slides = true ->
  print_slide_details_if_verbose slides (verbose st) s1 = (Ok tt, s2) ->
  get_slide_id_by_index slides n = Ok id ->
  is_none id = false ->
  presentations_batchUpdate (presentation_id st) (duplicate_body id) (world s2)
    = (Raise (HttpError msg), w3) ->
  let run := duplicate_slide st n s in
  fst run = Raise (Exit 1)
  /\ world (snd run) = w3
  /\ batch_updates (trace (snd run)) =
     batch_updates (trace s)
     ++ [(presentation_id st, duplicate_body id, Raise (HttpError msg))]
  /\ exists before,
       trace (snd run) =
       before ++ [CallBatchUpdate (presentation_id st) (duplicate_body id)
                    (Raise (HttpError msg));
                  Stderr (py "Error duplicating slide: " ++ msg)].
Proof.
  intros Hbuild Hfetch Htruthy Hprint Hid Hsome Hbatch run.
  destruct (duplicate_slide_resolved n s s1 s2 slides id
              Hbuild Hfetch Htruthy Hprint Hid Hsome) as [Hrun Hquiet].
  subst run. rewrite Hrun. rewrite <- Hquiet.
  unfold duplicate_resolved_slide, duplicate_slide_by_id, duplicate_request.
  fold (duplicate_body id).
  unfold try_http, bind, call, when, echo, echo_err, emit, ret, raise.
  destruct (verbose st); cbn [world trace]; rewrite Hbatch; cbn [fst snd world trace].
  - split; [reflexivity|]. split; [reflexivity|]. split.
    + repeat rewrite batch_updates_app. cbn [batch_updates flat_map app].
      repeat rewrite app_nil_r. reflexivity.
    + exists (trace s2 ++ [Stdout (py "Attempting to duplicate slide #"
                                   ++ format_d n ++ py " (ID: " ++ py_str id
                                   ++ py ")")]).
      repeat rewrite <- app_assoc. reflexivity.
  - split; [reflexivity|]. split; [reflexivity|]. split.
    + repeat rewrite batch_updates_app. cbn [batch_updates flat_map app].
      repeat rewrite app_nil_r. reflexivity.
    + exists (trace s2). repeat rewrite <- app_assoc. reflexivity.
Qed.

(** X14.  The slide number resolves and the duplication is accepted.
    Without [verbose] the command confirms the duplication and ends.
    With [verbose] it fetches the deck once more for the count of the
    slides; when this fetch is refused the error goes to the error
    stream from [get_presentation_slides], and the command still ends
    normally: the refusal is not taken for a failed duplication. *)
Theorem duplicate_slide_accepted
    (n : Z) (s s1 s2 : state W) (slides id response : json) (w3 : W) :
  build (py "slides") (world s) = true ->
  get_presentation_slides (presentation_id st) (verbose st) s = (Ok slides, s1) ->
  truthy slides = true ->
  print_slide_details_if_verbose slides (verbose st) s1 = (Ok tt, s2) ->
  get_slide_id_by_index slides n = Ok id ->
  is_none id = false ->
  presentations_batchUpdate (presentation_id st) (duplicate_body id) (world s2)
    = (Ok response, w3) ->
  let run := duplicate_slide st n s in
  let sent := CallBatchUpdate (presentation_id st) (duplicate_body id)
                (Ok response) in
  let confirmed := Stdout (py "Slide #" ++ format_d n
                           ++ py " duplicated successfully.") in
  (verbose st = false ->
   run = (Ok tt, mk_state w3 (trace s2 ++ [sent; confirmed])))
  /\ (verbose st = true ->
      forall (msg : str) (w4 : W),
        presentations_get (presentation_id st) w3 = (Raise (HttpError msg), w4) ->
        fst run = Ok tt
        /\ world (snd run) = w4
        /\ exists before,
             trace (snd run) =
             before ++ [sent; Stdout (py "Slide duplication API call successful.");
                        PPrint response; confirmed;
                        CallGet (presentation_id st) (Raise (HttpError msg));
                        Stderr msg])
  /\ (verbose st = true ->
      forall (presentation : dict) (after : list json) (w4 : W),
        presentations_get (presentation_id st) w3 = (Ok (JDict presentation), w4) ->
        lookup (py "slides") presentation = Some (JList after) ->
        after <> [] ->
        fst run = Ok tt
        /\ world (snd run) = w4
        /\ exists before,
             trace (snd run) =
             before ++ [Stdout ([10%N] ++ py "Presentation now contains "
                                ++ format_d (Z.of_nat (length after))
                                ++ py " slides.")]).
Proof.
  intros Hbuild Hfetch Htruthy Hprint Hid Hsome Hbatch run sent confirmed.
  destruct (duplicate_slide_resolved n s s1 s2 slides id
              Hbuild Hfetch Htruthy Hprint Hid Hsome) as [Hrun _].
  subst run sent confirmed. rewrite Hrun.
  unfold duplicate_resolved_slide, duplicate_slide_by_id, duplicate_request.
  fold (duplicate_body id).
  split; [|split].
  - intros Hquiet. rewrite Hquiet.
    unfold try_http, bind, call, when, echo, echo_err, emit, ret, raise.
    cbn [world trace]. rewrite Hbatch. cbn [world trace].
    rewrite <- app_assoc. reflexivity.
  - intros Hverbose msg w4 Hget. rewrite Hverbose.
    unfold get_presentation_slides.
    unfold try_http, bind, call, when, echo, echo_err, emit, ret, raise, lift.
    cbn [world trace]. rewrite Hbatch. cbn [world trace]. rewrite Hget.
    cbn [fst snd world trace truthy].
    split; [reflexivity|]. split; [reflexivity|].
    exists (trace s2 ++ [Stdout (py "Attempting to duplicate slide #"
                                 ++ format_d n ++ py " (ID: " ++ py_str id
                                 ++ py ")")]).
    repeat rewrite <- app_assoc. reflexivity.
  - intros Hverbose presentation after w4 Hget Hslides Hnonempty.
    rewrite Hverbose.
    unfold get_presentation_slides.
    unfold try_http, bind, call, when, echo, echo_err, emit, ret, raise, lift.
    cbn [world trace]. rewrite Hbatch. cbn [world trace]. rewrite Hget.
    unfold get, get_default. rewrite Hslides.
    destruct after as [|slide rest]; [congruence|].
    cbn [fst snd world trace truthy len].
    split; [reflexivity|]. split; [reflexivity|].
    match goal with
    | |- exists before, ?t ++ [?e] = _ => exists t; reflexivity
    end.
Qed.

End DuplicateSlide.

(** Slide number 3 of a deck of two slides. *)
Lemma duplicate_slide_unresolved_witness :
  let d := [Reference.mk_slide (py "s1") []; Reference.mk_slide (py "s2") []] in
  let w := Reference.mk_ref_world d [] 0 0 (2026, 11, 4)%Z false in
  let fetched := mk_state w [CallGet (py "deck-1")
                               (Ok (Reference.presentation_json (py "deck-1") d))] in
  duplicate_slide (Reference.config false) 3 (Reference.start w) =
    (Raise (Exit 1),
     mk_state w (trace fetched ++ [Stderr (slide_missing_message 3 2)]))
  /\ batch_updates (trace fetched ++ [Stderr (slide_missing_message 3 2)]) = [].
Proof.
  intros d w fetched.
  assert (Hfetch : get_presentation_slides
                     (presentation_id (Reference.config false))
                     (verbose (Reference.config false)) (Reference.start w)
                   = (Ok (JList (map Reference.slide_json d)), fetched))
    by reflexivity.
  assert (Hnonempty : map Reference.slide_json d <> []) by discriminate.
  exact (duplicate_slide_unresolved (Reference.config false) 3
           (Reference.start w) fetched fetched (map Reference.slide_json d)
           eq_refl Hfetch Hnonempty eq_refl eq_refl).
Defined.

(** The first slide of a deck of two, on a service that is down for
    batch updates. *)
Lemma duplicate_slide_refused_witness :
  let d := [Reference.mk_slide (py "s1") []; Reference.mk_slide (py "s2") []] in
  let w := Reference.mk_ref_world d [] 0 0 (2026, 11, 4)%Z true in
  let run := @duplicate_slide _ Reference.metered _ _ (Reference.config false) 1
               (mk_state (w, 3%nat) []) in
  let refusal := Raise (HttpError (py "503 Service Unavailable")) in
  fst run = Raise (Exit 1)
  /\ world (snd run) = (w, 2%nat)
  /\ batch_updates (trace (snd run)) =
     [] ++ [(py "deck-1", duplicate_body (JStr (py "s1")), refusal)]
  /\ exists before,
       trace (snd run) =
       before ++ [CallBatchUpdate (py "deck-1") (duplicate_body (JStr (py "s1")))
                    refusal;
                  Stderr (py "Error duplicating slide: "
                          ++ py "503 Service Unavailable")].
Proof.
  intros d w run refusal.
  set (fetched := mk_state (w, 2%nat)
                    [CallGet (py "deck-1")
                       (Ok (Reference.presentation_json (py "deck-1") d))]).
  assert (Hfetch : @get_presentation_slides _ Reference.metered
                     (presentation_id (Reference.config false))
                     (verbose (Reference.config false)) (mk_state (w, 3%nat) [])
                   = (Ok (JList (map Reference.slide_json d)), fetched))
    by reflexivity.
  assert (Hbatch : @presentations_batchUpdate _ Reference.metered
                     (presentation_id (Reference.config false))
                     (duplicate_body (JStr (py "s1"))) (world fetched)
                   = (Raise (HttpError (py "503 Service Unavailable")), (w, 2%nat)))
    by reflexivity.
  exact (@duplicate_slide_refused _ Reference.metered _ _ (Reference.config false)
           1 (mk_state (w, 3%nat) []) fetched fetched
           (JList (map Reference.slide_json d)) (JStr (py "s1"))
           (py "503 Service Unavailable") (w, 2%nat)
           eq_refl Hfetch eq_refl eq_refl eq_refl eq_refl Hbatch).
Defined.

(** The first slide of a deck of two, duplicated without [verbose]; with
    [verbose] on a service that refuses the second fetch; and with
    [verbose] on a service that answers it. *)
Lemma duplicate_slide_accepted_witness :
  let d := [Reference.mk_slide (py "s1") []; Reference.mk_slide (py "s2") []] in
  let d' := [Reference.mk_slide (py "s1") [];
             Reference.mk_slide (py "copy_of_s1") [];
             Reference.mk_slide (py "s2") []] in
  let w := Reference.mk_ref_world d [] 0 0 (2026, 11, 4)%Z false in
  let w' := Reference.mk_ref_world d' [] 0 0 (2026, 11, 4)%Z false in
  let response :=
    JDict [(py "presentationId", JStr (py "deck-1"));
           (py "replies",
            JList [JDict [(py "duplicateObject",
                           JDict [(py "objectId", JStr (py "copy_of_s1"))])]])] in
  let sent := CallBatchUpdate (py "deck-1") (duplicate_body (JStr (py "s1")))
                (Ok response) in
  let confirmed := Stdout (py "Slide #1 duplicated successfully.") in
  let quiet := @duplicate_slide _ Reference.metered _ _ (Reference.config false) 1
                 (mk_state (w, 1%nat) []) in
  let loud := @duplicate_slide _ Reference.metered _ _ (Reference.config true) 1
                (mk_state (w, 1%nat) []) in
  let counted := @duplicate_slide _ Reference.metered _ _ (Reference.config true) 1
                   (mk_state (w, 2%nat) []) in
  quiet = (Ok tt,
           mk_state (w', 0%nat)
             ([CallGet (py "deck-1")
                 (Ok (Reference.presentation_json (py "deck-1") d))]
              ++ [sent; confirmed]))
  /\ (fst loud = Ok tt
      /\ world (snd loud) = (w', 0%nat)
      /\ exists before,
           trace (snd loud) =
           before ++ [sent; Stdout (py "Slide duplication API call successful.");
                      PPrint response; confirmed;
                      CallGet (py "deck-1")
                        (Raise (HttpError (py "429 Too Many Requests")));
                      Stderr (py "429 Too Many Requests")])
  /\ (fst counted = Ok tt
      /\ world (snd counted) = (w', 0%nat)
      /\ exists before,
           trace (snd counted) =
           before ++ [Stdout ([10%N] ++ py "Presentation now contains "
                              ++ py "3" ++ py " slides.")]).
Proof.
  intros d d' w w' response sent confirmed quiet loud counted.
  set (slides := JList (map Reference.slide_json d)).
  set (body := duplicate_body (JStr (py "s1"))).
  split; [|split].
  - set (s1 := mk_state (w, 0%nat)
                 [CallGet (py "deck-1")
                    (Ok (Reference.presentation_json (py "deck-1") d))]).
    assert (Hfetch : @get_presentation_slides _ Reference.metered
                       (presentation_id (Reference.config false))
                       (verbose (Reference.config false)) (mk_state (w, 1%nat) [])
                     = (Ok slides, s1)) by reflexivity.
    assert (Hbatch : @presentations_batchUpdate _ Reference.metered
                       (presentation_id (Reference.config false)) body (world s1)
                     = (Ok response, (w', 0%nat))) by reflexivity.
    exact (proj1 (@duplicate_slide_accepted _ Reference.metered _ _
                    (Reference.config false) 1 (mk_state (w, 1%nat) []) s1 s1
                    slides (JStr (py "s1")) response (w', 0%nat)
                    eq_refl Hfetch eq_refl eq_refl eq_refl eq_refl Hbatch)
             eq_refl).
  - set (s0 := mk_state (w, 1%nat) []).
    set (fetch := @get_presentation_slides _ Reference.metered
                    (presentation_id (Reference.config true))
                    (verbose (Reference.config true)) s0).
    set (s1 := snd fetch).
    set (s2 := snd (@print_slide_details_if_verbose _ _ slides true s1)).
    assert (Hfetch : fetch = (Ok slides, s1)) by (vm_compute; reflexivity).
    assert (Hprint : @print_slide_details_if_verbose _ _ slides
                       (verbose (Reference.config true)) s1 = (Ok tt, s2))
      by (vm_compute; reflexivity).
    assert (Hbatch : @presentations_batchUpdate _ Reference.metered
                       (presentation_id (Reference.config true)) body (world s2)
                     = (Ok response, (w', 0%nat))) by (vm_compute; reflexivity).
    assert (Hget : @presentations_get _ Reference.metered
                     (presentation_id (Reference.config true)) (w', 0%nat)
                   = (Raise (HttpError (py "429 Too Many Requests")), (w', 0%nat)))
      by reflexivity.
    exact (proj1 (proj2 (@duplicate_slide_accepted _ Reference.metered _ _
                           (Reference.config true) 1 s0 s1 s2
                           slides (JStr (py "s1")) response (w', 0%nat)
                           eq_refl Hfetch eq_refl Hprint eq_refl eq_refl Hbatch))
             eq_refl (py "429 Too Many Requests") (w', 0%nat) Hget).
  - set (s0 := mk_state (w, 2%nat) []).
    set (fetch := @get_presentation_slides _ Reference.metered
                    (presentation_id (Reference.config true))
                    (verbose (Reference.config true)) s0).
    set (s1 := snd fetch).
    set (s2 := snd (@print_slide_details_if_verbose _ _ slides true s1)).
    assert (Hfetch : fetch = (Ok slides, s1)) by (vm_compute; reflexivity).
    assert (Hprint : @print_slide_details_if_verbose _ _ slides
                       (verbose (Reference.config true)) s1 = (Ok tt, s2))
      by (vm_compute; reflexivity).
    assert (Hbatch : @presentations_batchUpdate _ Reference.metered
                       (presentation_id (Reference.config true)) body (world s2)
                     = (Ok response, (w', 1%nat))) by (vm_compute; reflexivity).
    assert (Hget : @presentations_get _ Reference.metered
                     (presentation_id (Reference.config true)) (w', 1%nat)
                   = (Ok (JDict [(py "presentationId", JStr (py "deck-1"));
                                 (py "slides", JList (map Reference.slide_json d'))]),
                      (w', 0%nat)))
      by reflexivity.
    assert (Hnonempty : map Reference.slide_json d' <> []) by discriminate.
    exact (proj2 (proj2 (@duplicate_slide_accepted _ Reference.metered _ _
                           (Reference.config true) 1 s0 s1 s2
                           slides (JStr (py "s1")) response (w', 1%nat)
                           eq_refl Hfetch eq_refl Hprint eq_refl eq_refl Hbatch))
             eq_refl _ (map Reference.slide_json d') (w', 0%nat) Hget eq_refl
             Hnonempty).
Defined.

(** ** Deleting a slide that exists *)

Section DeleteOutcome.
Context {W : Type} `{Services W} `{PyRepr} {Env : Type}.
Variable st : cli_state Env.

(** X15.  The slide number resolves to an identifier: [delete_slide]
    sends the deletion of that slide and reports its outcome.  A
    refusal is written after [Error deleting slide: ] on the error
    stream and ends the command with exit status 1.  An accepted
    deletion is confirmed on the output and the command ends normally;
    with [verbose] the response is printed before the confirmation. *)
Theorem delete_slide_outcome
    (n : Z) (s s1 s2 : state W) (slides id : json)
    (outcome : result json) (w3 : W) :
  build (py "slides") (world s) = true ->
  get_presentation_slides (presentation_id st) (verbose st) s = (Ok slides, s1) ->
  truthy slides = true ->
  print_slide_details_if_verbose slides (verbose st) s1 = (Ok tt, s2) ->
  get_slide_id_by_index slides n = Ok id ->
  is_none id = false ->
  presentations_batchUpdate (presentation_id st) (delete_body id) (world s2)
    = (outcome, w3) ->
  let attempt :=
    if verbose st
    then [Stdout (py "Attempting to delete slide #" ++ format_d n
                  ++ py " (ID: " ++ py_str id ++ py ")")]
    else [] in
  let sent := CallBatchUpdate (presentation_id st) (delete_body id) outcome in
  (forall msg : str,
     outcome = Raise (HttpError msg) ->
     delete_slide st n s =
     (Raise (Exit 1),
      mk_state w3 (trace s2 ++ attempt
                   ++ [sent; Stderr (py "Error deleting slide: " ++ msg)])))
  /\ (forall response : json,
        outcome = Ok response ->
        delete_slide st n s =
        (Ok tt,
         mk_state w3
           (trace s2 ++ attempt ++ [sent]
            ++ (if verbose st
                then [Stdout (py "Slide deletion API call successful.");
                      PPrint response]
                else [])
            ++ [Stdout (py "Slide #" ++ format_d n
                        ++ py " deleted successfully.")]))).
Proof.
  intros Hbuild Hfetch Htruthy Hprint Hid Hsome Hbatch attempt sent.
  assert (Hrun : delete_slide st n s = delete_resolved_slide st n id s2).
  { rewrite delete_slide_steps, Hbuild. cbn [negb].
    rewrite Hfetch, Htruthy. cbn [negb]. rewrite Hprint, Hid, Hsome.
    reflexivity. }
  rewrite Hrun. subst attempt sent.
  unfold delete_resolved_slide, delete_slide_by_id, delete_request.
  fold (delete_body id).
  unfold try_http, bind, call, when, echo, echo_err, emit, ret, raise.
  split.
  - intros msg ->.
    destruct (verbose st); cbn [world trace]; rewrite Hbatch;
      cbn [world trace app]; repeat rewrite <- app_assoc; reflexivity.
  - intros response ->.
    destruct (verbose st); cbn [world trace]; rewrite Hbatch;
      cbn [world trace app]; repeat rewrite <- app_assoc; reflexivity.
Qed.

End DeleteOutcome.

(** The second slide of a deck of three, on a service that takes the
    deletion and on one that is down. *)
Lemma delete_slide_outcome_witness :
  let d := [Reference.mk_slide (py "s1") []; Reference.mk_slide (py "s2") [];
            Reference.mk_slide (py "s3") []] in
  let d' := [Reference.mk_slide (py "s1") []; Reference.mk_slide (py "s3") []] in
  let up := Reference.mk_ref_world d [] 0 0 (2026, 11, 4)%Z false in
  let down := Reference.mk_ref_world d [] 0 0 (2026, 11, 4)%Z true in
  let fetched := CallGet (py "deck-1")
                   (Ok (Reference.presentation_json (py "deck-1") d)) in
  let body := delete_body (JStr (py "s2")) in
  let reply := JDict [(py "presentationId", JStr (py "deck-1"));
                      (py "replies", JList [JDict []])] in
  delete_slide (Reference.config false) 2 (Reference.start up) =
    (Ok tt,
     mk_state (Reference.with_deck up d')
       ([fetched] ++ [] ++ [CallBatchUpdate (py "deck-1") body (Ok reply)] ++ []
        ++ [Stdout (py "Slide #" ++ format_d 2 ++ py " deleted successfully.")]))
  /\ delete_slide (Reference.config false) 2 (Reference.start down) =
    (Raise (Exit 1),
     mk_state down
       ([fetched] ++ []
        ++ [CallBatchUpdate (py "deck-1") body
              (Raise (HttpError (py "503 Service Unavailable")));
            Stderr (py "Error deleting slide: " ++ py "503 Service Unavailable")])).
Proof.
  intros d d' up down fetched body reply.
  set (slides := JList (map Reference.slide_json d)).
  split.
  - assert (Hfetch : get_presentation_slides
                       (presentation_id (Reference.config false))
                       (verbose (Reference.config false)) (Reference.start up)
                     = (Ok slides, mk_state up [fetched])) by reflexivity.
    assert (Hbatch : presentations_batchUpdate
                       (presentation_id (Reference.config false)) body up
                     = (Ok reply, Reference.with_deck up d')) by reflexivity.
    exact (proj2 (delete_slide_outcome (Reference.config false) 2
                    (Reference.start up) (mk_state up [fetched])
                    (mk_state up [fetched]) slides (JStr (py "s2")) (Ok reply)
                    (Reference.with_deck up d')
                    eq_refl Hfetch eq_refl eq_refl eq_refl eq_refl Hbatch)
             reply eq_refl).
  - assert (Hfetch : get_presentation_slides
                       (presentation_id (Reference.config false))
                       (verbose (Reference.config false)) (Reference.start down)
                     = (Ok slides, mk_state down [fetched])) by reflexivity.
    assert (Hbatch : presentations_batchUpdate
                       (presentation_id (Reference.config false)) body down
                     = (Raise (HttpError (py "503 Service Unavailable")), down))
      by reflexivity.
    exact (proj1 (delete_slide_outcome (Reference.config false) 2
                    (Reference.start down) (mk_state down [fetched])
                    (mk_state down [fetched]) slides (JStr (py "s2"))
                    (Raise (HttpError (py "503 Service Unavailable"))) down
                    eq_refl Hfetch eq_refl eq_refl eq_refl eq_refl Hbatch)
             (py "503 Service Unavailable") eq_refl).
Defined.

(** ** Duplicating the presentation *)

Lemma permission_calls_app (evs evs' : list event) :
  permission_calls (evs ++ evs') = permission_calls evs ++ permission_calls evs'.
Proof. unfold permission_calls. apply flat_map_app. Qed.

Section DuplicatePresentation.
Context {W : Type} `{Services W} `{DriveCopy W} `{PyRepr} {Env : Type}.
Variable st : cli_state Env.

(** X16.  The copy of the presentation is refused, or comes back without
    an identifier: [duplicate_presentation] asks for no permission,
    writes [Failed to duplicate presentation] on the error stream and
    ends with exit status 1. *)
Theorem duplicate_presentation_not_copied
    (copy_title : str) (s : state W) (outcome : result json) (w1 : W) :
  build (py "drive") (world s) = true ->
  files_copy (presentation_id st) (JDict [(py "name", JStr copy_title)]) (world s)
    = (outcome, w1) ->
  (exists msg, outcome = Raise (HttpError msg))
  \/ (exists file, outcome = Ok (JDict file)
                   /\ truthy (get_or_none (py "id") file) = false) ->
  let run := duplicate_presentation st copy_title s in
  fst run = Raise (Exit 1)
  /\ world (snd run) = w1
  /\ permission_calls (trace (snd run)) = permission_calls (trace s)
  /\ exists before,
       trace (snd run) =
       before ++ [Stderr (py "Failed to duplicate presentation '"
                          ++ presentation_id st ++ py "'.")].
Proof.
  intros Hbuild Hcopy Houtcome run. subst run.
  unfold duplicate_presentation, copy_file, get_drive_service.
  unfold try_http, bind, perform, when, echo, echo_err, emit, ret, raise, lift.
  rewrite Hbuild. cbn [negb world trace].
  destruct Houtcome as [[msg ->] | (file & -> & Hfalsy)].
  - destruct (verbose st); cbn [world trace]; rewrite Hcopy;
      cbn [fst snd world trace truthy];
      (split; [reflexivity|]; split; [reflexivity|]; split;
       [repeat rewrite permission_calls_app; cbn [permission_calls flat_map app];
        repeat rewrite app_nil_r; reflexivity
       |eexists; reflexivity]).
  - unfold get, get_default.
    destruct (verbose st); cbn [world trace]; rewrite Hcopy;
      cbn [fst snd world trace]; fold (get_or_none (py "id") file);
      rewrite Hfalsy; cbn [fst snd world trace];
      (split; [reflexivity|]; split; [reflexivity|]; split;
       [repeat rewrite permission_calls_app; cbn [permission_calls flat_map app];
        repeat rewrite app_nil_r; reflexivity
       |eexists; reflexivity]).
Qed.

(** X17.  The copy is made: [duplicate_presentation] asks once for the
    permission that lets anyone write to the copy, and ends normally
    with the identifier of the copy as the last line of its output, or,
    with [verbose], the address of the copy.  A refused permission does
    not change this: it is reported on the error stream and the command
    goes on. *)
Theorem duplicate_presentation_copied
    (copy_title : str) (s : state W) (file : dict) (w1 : W)
    (outcome : result json) (w2 : W) :
  let id := get_or_none (py "id") file in
  build (py "drive") (world s) = true ->
  files_copy (presentation_id st) (JDict [(py "name", JStr copy_title)]) (world s)
    = (Ok (JDict file), w1) ->
  truthy id = true ->
  permissions_create id writer_permission w1 = (outcome, w2) ->
  (exists granted, outcome = Ok (JDict granted))
  \/ (exists msg, outcome = Raise (HttpError msg)) ->
  let run := duplicate_presentation st copy_title s in
  fst run = Ok tt
  /\ world (snd run) = w2
  /\ permission_calls (trace (snd run)) =
     permission_calls (trace s) ++ [(id, writer_permission, outcome)]
  /\ (exists before,
        trace (snd run) =
        before ++ [Stdout (if verbose st
                           then py "Created new presentation: https://docs.google.com/presentation/d/"
                                ++ py_str id ++ py "/edit"
                           else py_str id)])
  /\ ((exists msg, outcome = Raise (HttpError msg)) ->
      In (Stderr (py "Failed to set permissions on the new presentation."))
         (trace (snd run))).
Proof.
  intros id Hbuild Hcopy Htruthy Hgrant Houtcome run. subst run. unfold id in *.
  unfold duplicate_presentation, copy_file, set_file_permissions_anyone_writer,
    get_drive_service.
  fold writer_permission.
  unfold try_http, bind, perform, call, when, echo, echo_err, emit, ret, raise,
    lift, get, get_default.
  rewrite Hbuild. cbn [negb world trace].
  destruct Houtcome as [[granted ->] | [msg ->]].
  - destruct (verbose st); cbn [world trace]; rewrite Hcopy;
      cbn [fst snd world trace]; fold (get_or_none (py "id") file);
      rewrite Htruthy; cbn [fst snd world trace]; rewrite Hgrant;
      cbn [fst snd world trace];
      destruct (truthy (match lookup (py "id") granted with
                        | Some v => v | None => JNull end));
      cbn [negb fst snd world trace];
      (split; [reflexivity|]; split; [reflexivity|]; split;
       [repeat rewrite permission_calls_app;
        cbn [permission_calls flat_map app]; repeat rewrite app_nil_r; reflexivity
       |split; [eexists; reflexivity | intros [msg [=]]]]).
  - destruct (verbose st); cbn [world trace]; rewrite Hcopy;
      cbn [fst snd world trace]; fold (get_or_none (py "id") file);
      rewrite Htruthy; cbn [fst snd world trace]; rewrite Hgrant;
      cbn [fst snd world trace truthy negb];
      (split; [reflexivity|]; split; [reflexivity|]; split;
       [repeat rewrite permission_calls_app;
        cbn [permission_calls flat_map app]; repeat rewrite app_nil_r; reflexivity
       |split; [eexists; reflexivity
               |intros _; apply in_or_app; left; apply in_or_app; right;
                left; reflexivity]]).
Qed.

End DuplicatePresentation.

(** A Drive that is down. *)
Lemma duplicate_presentation_not_copied_witness :
  let w := Reference.mk_ref_world [] [] 0 0 (2026, 11, 4)%Z true in
  let run := @duplicate_presentation _ Reference.services Reference.copying _ _
               (Reference.config false) (py "Copy") (Reference.start w) in
  fst run = Raise (Exit 1)
  /\ world (snd run) = w
  /\ permission_calls (trace (snd run)) = []
  /\ exists before,
       trace (snd run) =
       before ++ [Stderr (py "Failed to duplicate presentation '"
                          ++ py "deck-1" ++ py "'.")].
Proof.
  intros w run.
  assert (Hcopy : @files_copy _ Reference.copying
                    (presentation_id (Reference.config false))
                    (JDict [(py "name", JStr (py "Copy"))])
                    (world (Reference.start w))
                  = (Raise (HttpError (py "503 Service Unavailable")), w))
    by reflexivity.
  exact (@duplicate_presentation_not_copied _ Reference.services
           Reference.copying _ _ (Reference.config false) (py "Copy")
           (Reference.start w) _ w eq_refl Hcopy
           (or_introl (ex_intro _ (py "503 Service Unavailable") eq_refl))).
Defined.

(** A copy whose permission is refused: the identifier of the copy is
    still the last line. *)
Lemma duplicate_presentation_copied_witness :
  let w := Reference.mk_ref_world [] [] 0 0 (2026, 11, 4)%Z false in
  let w1 := Reference.mk_ref_world [] [] 1 0 (2026, 11, 4)%Z false in
  let unwilling := Reference.faulty (Reference.mk_faults false false true) in
  let run := @duplicate_presentation _ unwilling Reference.copying _ _
               (Reference.config false) (py "Copy") (Reference.start w) in
  fst run = Ok tt
  /\ world (snd run) = w1
  /\ permission_calls (trace (snd run)) =
     [] ++ [(JStr (py "copy_0"), writer_permission, Reference.refused)]
  /\ (exists before, trace (snd run) = before ++ [Stdout (py "copy_0")])
  /\ ((exists msg, Reference.refused = Raise (HttpError msg)) ->
      In (Stderr (py "Failed to set permissions on the new presentation."))
         (trace (snd run))).
Proof.
  intros w w1 unwilling run.
  assert (Hcopy : @files_copy _ Reference.copying
                    (presentation_id (Reference.config false))
                    (JDict [(py "name", JStr (py "Copy"))])
                    (world (Reference.start w))
                  = (Ok (JDict [(py "id", JStr (py "copy_0"))]), w1))
    by reflexivity.
  assert (Hgrant : @permissions_create _ unwilling
                     (get_or_none (py "id") [(py "id", JStr (py "copy_0"))])
                     writer_permission w1
                   = (Reference.refused, w1)) by reflexivity.
  exact (@duplicate_presentation_copied _ unwilling Reference.copying _ _
           (Reference.config false) (py "Copy") (Reference.start w)
           [(py "id", JStr (py "copy_0"))] w1 Reference.refused w1
           eq_refl Hcopy eq_refl Hgrant
           (or_intror (ex_intro _ (py "403 Forbidden") eq_refl))).
Defined.

(** ** The commands kept in the package file *)

Lemma len_no_http_error (x : json) : no_http_error (len x).
Proof. destruct x; intros msg; discriminate. Qed.

Lemma iter_no_http_error (x : json) : no_http_error (iter x).
Proof. destruct x; intros msg; discriminate. Qed.

Lemma get_default_no_http_error (x : json) (k : str) (d : json) :
  no_http_error (get_default x k d).
Proof. destruct x; intros msg; discriminate. Qed.

Lemma getitem_int_no_http_error (x : json) (i : Z) :
  no_http_error (getitem_int x i).
Proof.
  intros msg. unfold getitem_int.
  destruct x; try discriminate.
  - destruct ((0 <=? _) && _)%Z; [|discriminate].
    destruct (nth_error _ _); discriminate.
  - destruct ((0 <=? _) && _)%Z; [|discriminate].
    destruct (nth_error _ _); discriminate.
Qed.

Lemma get_slide_id_by_index_no_http_error (slides : json) (n : Z) :
  no_http_error (get_slide_id_by_index slides n).
Proof.
  intros msg. unfold get_slide_id_by_index.
  destruct (0 <? n)%Z; [|discriminate].
  destruct (len slides) as [k|e] eqn:Hlen; cbn [rbind].
  - destruct (n <=? k)%Z; [|discriminate].
    destruct (getitem_int slides (n - 1)) as [slide|e] eqn:Hitem; cbn [rbind].
    + apply get_default_no_http_error.
    + intros [= ->]. exact (getitem_int_no_http_error slides (n - 1) msg Hitem).
  - intros [= ->]. exact (len_no_http_error slides msg Hlen).
Qed.

Lemma state_eta {W : Type} (s : state W) : mk_state (world s) (trace s ++ []) = s.
Proof. destruct s. cbn. rewrite app_nil_r. reflexivity. Qed.

Lemma try_http_pass {W A : Type} (m : M W A) (h : str -> M W A)
    (s s' : state W) (r : result A) :
  m s = (r, s') -> no_http_error r -> try_http m h s = (r, s').
Proof.
  intros Hm Hr. unfold try_http. rewrite Hm.
  destruct r as [a|e]; [reflexivity|].
  destruct e; try reflexivity. exfalso. exact (Hr msg eq_refl).
Qed.

Section Legacy.
Context {W : Type} `{Services W} `{PyRepr} {Env : Type}.
Variable st : cli_state Env.

(** The loop over the slides writes lines and nothing else; what it
    returns does not depend on the state. *)
Lemma print_slide_details_run (slides : list json) :
  forall i, exists (r : result unit) (evs : list event),
    no_http_error r /\ batch_updates evs = []
    /\ forall s : state W,
         print_slide_details i slides s =
         (r, mk_state (world s) (trace s ++ evs)).
Proof.
  induction slides as [|slide rest IH]; intros i.
  - exists (Ok tt), []. split; [intros msg; discriminate|]. split; [reflexivity|].
    intros s. cbn [print_slide_details]. unfold ret. rewrite state_eta.
    reflexivity.
  - cbn [print_slide_details]. unfold bind, lift, emit.
    destruct (get slide (py "objectId")) as [slide_id|e] eqn:Hid.
    2:{ exists (Raise e), [].
        split; [intros msg [= ->]; exact (get_default_no_http_error _ _ _ msg Hid)|].
        split; [reflexivity|]. intros s. rewrite state_eta. reflexivity. }
    destruct (get_default slide (py "pageElements") (JList []))
      as [page_elements|e] eqn:Hels.
    2:{ exists (Raise e), [].
        split; [intros msg [= ->]; exact (get_default_no_http_error _ _ _ msg Hels)|].
        split; [reflexivity|]. intros s. rewrite state_eta. reflexivity. }
    destruct (len page_elements) as [n|e] eqn:Hlen.
    2:{ exists (Raise e), [].
        split; [intros msg [= ->]; exact (len_no_http_error _ msg Hlen)|].
        split; [reflexivity|]. intros s. rewrite state_eta. reflexivity. }
    destruct (IH (i + 1)%Z) as (r & evs & Hr & Hquiet & Hrun).
    exists r.
    exists (Stdout (py "- Slide #" ++ format_d (i + 1) ++ py " ("
                    ++ py_str slide_id ++ py ") contains " ++ format_d n
                    ++ py " elements.") :: evs).
    split; [exact Hr|]. split; [exact Hquiet|].
    intros s. rewrite Hrun. cbn [world trace]. rewrite <- app_assoc.
    reflexivity.
Qed.

Lemma init_print_slide_details_same (slides : list json) :
  forall i, sliger_init._print_slide_details (W:=W) i slides
            = print_slide_details i slides.
Proof.
  induction slides as [|slide rest IH]; intros i; [reflexivity|].
  cbn [sliger_init._print_slide_details print_slide_details].
  rewrite IH. reflexivity.
Qed.

Lemma try_http_bind_ok {A B : Type} (m : M W A) (k : A -> M W B)
    (h : str -> M W B) (s s1 : state W) (a : A) :
  m s = (Ok a, s1) -> try_http (bind m k) h s = try_http (k a) h s1.
Proof. intros Hm. unfold try_http, bind. rewrite Hm. reflexivity. Qed.

Lemma try_http_bind_raise {A B : Type} (m : M W A) (k : A -> M W B)
    (h : str -> M W B) (s s1 : state W) (e : exn) :
  m s = (Raise e, s1) -> no_http_error (@Raise A e) ->
  try_http (bind m k) h s = (Raise e, s1).
Proof.
  intros Hm He. unfold try_http, bind. rewrite Hm.
  destruct e; try reflexivity. exfalso. exact (He msg eq_refl).
Qed.

Lemma service_effects_echo (s : state W) (evs : list event) (w : W) :
  batch_updates evs = [] ->
  service_effects (mk_state w (trace s ++ evs)) = (w, batch_updates (trace s)).
Proof.
  intros Hquiet. unfold service_effects. cbn [world trace].
  rewrite batch_updates_app, Hquiet, app_nil_r. reflexivity.
Qed.

(** The two fetches. *)
Lemma get_presentation_slides_run (v : bool) (s : state W)
    (outcome : result json) (w1 : W) :
  presentations_get (presentation_id st) (world s) = (outcome, w1) ->
  exists evs,
    batch_updates evs = []
    /\ get_presentation_slides (presentation_id st) v s =
       (match outcome with
        | Ok presentation =>
            rbind (get presentation (py "slides")) (fun slides =>
            if v then rbind (len slides) (fun _ => Ok slides) else Ok slides)
        | Raise (HttpError _) => Ok JNull
        | Raise e => Raise e
        end,
        mk_state w1 (trace s ++ evs)).
Proof.
  intros Hget.
  unfold get_presentation_slides, try_http, bind, call, lift, when, emit, ret.
  rewrite Hget. cbn [world trace].
  destruct outcome as [presentation|e].
  - destruct (get presentation (py "slides")) as [slides|e] eqn:Hslides;
      cbn [rbind].
    + destruct v.
      * destruct (len slides) as [k|e] eqn:Hlen; cbn [rbind].
        -- cbn [world trace]. eexists.
           split; [|rewrite <- app_assoc; reflexivity]. reflexivity.
        -- pose proof (len_no_http_error slides) as Hno. rewrite Hlen in Hno.
           eexists. split; [|destruct e; try reflexivity;
                             exfalso; exact (Hno msg eq_refl)].
           reflexivity.
      * eexists. split; [|reflexivity]. reflexivity.
    + pose proof (get_default_no_http_error presentation (py "slides") JNull)
        as Hno.
      unfold get in Hslides. rewrite Hslides in Hno.
      eexists. split; [|destruct e; try reflexivity;
                        exfalso; exact (Hno msg eq_refl)].
      reflexivity.
  - destruct e; try (eexists; split; [|reflexivity]; reflexivity).
    eexists. split; [|cbn [world trace]; rewrite <- app_assoc; reflexivity].
    reflexivity.
Qed.

Lemma init_get_presentation_slides_run (s : state W)
    (outcome : result json) (w1 : W) :
  presentations_get (presentation_id st) (world s) = (outcome, w1) ->
  exists evs,
    batch_updates evs = []
    /\ sliger_init._get_presentation_slides (presentation_id st) s =
       (match outcome with
        | Ok presentation => get presentation (py "slides")
        | Raise (HttpError _) => Ok JNull
        | Raise e => Raise e
        end,
        mk_state w1 (trace s ++ evs)).
Proof.
  intros Hget.
  unfold sliger_init._get_presentation_slides, try_http, bind, call, lift,
    emit, ret.
  rewrite Hget. cbn [world trace].
  destruct outcome as [presentation|e].
  - destruct (get presentation (py "slides")) as [slides|e] eqn:Hslides.
    + eexists. split; [|reflexivity]. reflexivity.
    + pose proof (get_default_no_http_error presentation (py "slides") JNull)
        as Hno.
      unfold get in Hslides. rewrite Hslides in Hno.
      eexists. split; [|destruct e; try reflexivity;
                        exfalso; exact (Hno msg eq_refl)].
      reflexivity.
  - destruct e; try (eexists; split; [|reflexivity]; reflexivity).
    eexists. split; [|cbn [world trace]; rewrite <- app_assoc; reflexivity].
    reflexivity.
Qed.

(** From the resolution of the slide number on, the two commands do the
    same to the services. *)
Lemma delete_slide_rest_same (n : Z) (slides : json) (sa sb : state W) :
  service_effects sa = service_effects sb ->
  service_effects
    (snd (match get_slide_id_by_index slides n with
          | Raise e => (Raise e, sa)
          | Ok id =>
              if is_none id then
                match len slides with
                | Raise e => (Raise e, sa)
                | Ok k =>
                    (Raise (Exit 1),
                     mk_state (world sa)
                       (trace sa ++ [Stderr (slide_missing_message n k)]))
                end
              else delete_resolved_slide st n id sa
          end))
  = service_effects
      (snd (try_http
              (bind (lift (sliger_init._get_slide_id_by_index slides n))
                 (fun id =>
                    if is_none id then
                      emit (Stderr (init_slide_missing_message n))
                    else
                      bind (sliger_init.delete_slide_by_id (presentation_id st) id)
                           (fun res => when (verbose st) (emit (PPrint res)))))
              (fun err => emit (Stdout err)) sb)).
Proof.
  intros Heff. unfold service_effects in Heff. injection Heff as Hworld Hsent.
  change (sliger_init._get_slide_id_by_index slides n)
    with (get_slide_id_by_index slides n).
  destruct (get_slide_id_by_index slides n) as [id|e] eqn:Hid.
  - rewrite (try_http_bind_ok _ _ _ sb sb id eq_refl).
    destruct (is_none id).
    + unfold try_http, emit.
      destruct (len slides) as [k|e]; unfold service_effects; cbn [snd world trace];
        repeat rewrite batch_updates_app; cbn [batch_updates flat_map app];
        repeat rewrite app_nil_r; congruence.
    + unfold delete_resolved_slide, delete_slide_by_id,
        sliger_init.delete_slide_by_id, delete_request.
      unfold try_http, bind, call, when, echo, echo_err, emit, ret, raise.
      destruct (verbose st); cbn [world trace]; rewrite Hworld;
        destruct (presentations_batchUpdate _ _ (world sb)) as [[res|e] w2];
        try destruct e;
        unfold service_effects; cbn [snd world trace];
        repeat rewrite batch_updates_app; cbn [batch_updates flat_map app];
        repeat rewrite app_nil_r; congruence.
  - pose proof (get_slide_id_by_index_no_http_error slides n) as Hno.
    rewrite Hid in Hno.
    rewrite (try_http_bind_raise _ _ _ sb sb e eq_refl Hno).
    unfold service_effects. cbn [snd]. congruence.
Qed.

(** The details of the slides, as the two versions print them: the
    older one starts with the count that the later one prints when it
    fetches. *)
Lemma print_slide_details_if_verbose_run (slides : json) :
  (verbose st = true -> exists k, len slides = Ok k) ->
  exists (r : result unit) (evsa evsb : list event),
    no_http_error r /\ batch_updates evsa = [] /\ batch_updates evsb = []
    /\ (forall s : state W,
          print_slide_details_if_verbose slides (verbose st) s =
          (r, mk_state (world s) (trace s ++ evsa)))
    /\ (forall s : state W,
          sliger_init._print_slide_details_if_verbose st slides s =
          (r, mk_state (world s) (trace s ++ evsb))).
Proof.
  intros Hlen.
  unfold print_slide_details_if_verbose,
    sliger_init._print_slide_details_if_verbose.
  destruct (verbose st).
  - destruct (Hlen eq_refl) as [k Hk]. unfold bind, lift, emit. rewrite Hk.
    destruct (iter slides) as [items|e] eqn:Hiter.
    + destruct (print_slide_details_run items 0) as (r & evs & Hr & Hq & Hrun).
      exists r, evs,
        (Stdout (py "The presentation contains " ++ format_d k ++ py " slides:")
         :: evs).
      split; [exact Hr|]. split; [exact Hq|]. split; [exact Hq|].
      split; intros s.
      * apply Hrun.
      * rewrite init_print_slide_details_same, Hrun. cbn [world trace].
        rewrite <- app_assoc. reflexivity.
    + exists (Raise e), [],
        [Stdout (py "The presentation contains " ++ format_d k ++ py " slides:")].
      split; [intros msg [= ->]; exact (iter_no_http_error slides msg Hiter)|].
      split; [reflexivity|]. split; [reflexivity|].
      split; intros s; [rewrite state_eta|]; reflexivity.
  - exists (Ok tt), [], [].
    split; [intros msg; discriminate|].
    split; [reflexivity|]. split; [reflexivity|].
    split; intros s; unfold ret; rewrite state_eta; reflexivity.
Qed.

(** X18.  The [delete_slide] kept in the package file and the one of
    the command line do the same to the services: from a state where the
    presentation service can be built, they leave the same world behind
    and have sent the same batch updates, with the same outcomes.  They
    differ in what they write and in how they end. *)
Theorem init_delete_slide_same_effects (n : Z) (s : state W) :
  build (py "slides") (world s) = true ->
  service_effects (snd (sliger_init.delete_slide st n s))
  = service_effects (snd (delete_slide st n s)).
Proof.
  intros Hbuild.
  destruct (presentations_get (presentation_id st) (world s))
    as [outcome w1] eqn:Hget.
  destruct (get_presentation_slides_run (verbose st) s outcome w1 Hget)
    as (evsa & Hqa & Ha).
  destruct (init_get_presentation_slides_run s outcome w1 Hget)
    as (evsb & Hqb & Hb).
  set (sa := mk_state w1 (trace s ++ evsa)) in *.
  set (sb := mk_state w1 (trace s ++ evsb)) in *.
  assert (Heff : service_effects sa = service_effects sb).
  { unfold sa, sb. rewrite !service_effects_echo by assumption. reflexivity. }
  assert (Hother : forall (ra rb : result unit) (sa' sb' : state W),
            sa' = sa -> sb' = sb ->
            service_effects (snd (rb, sb')) = service_effects (snd (ra, sa'))).
  { intros ra rb sa' sb' -> ->. cbn [snd]. symmetry. exact Heff. }
  rewrite delete_slide_steps, Hbuild. cbn [negb]. rewrite Ha.
  unfold sliger_init.delete_slide. cbv zeta.
  assert (Hservice : sliger_init._get_slides_service (W:=W) s = (Ok true, s)).
  { unfold sliger_init._get_slides_service. rewrite Hbuild. reflexivity. }
  rewrite (try_http_bind_ok _ _ _ s s true Hservice).
  assert (Hfalsy : forall slides,
            truthy slides = false ->
            try_http
              (if negb (truthy slides) then ret tt
               else
                 bind (sliger_init._print_slide_details_if_verbose st slides)
                   (fun _ =>
                    bind (lift (sliger_init._get_slide_id_by_index slides n))
                      (fun id =>
                       if is_none id then
                         emit (Stderr ([10%N] ++ py "Slide number " ++ format_d n
                                       ++ py " doesn't exist. "
                                       ++ py "Please input an existing slide from your presentation."))
                       else
                         bind (sliger_init.delete_slide_by_id (presentation_id st) id)
                           (fun res => when (verbose st) (emit (PPrint res))))))
              (fun err => emit (Stdout err)) sb = (Ok tt, sb)).
  { intros slides ->. reflexivity. }
  assert (Hraise : forall (e : exn) (k : json -> M W unit),
            sliger_init._get_presentation_slides (presentation_id st) s
              = (Raise e, sb) ->
            no_http_error (@Raise json e) ->
            service_effects
              (snd (try_http
                      (bind (sliger_init._get_presentation_slides
                               (presentation_id st)) k)
                      (fun err => emit (Stdout err)) s))
            = service_effects (snd (@Raise unit e, sa))).
  { intros e k Hrun Hno.
    rewrite (try_http_bind_raise _ _ _ s sb e Hrun Hno). apply Hother; reflexivity. }
  destruct outcome as [presentation|e].
  - destruct (get presentation (py "slides")) as [slides|e] eqn:Hslides;
      cbn [rbind] in *.
    + rewrite (try_http_bind_ok _ _ _ s sb slides Hb).
      destruct (truthy slides) eqn:Htruthy.
      * assert (Hcases : (exists e, verbose st = true /\ len slides = Raise e)
                         \/ ((verbose st = true -> exists k, len slides = Ok k)
                             /\ (if verbose st
                                 then rbind (len slides) (fun _ => Ok slides)
                                 else Ok slides) = Ok slides)).
        { destruct (verbose st).
          - destruct (len slides) as [k|e].
            + right. split; [intros _; exists k|]; reflexivity.
            + left. exists e. split; reflexivity.
          - right. split; [discriminate | reflexivity]. }
        destruct Hcases as [(e & Hv & Hlen) | [Hlen ->]].
        -- rewrite Hv, Hlen. cbn [rbind negb].
           assert (Hprint : sliger_init._print_slide_details_if_verbose st slides sb
                            = (Raise e, sb)).
           { unfold sliger_init._print_slide_details_if_verbose, bind, lift.
             rewrite Hv, Hlen. reflexivity. }
           assert (Hno : no_http_error (@Raise unit e)).
           { intros msg [= ->]. exact (len_no_http_error slides msg Hlen). }
           rewrite (try_http_bind_raise _ _ _ sb sb e Hprint Hno).
           apply Hother; reflexivity.
        -- rewrite Htruthy. cbn [negb].
           destruct (print_slide_details_if_verbose_run slides Hlen)
             as (r & evsa' & evsb' & Hr & Hqa' & Hqb' & Hpa & Hpb).
           rewrite (Hpa sa).
           destruct r as [[]|e].
           ++ rewrite (try_http_bind_ok _ _ _ sb _ tt (Hpb sb)).
              symmetry. apply delete_slide_rest_same.
              unfold sa, sb, service_effects. cbn [world trace].
              rewrite !batch_updates_app, Hqa, Hqb, Hqa', Hqb'. reflexivity.
           ++ rewrite (try_http_bind_raise _ _ _ sb _ e (Hpb sb) Hr).
              unfold sa, sb, service_effects. cbn [snd world trace].
              rewrite !batch_updates_app, Hqa, Hqb, Hqa', Hqb'. reflexivity.
      * cbn [negb]. unfold try_http at 1. unfold ret at 1.
        destruct (verbose st); [destruct (len slides); cbn [rbind]|];
          try rewrite Htruthy; cbn [negb]; apply Hother; reflexivity.
    + assert (Hno : no_http_error (@Raise json e)).
      { intros msg [= ->].
        exact (get_default_no_http_error presentation (py "slides") JNull msg
                 Hslides). }
      apply (Hraise e _ Hb Hno).
  - destruct e;
      try (apply (Hraise _ _ Hb); intros msg'; discriminate).
    rewrite (try_http_bind_ok _ _ _ s sb JNull Hb).
    rewrite (Hfalsy JNull eq_refl). cbn [truthy negb].
    apply Hother; reflexivity.
Qed.

(** X19.  Where the [delete_slide] of the command line ends with exit
    status 1, the one kept in the package file ends normally: without
    slides it stops in silence; a slide number that does not resolve is
    reported on the error stream; a refused deletion is printed on the
    output by the handler that wraps the command. *)
Theorem init_delete_slide_ends_normally
    (n : Z) (s s1 : state W) (slides : json) :
  sliger_init._get_presentation_slides (presentation_id st) s = (Ok slides, s1) ->
  (truthy slides = false -> sliger_init.delete_slide st n s = (Ok tt, s1))
  /\ (forall s2 : state W,
        truthy slides = true ->
        sliger_init._print_slide_details_if_verbose st slides s1 = (Ok tt, s2) ->
        (get_slide_id_by_index slides n = Ok JNull ->
         sliger_init.delete_slide st n s =
         (Ok tt,
          mk_state (world s2)
            (trace s2 ++ [Stderr (init_slide_missing_message n)])))
        /\ (forall (id : json) (msg : str) (w3 : W),
              get_slide_id_by_index slides n = Ok id ->
              is_none id = false ->
              presentations_batchUpdate (presentation_id st) (delete_body id)
                (world s2) = (Raise (HttpError msg), w3) ->
              sliger_init.delete_slide st n s =
              (Ok tt,
               mk_state w3
                 (trace s2
                  ++ [CallBatchUpdate (presentation_id st) (delete_body id)
                        (Raise (HttpError msg));
                      Stdout msg])))).
Proof.
  intros Hfetch.
  unfold sliger_init.delete_slide. cbv zeta.
  assert (Hservice : sliger_init._get_slides_service (W:=W) s
                     = (Ok (build (py "slides") (world s)), s)) by reflexivity.
  rewrite (try_http_bind_ok _ _ _ s s _ Hservice).
  rewrite (try_http_bind_ok _ _ _ s s1 slides Hfetch).
  split.
  - intros ->. reflexivity.
  - intros s2 -> Hprint. cbn [negb].
    rewrite (try_http_bind_ok _ _ _ s1 s2 tt Hprint).
    change (sliger_init._get_slide_id_by_index slides n)
      with (get_slide_id_by_index slides n).
    split.
    + intros Hnone. rewrite Hnone. reflexivity.
    + intros id msg w3 Hid Hsome Hbatch. rewrite Hid.
      unfold try_http, bind, lift. rewrite Hsome.
      unfold sliger_init.delete_slide_by_id, call. fold (delete_body id).
      rewrite Hbatch. unfold emit. cbn [world trace].
      rewrite <- app_assoc. reflexivity.
Qed.

(** X20.  The [duplicate_slide] kept in the package file.  A slide
    number that does not resolve is reported only with [verbose], and
    the command ends normally.  After an accepted duplication the deck
    is fetched once more, with or without [verbose], and outside
    [_get_presentation_slides]: a refusal of this fetch is printed on
    the output by the handler that wraps the command. *)
Theorem init_duplicate_slide_outcome
    (n : Z) (s s1 s2 : state W) (slides : json) :
  sliger_init._get_presentation_slides (presentation_id st) s = (Ok slides, s1) ->
  truthy slides = true ->
  sliger_init._print_slide_details_if_verbose st slides s1 = (Ok tt, s2) ->
  (get_slide_id_by_index slides n = Ok JNull ->
   sliger_init.duplicate_slide st n s =
   (Ok tt,
    mk_state (world s2)
      (trace s2 ++ (if verbose st
                    then [Stderr (init_slide_missing_message n)]
                    else []))))
  /\ (forall (id response : json) (msg : str) (w3 w4 : W),
        get_slide_id_by_index slides n = Ok id ->
        is_none id = false ->
        presentations_batchUpdate (presentation_id st) (duplicate_body id)
          (world s2) = (Ok response, w3) ->
        presentations_get (presentation_id st) w3 = (Raise (HttpError msg), w4) ->
        sliger_init.duplicate_slide st n s =
        (Ok tt,
         mk_state w4
           (trace s2
            ++ [CallBatchUpdate (presentation_id st) (duplicate_body id)
                  (Ok response)]
            ++ (if verbose st then [PPrint response] else [])
            ++ [CallGet (presentation_id st) (Raise (HttpError msg));
                Stdout msg]))).
Proof.
  intros Hfetch Htruthy Hprint.
  unfold sliger_init.duplicate_slide. cbv zeta.
  assert (Hservice : sliger_init._get_slides_service (W:=W) s
                     = (Ok (build (py "slides") (world s)), s)) by reflexivity.
  rewrite (try_http_bind_ok _ _ _ s s _ Hservice).
  rewrite (try_http_bind_ok _ _ _ s s1 slides Hfetch).
  rewrite Htruthy. cbn [negb].
  rewrite (try_http_bind_ok _ _ _ s1 s2 tt Hprint).
  change (sliger_init._get_slide_id_by_index slides n)
    with (get_slide_id_by_index slides n).
  split.
  - intros Hnone. rewrite Hnone.
    unfold try_http, bind, lift, when, emit, ret. cbn [is_none].
    destruct (verbose st); [reflexivity|]. rewrite state_eta. reflexivity.
  - intros id response msg w3 w4 Hid Hsome Hbatch Hget. rewrite Hid.
    unfold try_http, bind, lift. rewrite Hsome.
    unfold sliger_init.duplicate_slide_by_id, call. fold (duplicate_body id).
    rewrite Hbatch. unfold when, emit, ret.
    destruct (verbose st); cbn [world trace]; rewrite Hget; cbn [world trace app];
      repeat rewrite <- app_assoc; reflexivity.
Qed.

End Legacy.

(** The second slide of a deck of two, deleted by the two commands with
    [verbose]. *)
Lemma init_delete_slide_same_effects_witness :
  let d := [Reference.mk_slide (py "s1") []; Reference.mk_slide (py "s2") []] in
  let w := Reference.mk_ref_world d [] 0 0 (2026, 11, 4)%Z false in
  service_effects (snd (sliger_init.delete_slide (Reference.config true) 2
                          (Reference.start w)))
  = service_effects (snd (delete_slide (Reference.config true) 2
                            (Reference.start w))).
Proof.
  intros d w.
  exact (init_delete_slide_same_effects (Reference.config true) 2
           (Reference.start w) eq_refl).
Defined.

(** Slide number 5 of a deck of two; and the first slide on a service
    that is down for batch updates. *)
Lemma init_delete_slide_ends_normally_witness :
  let d := [Reference.mk_slide (py "s1") []; Reference.mk_slide (py "s2") []] in
  let up := Reference.mk_ref_world d [] 0 0 (2026, 11, 4)%Z false in
  let down := Reference.mk_ref_world d [] 0 0 (2026, 11, 4)%Z true in
  let fetched := CallGet (py "deck-1")
                   (Ok (Reference.presentation_json (py "deck-1") d)) in
  sliger_init.delete_slide (Reference.config false) 5 (Reference.start up) =
    (Ok tt, mk_state up ([fetched] ++ [Stderr (init_slide_missing_message 5)]))
  /\ sliger_init.delete_slide (Reference.config false) 1 (Reference.start down) =
    (Ok tt,
     mk_state down
       ([fetched]
        ++ [CallBatchUpdate (py "deck-1") (delete_body (JStr (py "s1")))
              (Raise (HttpError (py "503 Service Unavailable")));
            Stdout (py "503 Service Unavailable")])).
Proof.
  intros d up down fetched.
  set (slides := JList (map Reference.slide_json d)).
  split.
  - assert (Hfetch : sliger_init._get_presentation_slides
                       (presentation_id (Reference.config false))
                       (Reference.start up)
                     = (Ok slides, mk_state up [fetched])) by reflexivity.
    exact (proj1 (proj2 (init_delete_slide_ends_normally (Reference.config false)
                           5 (Reference.start up) (mk_state up [fetched]) slides
                           Hfetch)
                    (mk_state up [fetched]) eq_refl eq_refl)
             eq_refl).
  - assert (Hfetch : sliger_init._get_presentation_slides
                       (presentation_id (Reference.config false))
                       (Reference.start down)
                     = (Ok slides, mk_state down [fetched])) by reflexivity.
    assert (Hbatch : presentations_batchUpdate
                       (presentation_id (Reference.config false))
                       (delete_body (JStr (py "s1")))
                       (world (mk_state down [fetched]))
                     = (Raise (HttpError (py "503 Service Unavailable")), down))
      by reflexivity.
    exact (proj2 (proj2 (init_delete_slide_ends_normally (Reference.config false)
                           1 (Reference.start down) (mk_state down [fetched])
                           slides Hfetch)
                    (mk_state down [fetched]) eq_refl eq_refl)
             (JStr (py "s1")) (py "503 Service Unavailable") down
             eq_refl eq_refl Hbatch).
Defined.

(** Without [verbose]: slide number 5 of a deck of two, passed over in
    silence; and the first slide, duplicated on a service that refuses
    the fetch that follows. *)
Lemma init_duplicate_slide_outcome_witness :
  let d := [Reference.mk_slide (py "s1") []; Reference.mk_slide (py "s2") []] in
  let d' := [Reference.mk_slide (py "s1") [];
             Reference.mk_slide (py "copy_of_s1") [];
             Reference.mk_slide (py "s2") []] in
  let w := Reference.mk_ref_world d [] 0 0 (2026, 11, 4)%Z false in
  let w' := Reference.mk_ref_world d' [] 0 0 (2026, 11, 4)%Z false in
  let fetched := CallGet (py "deck-1")
                   (Ok (Reference.presentation_json (py "deck-1") d)) in
  let response :=
    JDict [(py "presentationId", JStr (py "deck-1"));
           (py "replies",
            JList [JDict [(py "duplicateObject",
                           JDict [(py "objectId", JStr (py "copy_of_s1"))])]])] in
  @sliger_init.duplicate_slide _ Reference.metered _ _ (Reference.config false) 5
    (mk_state (w, 1%nat) []) =
    (Ok tt, mk_state (w, 0%nat) ([fetched] ++ []))
  /\ @sliger_init.duplicate_slide _ Reference.metered _ _ (Reference.config false) 1
       (mk_state (w, 1%nat) []) =
     (Ok tt,
      mk_state (w', 0%nat)
        ([fetched]
         ++ [CallBatchUpdate (py "deck-1") (duplicate_body (JStr (py "s1")))
               (Ok response)]
         ++ []
         ++ [CallGet (py "deck-1")
               (Raise (HttpError (py "429 Too Many Requests")));
             Stdout (py "429 Too Many Requests")])).
Proof.
  intros d d' w w' fetched response.
  set (slides := JList (map Reference.slide_json d)).
  set (s1 := mk_state (w, 0%nat) [fetched]).
  assert (Hfetch : @sliger_init._get_presentation_slides _ Reference.metered
                     (presentation_id (Reference.config false))
                     (mk_state (w, 1%nat) [])
                   = (Ok slides, s1)) by reflexivity.
  split.
  - exact (proj1 (@init_duplicate_slide_outcome _ Reference.metered _ _
                    (Reference.config false) 5 (mk_state (w, 1%nat) []) s1 s1
                    slides Hfetch eq_refl eq_refl)
             eq_refl).
  - assert (Hbatch : @presentations_batchUpdate _ Reference.metered
                       (presentation_id (Reference.config false))
                       (duplicate_body (JStr (py "s1"))) (world s1)
                     = (Ok response, (w', 0%nat))) by reflexivity.
    assert (Hget : @presentations_get _ Reference.metered
                     (presentation_id (Reference.config false)) (w', 0%nat)
                   = (Raise (HttpError (py "429 Too Many Requests")), (w', 0%nat)))
      by reflexivity.
    exact (proj2 (@init_duplicate_slide_outcome _ Reference.metered _ _
                    (Reference.config false) 1 (mk_state (w, 1%nat) []) s1 s1
                    slides Hfetch eq_refl eq_refl)
             (JStr (py "s1")) response (py "429 Too Many Requests")
             (w', 0%nat) (w', 0%nat) eq_refl eq_refl Hbatch Hget).
Defined.

(** ** A template that cannot be rendered *)

Section RenderFailure.
Context {W : Type} `{Services W} `{PyRepr} {Env : Type} `{Jinja Env}.
Variable st : cli_state Env.
Variable data : context.

(** The inner loop stops at the first text that fails to render. *)
Lemma jinjify_texts_fails (i : Z) (before : list TextRecord) :
  forall (s : state W) (rs : list str) (w1 : W) (acc : list json)
         (bad : TextRecord) (after : list TextRecord) (e : exn),
    renders (jinja_env st) data before (world s) rs w1 ->
    from_string_render (jinja_env st) (text bad)
      (render_context (fst (localtime w1)) data) = Raise e ->
    fst (jinjify_texts st data i (before ++ bad :: after) acc s) = Raise e.
Proof.
  induction before as [|record rest IH]; intros s rs w1 acc bad after e Hrenders Hbad.
  - inversion Hrenders; subst.
    cbn [app jinjify_texts]. unfold bind at 1.
    unfold render_jinja_in_string at 1.
    unfold bind at 1. unfold time_localtime at 1.
    destruct (localtime (world s)) as [now w1] eqn:Hclock.
    cbn [fst snd] in *. unfold lift at 1.
    unfold render_context in Hbad. rewrite Hbad. reflexivity.
  - inversion Hrenders as [|? ? ? ? r rs' Hr Hrest]; subst.
    cbn [app jinjify_texts]. unfold bind at 1.
    unfold render_jinja_in_string at 1.
    unfold bind at 1. unfold time_localtime at 1.
    destruct (localtime (world s)) as [now w2] eqn:Hclock.
    cbn [fst snd] in *. unfold lift at 1.
    unfold render_context in Hr. rewrite Hr.
    set (s1 := mk_state w2 (trace s)).
    destruct (negb (str_eqb r (text record))).
    + unfold bind at 1.
      destruct (echoes_state (verbose st)
                  [py "  Change on slide " ++ format_d (i + 1) ++ py " (element "
                   ++ py_str (object_id record) ++ py "):";
                   py "    Original: '" ++ text record ++ py "'";
                   py "    Rendered: '" ++ r ++ py "'"] s1)
        as (evs & Hecho & _).
      match goal with
      | |- context [when (verbose st) ?m s1] =>
          change (when (verbose st) m s1)
            with (when (verbose st)
                    (fold_right (fun msg rest => bind (echo msg) (fun _ => rest))
                       (ret tt)
                       [py "  Change on slide " ++ format_d (i + 1)
                        ++ py " (element " ++ py_str (object_id record) ++ py "):";
                        py "    Original: '" ++ text record ++ py "'";
                        py "    Rendered: '" ++ r ++ py "'"]) s1)
      end.
      rewrite Hecho.
      unfold bind at 1. unfold lift at 1.
      rewrite text_update_request_built.
      apply (IH _ rs' w1); [exact Hrest | exact Hbad].
    + apply (IH s1 rs' w1); [exact Hrest | exact Hbad].
Qed.

(** X21.  A text box whose template cannot be rendered.  The exception
    of the template engine is not caught: [jinjify] ends with it on the
    slide of that box.  Nothing is sent for this slide, the changes of
    the boxes before the failing one included, and the slides after it
    are not looked at. *)
Theorem jinjify_render_failure
    (i : Z) (slide slide_id : json) (before : list TextRecord) (bad : TextRecord)
    (after : list TextRecord) (rs : list str) (w1 : W) (e : exn) (total : Z)
    (s : state W) :
  extracts slide slide_id (before ++ bad :: after) ->
  renders (jinja_env st) data before (world s) rs w1 ->
  from_string_render (jinja_env st) (text bad)
    (render_context (fst (localtime w1)) data) = Raise e ->
  forall later : list json,
    let run := jinjify_slides st data i (slide :: later) total s in
    fst run = Raise e
    /\ batch_updates (trace (snd run)) = batch_updates (trace s).
Proof.
  intros (text_elements & Hid & Hels & Hrecords) Hrenders Hbad later run.
  assert (Hslide : exists s',
            jinjify_slide st data i slide total s = (Raise e, s')
            /\ batch_updates (trace s') = batch_updates (trace s)).
  { unfold jinjify_slide.
    unfold bind at 1. unfold lift at 1. rewrite Hid.
    unfold bind at 1.
    destruct (echoes_state (verbose st)
                [py "Processing Slide #" ++ format_d (i + 1) ++ py " ("
                 ++ py_str slide_id ++ py ")"] s)
      as (evs & Hecho & Hquiet).
    match goal with
    | |- context [when (verbose st) ?m s] =>
        change (when (verbose st) m s)
          with (when (verbose st)
                  (fold_right (fun msg rest => bind (echo msg) (fun _ => rest))
                     (ret tt)
                     [py "Processing Slide #" ++ format_d (i + 1) ++ py " ("
                      ++ py_str slide_id ++ py ")"]) s)
    end.
    rewrite Hecho.
    set (s1 := mk_state (world s) (trace s ++ evs)).
    unfold bind at 1. unfold lift at 1. rewrite Hels.
    destruct text_elements as [|el els].
    { cbn [rmap] in Hrecords. destruct before; discriminate Hrecords. }
    unfold bind at 1. unfold lift at 1. rewrite Hrecords.
    unfold bind at 1.
    pose proof (jinjify_texts_fails i before s1 rs w1 [] bad after e Hrenders Hbad)
      as Hfails.
    pose proof (quiet_jinjify_texts st data i (before ++ bad :: after) [] s1)
      as Hsent.
    destruct (jinjify_texts st data i (before ++ bad :: after) [] s1)
      as [[requests|e'] s2]; cbn [fst snd] in *; [discriminate|].
    injection Hfails as ->.
    exists s2. split; [reflexivity|].
    rewrite Hsent. unfold s1. cbn [trace].
    rewrite batch_updates_app, Hquiet. apply app_nil_r. }
  destruct Hslide as (s' & Hrun & Hsent).
  subst run. cbn [jinjify_slides]. unfold bind. rewrite Hrun.
  split; [reflexivity | exact Hsent].
Qed.

End RenderFailure.

(** A slide whose first box changes and whose second box holds a block
    tag that the engine of the reference world rejects; a second slide
    follows. *)
Lemma jinjify_render_failure_witness :
  let boxes := [Reference.TextBox (py "a") (py "Hi {{ name }}");
                Reference.TextBox (py "b") (py "{% oops %}")] in
  let first := Reference.mk_slide (py "s1") boxes in
  let second := Reference.mk_slide (py "s2")
                  [Reference.TextBox (py "c") (py "{{ name }}")] in
  let w := Reference.mk_ref_world [first; second] [] 0 0 (2026, 11, 4)%Z false in
  let data := [(py "name", CJson (JStr (py "Ann")))] in
  let run := jinjify_slides (Reference.config false) data 0
               (Reference.slide_json first :: [Reference.slide_json second]) 0
               (Reference.start w) in
  fst run = Raise TemplateError
  /\ batch_updates (trace (snd run)) = batch_updates (trace (Reference.start w)).
Proof.
  intros boxes first second w data.
  set (changing := mk_text_record (JStr (py "a")) (JStr (py "s1"))
                     (py "Hi {{ name }}")).
  set (failing := mk_text_record (JStr (py "b")) (JStr (py "s1"))
                    (py "{% oops %}")).
  assert (Hextracts : extracts (Reference.slide_json first) (JStr (py "s1"))
                        ([changing] ++ failing :: [])).
  { exists (map Reference.element_json boxes).
    split; [reflexivity|]. split; vm_compute; reflexivity. }
  assert (Hrenders : renders (jinja_env (Reference.config false)) data [changing]
                       (world (Reference.start w)) [py "Hi Ann"]
                       (snd (localtime w))).
  { apply renders_cons; [vm_compute; reflexivity|]. apply renders_nil. }
  assert (Hbad : from_string_render (jinja_env (Reference.config false))
                   (text failing)
                   (render_context (fst (localtime (snd (localtime w)))) data)
                 = Raise TemplateError) by (vm_compute; reflexivity).
  exact (jinjify_render_failure (Reference.config false) data 0
           (Reference.slide_json first) (JStr (py "s1")) [changing] failing []
           [py "Hi Ann"] (snd (localtime w)) TemplateError 0 (Reference.start w)
           Hextracts Hrenders Hbad [Reference.slide_json second]).
Defined.
